(** * Marantz SR6009 web remote: the response decoder and the OSD state machine

    A shallow embedding of [marantz_remote/response_parser.py] (the
    [OsdParser] class, the sub-parsers, the [PARSER_CONFIG] dispatch table and
    [parse_response]) together with the properties stated about them.

    Conventions of the embedding.
    - A Python [str] is a [string]: a sequence of characters with code points
      0..255, which covers the ASCII protocol of the receiver and the latin-1
      fallback of [TelnetEventHandler.process_data].  The character classes
      ([str.isspace], [\s], [\d], [str.lower]) are those of Python restricted
      to that range.
    - A Python [float] is a binary64 number of [SpecFloat] (53 bits of
      mantissa, exponent bound 1024), with the IEEE operations of that file.
    - [time.time()] is an input: every function that reads the clock takes
      the reading as an argument.
    - An exception is a value of [exc]; [int] is modelled without the
      interpreter's configurable limit on the number of digits. *)

From Stdlib Require Import ZArith List String Ascii Bool Lia.
From Stdlib Require Import Floats.SpecFloat.
From Stdlib Require DecimalString.
Import ListNotations.

Local Open Scope string_scope.
Local Open Scope Z_scope.

(* ===================================================================== *)
(** ** Python strings *)
(* ===================================================================== *)

Module Str.

(** [s.startswith(p)] *)
Fixpoint startswith (s p : string) {struct p} : bool :=
  match p, s with
  | EmptyString, _ => true
  | String a p', String b s' => Ascii.eqb a b && startswith s' p'
  | String _ _, EmptyString => false
  end.

(** The rest of [s] after the literal [p], when [s] starts with [p]. *)
Fixpoint strip_prefix (p s : string) {struct p} : option string :=
  match p, s with
  | EmptyString, _ => Some s
  | String a p', String b s' =>
      if Ascii.eqb a b then strip_prefix p' s' else None
  | String _ _, EmptyString => None
  end.

(** [s[n:]] *)
Fixpoint drop (n : nat) (s : string) : string :=
  match n, s with
  | O, _ => s
  | S n', String _ s' => drop n' s'
  | S _, EmptyString => EmptyString
  end.

(** [s[:n]] *)
Fixpoint take (n : nat) (s : string) : string :=
  match n, s with
  | O, _ => EmptyString
  | S n', String c s' => String c (take n' s')
  | S _, EmptyString => EmptyString
  end.

Definition code (c : ascii) : nat := nat_of_ascii c.

Definition in_range (lo hi : nat) (c : ascii) : bool :=
  (Nat.leb lo (code c) && Nat.leb (code c) hi)%bool.

(** [c.isspace()] for a code point below 256: TAB..CR, FS..US, space,
    NEL (0x85) and the no-break space (0xA0). *)
Definition isspace (c : ascii) : bool :=
  in_range 9 13 c || in_range 28 32 c
  || Nat.eqb (code c) 133 || Nat.eqb (code c) 160.

(** Decimal digits ([\d], and what [int] and [float] accept). *)
Definition isdecimal (c : ascii) : bool := in_range 48 57 c.

(** [c.isdigit()]: the decimal digits and the superscripts 2, 3 and 1
    (0xB2, 0xB3, 0xB9). *)
Definition isdigit_char (c : ascii) : bool :=
  isdecimal c || Nat.eqb (code c) 178 || Nat.eqb (code c) 179
  || Nat.eqb (code c) 185.

Fixpoint forallb (p : ascii -> bool) (s : string) : bool :=
  match s with
  | EmptyString => true
  | String c s' => p c && forallb p s'
  end.

Definition is_empty (s : string) : bool :=
  match s with EmptyString => true | String _ _ => false end.

(** [s.isdigit()]: non-empty and every character a digit. *)
Definition isdigit (s : string) : bool :=
  negb (is_empty s) && forallb isdigit_char s.

Fixpoint filter (p : ascii -> bool) (s : string) : string :=
  match s with
  | EmptyString => EmptyString
  | String c s' => if p c then String c (filter p s') else filter p s'
  end.

(** [s.lstrip(chars)] with the set of characters given as a predicate. *)
Fixpoint lstrip_by (p : ascii -> bool) (s : string) : string :=
  match s with
  | String c s' => if p c then lstrip_by p s' else s
  | EmptyString => EmptyString
  end.

(** [s.rstrip(chars)]. *)
Fixpoint rstrip_by (p : ascii -> bool) (s : string) : string :=
  match s with
  | EmptyString => EmptyString
  | String c s' =>
      match rstrip_by p s' with
      | EmptyString => if p c then EmptyString else String c EmptyString
      | r => String c r
      end
  end.

(** [s.strip()] *)
Definition strip (s : string) : string :=
  rstrip_by isspace (lstrip_by isspace s).

(** [c.lower()] below 256: A..Z and the accented capitals 0xC0..0xDE
    (the multiplication sign 0xD7 apart) move up by 32. *)
Definition lower_char (c : ascii) : ascii :=
  if in_range 65 90 c
     || (in_range 192 222 c && negb (Nat.eqb (code c) 215))
  then ascii_of_nat (code c + 32) else c.

Fixpoint lower (s : string) : string :=
  match s with
  | EmptyString => EmptyString
  | String c s' => String (lower_char c) (lower s')
  end.

(** [s.split(' ', 1)[1]] for a string that holds a space: what follows
    the first space. *)
Fixpoint after_first_space (s : string) : option string :=
  match s with
  | EmptyString => None
  | String c s' =>
      if Ascii.eqb c " " then Some s' else after_first_space s'
  end.

(** The value of a string of decimal digits, most significant first. *)
Definition digit_val (c : ascii) : Z := Z.of_nat (code c) - 48.

Fixpoint digits_acc (acc : Z) (s : string) : Z :=
  match s with
  | EmptyString => acc
  | String c s' => digits_acc (10 * acc + digit_val c) s'
  end.

Definition digits_val (s : string) : Z := digits_acc 0 s.

(** [str(n)] for an integer. *)
Definition of_Z (n : Z) : string :=
  DecimalString.NilZero.string_of_int (Z.to_int n).

End Str.

(* ===================================================================== *)
(** ** Exceptions *)
(* ===================================================================== *)

Inductive exn := ValueError | OverflowError.

Inductive exc (A : Type) :=
| Ok (a : A)
| Raise (e : exn).
Arguments Ok {A} a.
Arguments Raise {A} e.

Definition bind {A B} (c : exc A) (f : A -> exc B) : exc B :=
  match c with
  | Ok a => f a
  | Raise e => Raise e
  end.

Notation "x <- c ;; k" := (bind c (fun x => k))
  (at level 61, c at next level, right associativity).

(* ===================================================================== *)
(** ** Python floats and integers *)
(* ===================================================================== *)

Definition float := spec_float.
Definition prec : Z := 53.
Definition emax : Z := 1024.

(** The binary64 number nearest to [m * 2^e] (ties to even); it is that
    number exactly when [m] fits in 53 bits. *)
Definition dyadic (m e : Z) : float := binary_normalize prec emax m e false.

(** [float(n)] for an integer [n]. *)
Definition float_of_Z (n : Z) : float := dyadic n 0.

Definition fdiv (x y : float) : float := SFdiv prec emax x y.
Definition fsub (x y : float) : float := SFsub prec emax x y.
Definition fgt (x y : float) : bool := SFltb y x.

(** [float(s)], for the arguments the parsers pass: a non-empty string of
    decimal digits converts to the nearest binary64 number, anything else is
    reported as a [ValueError]. *)
Definition py_float (s : string) : exc float :=
  if negb (Str.is_empty s) && Str.forallb Str.isdecimal s
  then Ok (float_of_Z (Str.digits_val s))
  else Raise ValueError.

(** [int(s)], for the arguments the parsers pass: surrounding white space is
    ignored and a non-empty string of decimal digits converts to its value. *)
Definition py_int (s : string) : exc Z :=
  let t := Str.strip s in
  if negb (Str.is_empty t) && Str.forallb Str.isdecimal t
  then Ok (Str.digits_val t)
  else Raise ValueError.

(** [n / y] for an integer [n] and a float [y]: the integer converts to a
    float first, which overflows beyond the binary64 range. *)
Definition int_truediv (n : Z) (y : float) : exc float :=
  match float_of_Z n with
  | S754_infinity _ => Raise OverflowError
  | x => Ok (fdiv x y)
  end.

(** [f'{x:.2f}']: the exact value of [x] rounded to two decimals, ties to
    even. *)
Definition round_half_even_div (a b : Z) : Z :=
  let q := a / b in
  let r := a mod b in
  match 2 * r ?= b with
  | Lt => q
  | Gt => q + 1
  | Eq => if Z.even q then q else q + 1
  end.

Definition two_digits (n : Z) : string :=
  if n <? 10 then "0" ++ Str.of_Z n else Str.of_Z n.

Definition format_2f (x : float) : string :=
  match x with
  | S754_nan => "nan"
  | S754_infinity s => if s then "-inf" else "inf"
  | S754_zero s => if s then "-0.00" else "0.00"
  | S754_finite s m e =>
      let hundredths :=
        if 0 <=? e then 100 * Z.pos m * 2 ^ e
        else round_half_even_div (100 * Z.pos m) (2 ^ (- e)) in
      (if s then "-" else "")
        ++ Str.of_Z (hundredths / 100) ++ "." ++ two_digits (hundredths mod 100)
  end.

(* ===================================================================== *)
(** ** Regular expressions of the [re] module *)
(* ===================================================================== *)

(** The fragment of the pattern language the parsers use, matched the way
    [re] does: leftmost, with greedy quantifiers and ordered alternation,
    by backtracking.  A leading [^] is implied by [re.match]. *)
Module Re.

Inductive regex :=
| Lit (s : string)                   (* literal text *)
| Cls (p : ascii -> bool)            (* one character of a class *)
| Seq (r1 r2 : regex)                (* r1 r2 *)
| Alt (r1 r2 : regex)                (* r1|r2 *)
| Opt (r : regex)                    (* r? *)
| Rep (p : ascii -> bool) (lo : nat) (hi : option nat)
                                     (* c{lo,hi}; c* is {0,}, c+ is {1,} *)
| Grp (i : nat) (r : regex)          (* the i-th capturing group *)
| Eos.                               (* $ *)

(** Character classes. *)
Definition digit : ascii -> bool := Str.isdecimal.          (* \d *)
Definition space : ascii -> bool := Str.isspace.            (* \s *)
Definition any : ascii -> bool := fun _ => true.            (* . with DOTALL *)
Definition dot : ascii -> bool :=                           (* . *)
  fun c => negb (Ascii.eqb c "010").
Definition upper : ascii -> bool := Str.in_range 65 90.     (* [A-Z] *)

Definition star (p : ascii -> bool) : regex := Rep p 0 None.
Definition plus (p : ascii -> bool) : regex := Rep p 1 None.

(** The groups captured so far, the most recent first. *)
Definition caps := list (nat * string).

Fixpoint group (i : nat) (c : caps) : option string :=
  match c with
  | [] => None
  | (j, s) :: c' => if Nat.eqb i j then Some s else group i c'
  end.

(** [$] holds at the end of the string and just before a final newline. *)
Definition at_end (s : string) : bool :=
  match s with
  | EmptyString => true
  | String c EmptyString => Ascii.eqb c "010"
  | _ => false
  end.

Definition one_more (hi : option nat) : bool :=
  match hi with
  | Some O => false
  | _ => true
  end.

(** Greedy repetition of a class: take one more character when allowed,
    and give back when the rest of the pattern fails. *)
Fixpoint rep {A} (p : ascii -> bool) (lo : nat) (hi : option nat)
    (s : string) (k : string -> option A) : option A :=
  let stop := match lo with O => k s | S _ => None end in
  match s with
  | String c s' =>
      if p c && one_more hi then
        match rep p (Nat.pred lo) (option_map Nat.pred hi) s' k with
        | Some r => Some r
        | None => stop
        end
      else stop
  | EmptyString => stop
  end.

(** The text between a position [s] and a later position [s']. *)
Definition consumed (s s' : string) : string :=
  Str.take (String.length s - String.length s') s.

(** [run r s c k]: match [r] at the head of [s] and continue with [k] on
    what is left. *)
Fixpoint run (r : regex) (s : string) (c : caps)
    (k : string -> caps -> option caps) : option caps :=
  match r with
  | Lit l =>
      match Str.strip_prefix l s with
      | Some s' => k s' c
      | None => None
      end
  | Cls p =>
      match s with
      | String a s' => if p a then k s' c else None
      | EmptyString => None
      end
  | Seq r1 r2 => run r1 s c (fun s' c' => run r2 s' c' k)
  | Alt r1 r2 =>
      match run r1 s c k with
      | Some res => Some res
      | None => run r2 s c k
      end
  | Opt r1 =>
      match run r1 s c k with
      | Some res => Some res
      | None => k s c
      end
  | Rep p lo hi => rep p lo hi s (fun s' => k s' c)
  | Grp i r1 => run r1 s c (fun s' c' => k s' ((i, consumed s s') :: c'))
  | Eos => if at_end s then k s c else None
  end.

(** [re.match(r, s)] *)
Definition rmatch (r : regex) (s : string) : option caps :=
  run r s [] (fun _ c => Some c).

(** [re.search(r, s)]: the match at the leftmost position that has one. *)
Fixpoint search (r : regex) (s : string) : option caps :=
  match rmatch r s with
  | Some c => Some c
  | None =>
      match s with
      | String _ s' => search r s'
      | EmptyString => None
      end
  end.

(** [m.group(i)] of a group that took part in the match. *)
Definition grp (i : nat) (c : caps) : string :=
  match group i c with
  | Some s => s
  | None => EmptyString
  end.

End Re.

Declare Scope regex_scope.
Delimit Scope regex_scope with re.
Bind Scope regex_scope with Re.regex.
Infix ">>" := Re.Seq (at level 61, right associativity) : regex_scope.

(* ===================================================================== *)
(** ** Events *)
(* ===================================================================== *)

(** The values a payload dictionary holds. *)
Inductive value :=
| VStr (s : string)
| VInt (n : Z)
| VFloat (x : float)
| VBool (b : bool)
| VNone.

(** A payload is a dictionary literal: its keys in the order written. *)
Definition payload := list (string * value).

(** [(event_name, payload)] *)
Definition event := (string * payload)%type.

(* ===================================================================== *)
(** ** The OSD state machine: class [OsdParser] *)
(* ===================================================================== *)

Module OsdParser.

(** *** Constants for NSE line prefixes *)
Definition NOW_PLAYING_CHAR : string := String "001" "".
Definition CONTEXT_MENU_CHAR : string := String "002" "".
Definition SELECTED_ITEM_CHAR : string := String "004" "".
Definition MENU_ITEM_CHAR : string := String "005" "".
Definition PLAYING_ITEM_CHAR : ascii := "$".
Definition SPECIAL_MENU_ITEM_CHARS : list ascii :=
  ["006"; "010"; "014"]%char.

(** *** Constants for screen modes; [None] is the undetermined mode *)
Inductive mode := MODE_NOW_PLAYING | MODE_MENU | MODE_CONTEXT_MENU.

(** The [context] dictionary.  Nothing in the class writes an entry of
    [menu_items]; it is kept as the (line, text) table it is created as. *)
Record OsdContext := {
  screen_mode : option mode;
  last_update_time : float;
  screen_title : string;
  cursor_line : Z;
  menu_items : list (Z * string)
}.

(** The object: its timeout, its context and the slot of a selected item
    whose text is still to come. *)
Record OsdParser := {
  context_timeout : float;
  context : OsdContext;
  _pending_selected_line : option Z
}.

Definition set_context (self : OsdParser) (c : OsdContext) : OsdParser :=
  {| context_timeout := context_timeout self;
     context := c;
     _pending_selected_line := _pending_selected_line self |}.

Definition set_pending (self : OsdParser) (p : option Z) : OsdParser :=
  {| context_timeout := context_timeout self;
     context := context self;
     _pending_selected_line := p |}.

Definition set_screen_mode (c : OsdContext) (m : option mode) : OsdContext :=
  {| screen_mode := m;
     last_update_time := last_update_time c;
     screen_title := screen_title c;
     cursor_line := cursor_line c;
     menu_items := menu_items c |}.

Definition set_last_update_time (c : OsdContext) (t : float) : OsdContext :=
  {| screen_mode := screen_mode c;
     last_update_time := t;
     screen_title := screen_title c;
     cursor_line := cursor_line c;
     menu_items := menu_items c |}.

Definition set_screen_title (c : OsdContext) (t : string) : OsdContext :=
  {| screen_mode := screen_mode c;
     last_update_time := last_update_time c;
     screen_title := t;
     cursor_line := cursor_line c;
     menu_items := menu_items c |}.

Definition set_cursor_line (c : OsdContext) (l : Z) : OsdContext :=
  {| screen_mode := screen_mode c;
     last_update_time := last_update_time c;
     screen_title := screen_title c;
     cursor_line := l;
     menu_items := menu_items c |}.

(** [_clean_osd_text]: drop the control characters 0x00-0x1F and 0x7F,
    then strip white space. *)
Definition is_control (c : ascii) : bool :=
  Str.in_range 0 31 c || Nat.eqb (Str.code c) 127.

Definition _clean_osd_text (text : string) : string :=
  Str.strip (Str.filter (fun c => negb (is_control c)) text).

Definition _create_default_context : OsdContext :=
  {| screen_mode := None;
     last_update_time := S754_zero false;
     screen_title := "";
     cursor_line := -1;
     menu_items := [] |}.

(** [__init__]; the timeout is an integer number of seconds, held as the
    float it is compared as. *)
Definition init (context_timeout_seconds : Z) : OsdParser :=
  {| context_timeout := float_of_Z context_timeout_seconds;
     context := _create_default_context;
     _pending_selected_line := None |}.

(** The test of [_reset_context_if_timed_out]. *)
Definition timed_out (current_time : float) (self : OsdParser) : bool :=
  fgt (fsub current_time (last_update_time (context self)))
      (context_timeout self).

Definition _reset_context_if_timed_out (current_time : float)
    (self : OsdParser) : OsdParser :=
  let ctx :=
    if timed_out current_time self
    then set_screen_mode (context self) None
    else context self in
  set_context self (set_last_update_time ctx current_time).

(** [_handle_title_line]; [now] is its reading of the clock. *)
Definition _handle_title_line (now : float) (text : string)
    (self : OsdParser) : event * OsdParser :=
  let self :=
    if negb (String.eqb text (screen_title (context self))) then
      set_context (set_pending self None)
                  (set_screen_title _create_default_context text)
    else self in
  let ctx := set_last_update_time (context self) now in
  let ctx :=
    if String.eqb (Str.lower text) "now playing" then
      set_screen_mode ctx (Some MODE_NOW_PLAYING)
    else if String.eqb text "Menu" then
      set_screen_mode ctx (Some MODE_CONTEXT_MENU)
    else
      set_screen_mode ctx (Some MODE_MENU) in
  (("osd_title_update", [("text", VStr text)]), set_context self ctx).

(** The patterns of line 5 of the now-playing screen:
    [(\d{1,2}:\d{2}(?::\d{2})?)] and [(\d{1,3})%]. *)
Definition TIME_RE : Re.regex :=
  Re.Grp 1 (Re.Rep Re.digit 1 (Some 2%nat) >> Re.Lit ":"
            >> Re.Rep Re.digit 2 (Some 2%nat)
            >> Re.Opt (Re.Lit ":" >> Re.Rep Re.digit 2 (Some 2%nat)))%re.

Definition PERCENT_RE : Re.regex :=
  (Re.Grp 1 (Re.Rep Re.digit 1 (Some 3%nat)) >> Re.Lit "%")%re.

Definition _handle_now_playing_line (line : Z) (raw_text : string)
    : option event :=
  if (line =? 1) && Str.startswith raw_text NOW_PLAYING_CHAR then
    let text := _clean_osd_text (Str.drop 1 raw_text) in
    Some ("now_playing_title_update", [("text", VStr text)])
  else if (line =? 2) && Str.startswith raw_text NOW_PLAYING_CHAR then
    let text := _clean_osd_text (Str.drop 1 raw_text) in
    Some ("now_playing_artist_update", [("text", VStr text)])
  else if (line =? 3) && Str.startswith raw_text NOW_PLAYING_CHAR then
    let text := _clean_osd_text (Str.drop 1 raw_text) in
    if negb (Str.is_empty text)
    then Some ("now_playing_samplerate_update", [("text", VStr text)])
    else None
  else if line =? 4 then
    let text_to_clean :=
      if Str.startswith raw_text NOW_PLAYING_CHAR
      then Str.drop 1 raw_text else raw_text in
    let text := _clean_osd_text text_to_clean in
    if negb (Str.is_empty text)
    then Some ("now_playing_album_update", [("text", VStr text)])
    else None
  else if line =? 5 then
    let text := _clean_osd_text raw_text in
    let time_val :=
      match Re.search TIME_RE text with
      | Some m => VStr (Re.grp 1 m)
      | None => VNone
      end in
    let percent_val :=
      match Re.search PERCENT_RE text with
      | Some m => VInt (Str.digits_val (Re.grp 1 m))
      | None => VNone
      end in
    match time_val, percent_val with
    | VNone, VNone => None
    | _, _ =>
        Some ("play_progress_update",
              [("time", time_val); ("percent", percent_val)])
    end
  else None.

Definition _handle_menu_line (line : Z) (raw_text : string)
    (self : OsdParser) : option event * OsdParser :=
  let is_selected := Str.startswith raw_text SELECTED_ITEM_CHAR in
  let is_menu_item :=
    Str.startswith raw_text MENU_ITEM_CHAR
    || Str.startswith raw_text CONTEXT_MENU_CHAR
    || match raw_text with
       | String c _ => existsb (Ascii.eqb c) SPECIAL_MENU_ITEM_CHARS
       | EmptyString => false
       end in
  let text := _clean_osd_text (Str.drop 1 raw_text) in
  let self :=
    if is_selected
    then set_context self (set_cursor_line (context self) line)
    else self in
  if is_menu_item || is_selected then
    (Some ("osd_menu_item_update",
           [("line", VInt line); ("text", VStr text);
            ("is_selected", VBool is_selected)]), self)
  else (None, self).

Definition _handle_context_menu_line (line : Z) (raw_text : string)
    : option event :=
  if (1 <=? line) && (line <? 8) then
    let is_selected := negb (Str.startswith raw_text CONTEXT_MENU_CHAR) in
    let text := _clean_osd_text raw_text in
    if negb (Str.is_empty text) then
      Some ("osd_context_menu_item_update",
            [("line", VInt line); ("text", VStr text);
             ("is_selected", VBool is_selected)])
    else None
  else None.

(** [^NSE(\d)(.{0,})$] with [re.DOTALL] (the source writes the star
    form of [.{0,}]). *)
Definition NSE_RE : Re.regex :=
  (Re.Lit "NSE" >> Re.Grp 1 (Re.Cls Re.digit)
   >> Re.Grp 2 (Re.star Re.any) >> Re.Eos)%re.

Definition in_menu_modes (m : option mode) : bool :=
  match m with
  | Some MODE_MENU | Some MODE_CONTEXT_MENU => true
  | _ => false
  end.

(** [parse]: the entry point.  [now] is the clock as
    [_reset_context_if_timed_out] reads it and [now_title] as
    [_handle_title_line] reads it afterwards. *)
Definition parse (now now_title : float) (response : string)
    (self : OsdParser) : option event * OsdParser :=
  match _pending_selected_line self, Str.startswith response "NSE" with
  | Some line, false =>
      let text := _clean_osd_text response in
      let self := set_pending self None in
      let event_name :=
        match screen_mode (context self) with
        | Some MODE_CONTEXT_MENU => "osd_context_menu_item_update"
        | _ => "osd_menu_item_update"
        end in
      (Some (event_name,
             [("line", VInt line); ("text", VStr text);
              ("is_selected", VBool true)]), self)
  | _, _ =>
      match Re.rmatch NSE_RE response with
      | None => (None, self)
      | Some m =>
          let line := Str.digits_val (Re.grp 1 m) in
          let raw_text := Re.grp 2 m in
          let self := _reset_context_if_timed_out now self in
          if line =? 0 then
            let text := _clean_osd_text raw_text in
            let (ev, self) := _handle_title_line now_title text self in
            (Some ev, self)
          else if line =? 8 then
            let text :=
              _clean_osd_text
                (Str.lstrip_by (Ascii.eqb PLAYING_ITEM_CHAR) raw_text) in
            if negb (Str.is_empty text)
            then (Some ("station_info_update", [("text", VStr text)]), self)
            else (None, self)
          else if in_menu_modes (screen_mode (context self))
                  && Str.is_empty (Str.strip raw_text) then
            (None, set_pending self (Some line))
          else
            let self :=
              match screen_mode (context self) with
              | Some _ => self
              | None =>
                  let current_mode :=
                    if Str.startswith raw_text NOW_PLAYING_CHAR then
                      Some MODE_NOW_PLAYING
                    else if Str.startswith raw_text MENU_ITEM_CHAR
                            || Str.startswith raw_text SELECTED_ITEM_CHAR then
                      Some MODE_MENU
                    else if Str.startswith raw_text CONTEXT_MENU_CHAR
                            || Str.startswith raw_text (String "010" "") then
                      Some MODE_CONTEXT_MENU
                    else None in
                  set_context self (set_screen_mode (context self) current_mode)
              end in
            match screen_mode (context self) with
            | Some MODE_NOW_PLAYING =>
                (_handle_now_playing_line line raw_text, self)
            | Some MODE_MENU => _handle_menu_line line raw_text self
            | Some MODE_CONTEXT_MENU =>
                (_handle_context_menu_line line raw_text, self)
            | None => (None, self)
            end
      end
  end.

End OsdParser.

(* ===================================================================== *)
(** ** The sub-parsers *)
(* ===================================================================== *)

(** A sub-parser returns [None], a payload, or a full event, and may raise.
    In the comments a pattern's dot-star is written [.{0,}]. *)
Definition data_parser := string -> exc (option payload).
Definition full_parser := string -> exc (option event).

Definition ten : float := float_of_Z 10.
Definition fifty : float := float_of_Z 50.
Definition hundred : float := float_of_Z 100.

Definition str_in (s : string) (l : list string) : bool :=
  existsb (String.eqb s) l.

Fixpoint lookup (k : string) (d : list (string * string)) : option string :=
  match d with
  | [] => None
  | (k', v) :: d' => if String.eqb k k' then Some v else lookup k d'
  end.

(** The optional white-space character and the run of digits that most
    value patterns end with: [\s?(\d+)$] and [(\d+)$]. *)
Definition SP_DIGITS_END : Re.regex :=
  (Re.Opt (Re.Cls Re.space) >> Re.Grp 1 (Re.plus Re.digit) >> Re.Eos)%re.

Definition DIGITS_END : Re.regex :=
  (Re.Grp 1 (Re.plus Re.digit) >> Re.Eos)%re.

(** A group of alternative words, [(A|B|...)]. *)
Fixpoint alts (w : string) (ws : list string) : Re.regex :=
  match ws with
  | [] => Re.Lit w
  | w' :: ws' => Re.Alt (Re.Lit w) (alts w' ws')
  end.

Definition words (i : nat) (w : string) (ws : list string) : Re.regex :=
  Re.Grp i (alts w ws).

Definition _parse_value_with_half_step (raw_val_str : string) : exc float :=
  if Nat.eqb (String.length raw_val_str) 3
  then x <- py_float raw_val_str ;; Ok (fdiv x ten)
  else py_float raw_val_str.

Definition _create_on_off_parser (prefix on_val off_val : string)
    : data_parser :=
  let len_prefix := String.length prefix in
  fun response =>
    if negb (Str.startswith response prefix) then Ok None
    else
      let state_part := Str.drop len_prefix response in
      if String.eqb state_part on_val then Ok (Some [("state", VStr "on")])
      else if String.eqb state_part off_val then
        Ok (Some [("state",
                   VStr (if String.eqb off_val "STANDBY"
                         then "standby" else "off"))])
      else Ok None.

Definition _create_multi_state_parser (pattern : Re.regex)
    (normalization_map : option (list (string * string))) : data_parser :=
  fun response =>
    match Re.rmatch pattern response with
    | None => Ok None
    | Some m =>
        let state := Str.lower (Re.grp 1 m) in
        let state :=
          match normalization_map with
          | Some map =>
              match lookup state map with
              | Some v => v
              | None => state
              end
          | None => state
          end in
        Ok (Some [("state", VStr state)])
    end.

(** [^MVMAX\s?(\d+)$] and [^MV(\d+)$] *)
Definition MVMAX_RE : Re.regex := (Re.Lit "MVMAX" >> SP_DIGITS_END)%re.
Definition MV_RE : Re.regex := (Re.Lit "MV" >> DIGITS_END)%re.

Definition _parse_volume : full_parser :=
  fun response =>
    match Re.rmatch MVMAX_RE response with
    | Some max_match =>
        let raw_val_str := Re.grp 1 max_match in
        value <- _parse_value_with_half_step raw_val_str ;;
        Ok (Some ("max_volume_update", [("value", VFloat value)]))
    | None =>
        match Re.rmatch MV_RE response with
        | Some vol_match =>
            let raw_val_str := Re.grp 1 vol_match in
            value <- _parse_value_with_half_step raw_val_str ;;
            Ok (Some ("volume_update", [("value", VFloat value)]))
        | None => Ok None
        end
    end.

Definition _parse_mute : data_parser := _create_on_off_parser "MU" "ON" "OFF".

Definition _parse_subwoofer_status : data_parser :=
  _create_on_off_parser "PSSWR " "ON" "OFF".

(** [^PSDIL\s?(\d+)$] *)
Definition PSDIL_RE : Re.regex := (Re.Lit "PSDIL" >> SP_DIGITS_END)%re.

Definition _parse_dialog_level : data_parser :=
  fun response =>
    if str_in response ["PSDIL OFF"; "PSDILOFF"] then
      Ok (Some [("state", VStr "off")])
    else if str_in response ["PSDIL ON"; "PSDILON"] then
      Ok (Some [("state", VStr "on")])
    else
      match Re.rmatch PSDIL_RE response with
      | Some m =>
          let raw_val_str := Re.grp 1 m in
          value <- _parse_value_with_half_step raw_val_str ;;
          Ok (Some [("value", VFloat value)])
      | None => Ok None
      end.

(** [^PSMDAX\s?(OFF|LOW|MED|HI)$] *)
Definition _parse_mdax : data_parser :=
  _create_multi_state_parser
    (Re.Lit "PSMDAX" >> Re.Opt (Re.Cls Re.space)
     >> words 1 "OFF" ["LOW"; "MED"; "HI"] >> Re.Eos)%re
    (Some [("med", "medium"); ("hi", "high")]).

Definition _parse_cinema_eq : data_parser :=
  _create_on_off_parser "PSCINEQ" "ON" "OFF".
Definition _parse_dynamic_eq : data_parser :=
  _create_on_off_parser "PSDYNEQ" "ON" "OFF".

(** [^PSDYNVOL\s?(OFF|LIT|MED|HEV)$] *)
Definition _parse_dynamic_volume : data_parser :=
  _create_multi_state_parser
    (Re.Lit "PSDYNVOL" >> Re.Opt (Re.Cls Re.space)
     >> words 1 "OFF" ["LIT"; "MED"; "HEV"] >> Re.Eos)%re
    (Some [("lit", "light"); ("med", "medium"); ("hev", "heavy")]).

Definition _parse_picture_mode : data_parser :=
  let mode_map :=
    [("PVOFF", "off"); ("PVSTD", "standard"); ("PVMOV", "movie");
     ("PVVVD", "vivid"); ("PVSTM", "stream"); ("PVCTM", "custom");
     ("PVDAY", "isf_day"); ("PVNGT", "isf_night")] in
  fun response =>
    match lookup response mode_map with
    | Some v => Ok (Some [("state", VStr v)])
    | None => Ok None
    end.

Definition _parse_graphic_eq : data_parser :=
  _create_on_off_parser "PSGEQ" "ON" "OFF".

Definition _parse_tone_control : data_parser :=
  _create_on_off_parser "PSTONE CTRL " "ON" "OFF".

(** [^PSCEG\s?(\d{2})$] *)
Definition PSCEG_RE : Re.regex :=
  (Re.Lit "PSCEG" >> Re.Opt (Re.Cls Re.space)
   >> Re.Grp 1 (Re.Rep Re.digit 2 (Some 2%nat)) >> Re.Eos)%re.

Definition _parse_center_gain : data_parser :=
  fun response =>
    match Re.rmatch PSCEG_RE response with
    | Some m =>
        raw_val <- py_int (Re.grp 1 m) ;;
        let db_value := fdiv (float_of_Z raw_val) ten in
        Ok (Some [("value", VFloat db_value)])
    | None => Ok None
    end.

(** [^PSDRC\s(OFF|LOW|MID|HI)$] *)
Definition _parse_dynamic_range_compression : data_parser :=
  _create_multi_state_parser
    (Re.Lit "PSDRC" >> Re.Cls Re.space
     >> words 1 "OFF" ["LOW"; "MID"; "HI"] >> Re.Eos)%re
    (Some [("mid", "medium"); ("hi", "high")]).

(** [^PSEC\s?(ON|AUTO|OFF)$] *)
Definition _parse_eco_mode : data_parser :=
  _create_multi_state_parser
    (Re.Lit "PSEC" >> Re.Opt (Re.Cls Re.space)
     >> words 1 "ON" ["AUTO"; "OFF"] >> Re.Eos)%re
    None.

(** [^PSDCA\s?(AUTO|OFF)$] *)
Definition _parse_audyssey_dyn_comp : data_parser :=
  _create_multi_state_parser
    (Re.Lit "PSDCA" >> Re.Opt (Re.Cls Re.space)
     >> words 1 "AUTO" ["OFF"] >> Re.Eos)%re
    None.

(** [^SD\s?(AUTO|ANALOG|HDMI|ARC)$] *)
Definition _parse_sound_detail : data_parser :=
  _create_multi_state_parser
    (Re.Lit "SD" >> Re.Opt (Re.Cls Re.space)
     >> words 1 "AUTO" ["ANALOG"; "HDMI"; "ARC"] >> Re.Eos)%re
    None.

(** [^DC(AUTO|ANALOG|HDMI|DIGITAL)$] *)
Definition _parse_digital_control : data_parser :=
  _create_multi_state_parser
    (Re.Lit "DC" >> words 1 "AUTO" ["ANALOG"; "HDMI"; "DIGITAL"] >> Re.Eos)%re
    None.

(** The pattern is the escaped prefix followed by [\s?(\d+)$]. *)
Definition _create_numeric_parser (prefix : string) : data_parser :=
  let compiled_regex := (Re.Lit prefix >> SP_DIGITS_END)%re in
  fun response =>
    match Re.rmatch compiled_regex response with
    | Some m =>
        level <- py_int (Re.grp 1 m) ;;
        Ok (Some [("level", VInt level)])
    | None => Ok None
    end.

(** [^(SYREMOTE|SYPANEL(?:\+V)?) LOCK (ON|OFF)$] *)
Definition SYLOCK_RE : Re.regex :=
  (Re.Grp 1 (Re.Alt (Re.Lit "SYREMOTE")
                    (Re.Lit "SYPANEL" >> Re.Opt (Re.Lit "+V")))
   >> Re.Lit " LOCK " >> words 2 "ON" ["OFF"] >> Re.Eos)%re.

Definition _parse_system_lock : full_parser :=
  fun response =>
    match Re.rmatch SYLOCK_RE response with
    | Some m =>
        let lock_type := Str.lower (Re.grp 1 m) in
        let state := Str.lower (Re.grp 2 m) in
        let event_name :=
          if String.eqb lock_type "syremote"
          then "remote_lock_update" else "panel_lock_update" in
        Ok (Some (event_name, [("state", VStr state)]))
    | None => Ok None
    end.

Definition _parse_sound_mode : data_parser :=
  fun response =>
    if Str.startswith response "MS"
    then Ok (Some [("mode", VStr (Str.drop 2 response))])
    else Ok None.

Definition _parse_smart_select : data_parser :=
  fun response =>
    if Str.startswith response "MSSMART"
    then Ok (Some [("selection", VStr response)])
    else Ok None.

Definition _parse_play_state : data_parser :=
  fun response =>
    if Str.startswith response "NSF " || Str.startswith response "CRPLYSTS "
    then
      match Str.after_first_space response with
      | Some state => Ok (Some [("state", VStr state)])
      | None => Ok None
      end
    else Ok None.

(** [^SLP(\d+)$] *)
Definition SLP_RE : Re.regex := (Re.Lit "SLP" >> DIGITS_END)%re.

Definition _parse_sleep_timer : data_parser :=
  fun response =>
    if String.eqb response "SLPOFF" then Ok (Some [("state", VStr "off")])
    else
      match Re.rmatch SLP_RE response with
      | Some m =>
          minutes <- py_int (Re.grp 1 m) ;;
          if minutes =? 0 then Ok (Some [("state", VStr "off")])
          else Ok (Some [("state", VStr "on"); ("minutes", VInt minutes)])
      | None => Ok None
      end.

Definition contains_char (c : ascii) (s : string) : bool :=
  negb (Str.forallb (fun a => negb (Ascii.eqb a c)) s).

Definition _parse_tuner_status : full_parser :=
  fun response =>
    if Str.startswith response "TMAN" then
      let mode := Str.drop 4 response in
      Ok (Some ("tuner_mode_update", [("mode", VStr mode)]))
    else if Str.startswith response "TFAN" then
      let freq_str := Str.drop 4 response in
      if negb (Str.isdigit (Str.strip freq_str)) then
        Ok (Some ("tuner_name_update", [("name", VStr (Str.strip freq_str))]))
      else if Nat.leb 4 (String.length freq_str)
              && negb (contains_char "." freq_str) then
        n <- py_int freq_str ;;
        freq <- int_truediv n hundred ;;
        Ok (Some ("tuner_frequency_update",
                  [("frequency", VStr (format_2f freq))]))
      else
        n <- py_int freq_str ;;
        Ok (Some ("tuner_frequency_update",
                  [("frequency", VStr (Str.of_Z n))]))
    else if Str.startswith response "TPAN" then
      let preset := Str.drop 4 response in
      Ok (Some ("tuner_preset_update", [("preset", VStr preset)]))
    else Ok None.

Definition _parse_video_select : full_parser :=
  fun response =>
    if String.eqb response "SVON" then
      Ok (Some ("video_select_mode_update", [("state", VStr "on")]))
    else if String.eqb response "SVOFF" then
      Ok (Some ("video_select_mode_update", [("state", VStr "off")]))
    else if Str.startswith response "SV" then
      let source := Str.drop 2 response in
      if negb (Str.is_empty source) && negb (String.eqb source "?")
      then Ok (Some ("video_select_source_update", [("source", VStr source)]))
      else Ok None
    else Ok None.

(** [^TR([12])\s(ON|OFF)$] *)
Definition TR_RE : Re.regex :=
  (Re.Lit "TR"
   >> Re.Grp 1 (Re.Cls (fun c => Ascii.eqb c "1" || Ascii.eqb c "2"))
   >> Re.Cls Re.space >> words 2 "ON" ["OFF"] >> Re.Eos)%re.

Definition _parse_trigger : full_parser :=
  fun response =>
    match Re.rmatch TR_RE response with
    | Some m =>
        let trigger_num := Re.grp 1 m in
        let state := Re.grp 2 m in
        let event_name := "trigger_" ++ trigger_num ++ "_update" in
        Ok (Some (event_name, [("state", VStr (Str.lower state))]))
    | None => Ok None
    end.

(** [^Z2(\d+)$] and [^Z2([A-Z/]+)$] *)
Definition Z2_VOL_RE : Re.regex := (Re.Lit "Z2" >> DIGITS_END)%re.
Definition Z2_INPUT_RE : Re.regex :=
  (Re.Lit "Z2"
   >> Re.Grp 1 (Re.plus (fun c => Re.upper c || Ascii.eqb c "/"))
   >> Re.Eos)%re.

Definition _parse_zone2 : full_parser :=
  fun response =>
    if str_in response ["Z2ON"; "Z2OFF"] then
      Ok (Some ("zone2_power_update",
                [("state", VStr (if String.eqb response "Z2ON"
                                 then "on" else "off"))]))
    else if str_in response ["Z2MUON"; "Z2MUOFF"] then
      Ok (Some ("zone2_mute_update",
                [("state", VStr (if String.eqb response "Z2MUON"
                                 then "on" else "off"))]))
    else
      match Re.rmatch Z2_VOL_RE response with
      | Some vol_match =>
          let raw_val_str := Re.grp 1 vol_match in
          value <- _parse_value_with_half_step raw_val_str ;;
          Ok (Some ("zone2_volume_update", [("value", VFloat value)]))
      | None =>
          match Re.rmatch Z2_INPUT_RE response with
          | Some input_match =>
              Ok (Some ("zone2_input_source_update",
                        [("source", VStr (Re.grp 1 input_match))]))
          | None => Ok None
          end
      end.

(** [^PSREFLEV\s(\d+)$] *)
Definition PSREFLEV_RE : Re.regex :=
  (Re.Lit "PSREFLEV" >> Re.Cls Re.space >> DIGITS_END)%re.

Definition _parse_reference_level : data_parser :=
  fun response =>
    match Re.rmatch PSREFLEV_RE response with
    | Some m =>
        v <- py_int (Re.grp 1 m) ;;
        Ok (Some [("value", VInt v)])
    | None => Ok None
    end.

(** [^PSSWL\s?(\d+)$] *)
Definition PSSWL_RE : Re.regex := (Re.Lit "PSSWL" >> SP_DIGITS_END)%re.

Definition _parse_subwoofer_level_adjust : data_parser :=
  fun response =>
    if str_in response ["PSSWL OFF"; "PSSWLOFF"] then
      Ok (Some [("state", VStr "off")])
    else if str_in response ["PSSWL ON"; "PSSWLON"] then
      Ok (Some [("state", VStr "on")])
    else
      match Re.rmatch PSSWL_RE response with
      | Some m =>
          let raw_val_str := Re.grp 1 m in
          value <- _parse_value_with_half_step raw_val_str ;;
          let db_value := fsub value fifty in
          Ok (Some [("value", VFloat db_value)])
      | None => Ok None
      end.

(** [^CV([A-Z]{1,3})\s?(\d+)$] *)
Definition CV_RE : Re.regex :=
  (Re.Lit "CV" >> Re.Grp 1 (Re.Rep Re.upper 1 (Some 3%nat))
   >> Re.Opt (Re.Cls Re.space) >> Re.Grp 2 (Re.plus Re.digit) >> Re.Eos)%re.

Definition _parse_channel_level : full_parser :=
  fun response =>
    if String.eqb response "CVEND" then
      Ok (Some ("channel_level_list_end", []))
    else
      match Re.rmatch CV_RE response with
      | Some m =>
          let channel := Re.grp 1 m in
          let raw_val_str := Re.grp 2 m in
          value <- _parse_value_with_half_step raw_val_str ;;
          let db_value := fsub value fifty in
          Ok (Some ("channel_level_update",
                    [("channel", VStr channel); ("value", VFloat db_value)]))
      | None => Ok None
      end.

Definition _parse_power : data_parser :=
  _create_on_off_parser "PW" "ON" "STANDBY".

Definition _parse_input_source : data_parser :=
  fun response =>
    if Str.startswith response "SI"
    then Ok (Some [("source", VStr (Str.drop 2 response))])
    else Ok None.

(* ===================================================================== *)
(** ** The dispatch table and [parse_response] *)
(* ===================================================================== *)

(** An entry pairs a prefix with a parser that returns the full event (its
    event name is [None] in the source) or with a parser that returns the
    payload of the event named beside it. *)
Inductive parser_func :=
| Full (f : full_parser)
| Data (f : data_parser) (event_name : string).

Definition entry := (string * parser_func)%type.

Definition PARSER_CONFIG : list entry :=
  [ ("MVMAX", Full _parse_volume);
    ("MV", Full _parse_volume);
    ("MU", Data _parse_mute "mute_update");
    ("PSDIL", Data _parse_dialog_level "dialog_level_update");
    ("PSMDAX", Data _parse_mdax "mdax_update");
    ("PSCINEQ", Data _parse_cinema_eq "cinema_eq_update");
    ("PSDYNEQ", Data _parse_dynamic_eq "dynamic_eq_update");
    ("PSDYNVOL", Data _parse_dynamic_volume "dynamic_volume_update");
    ("PV", Data _parse_picture_mode "picture_mode_update");
    ("PW", Data _parse_power "power_update");
    ("SI", Data _parse_input_source "input_source_update");
    ("CV", Full _parse_channel_level);
    ("Z2", Full _parse_zone2);
    ("PSREFLEV", Data _parse_reference_level "reference_level_update");
    ("PSCEG", Data _parse_center_gain "center_gain_update");
    ("PSSWL", Data _parse_subwoofer_level_adjust "sub_level_adjust_update");
    ("PSSWR", Data _parse_subwoofer_status "subwoofer_status_update");
    ("PSGEQ", Data _parse_graphic_eq "graphic_eq_update");
    ("PSTONE CTRL ", Data _parse_tone_control "tone_control_update");
    ("PSDRC", Data _parse_dynamic_range_compression "drc_update");
    ("PSEC", Data _parse_eco_mode "eco_mode_update");
    ("SYREMOTE LOCK", Full _parse_system_lock);
    ("SYPANEL LOCK", Full _parse_system_lock);
    ("PSDCA", Data _parse_audyssey_dyn_comp "audyssey_dyn_comp_update");
    ("DC", Data _parse_digital_control "digital_control_update");
    ("NSEXT", Data (_create_on_off_parser "NSEXT " "ON" "OFF")
                   "nse_extended_update");
    (* ^NSPAN(USN|PAS|OK|NG|LOGIN|LOGOUT)\s?(.{0,})$ *)
    ("NSPAN", Data (_create_multi_state_parser
                      (Re.Lit "NSPAN"
                       >> words 1 "USN" ["PAS"; "OK"; "NG"; "LOGIN"; "LOGOUT"]
                       >> Re.Opt (Re.Cls Re.space)
                       >> Re.Grp 2 (Re.star Re.dot) >> Re.Eos)%re None)
                   "pandora_login_update");
    (* ^SSINFAISFSV\s(.{0,})$ *)
    ("SSINFAISFSV", Data (_create_multi_state_parser
                            (Re.Lit "SSINFAISFSV" >> Re.Cls Re.space
                             >> Re.Grp 1 (Re.star Re.dot) >> Re.Eos)%re None)
                         "signal_info_update");
    (* ^SSVCTZMAPON\s(.{0,})$ *)
    ("SSVCTZMAPON", Data (_create_multi_state_parser
                            (Re.Lit "SSVCTZMAPON" >> Re.Cls Re.space
                             >> Re.Grp 1 (Re.star Re.dot) >> Re.Eos)%re None)
                         "ssv_map_update");
    ("SV", Full _parse_video_select);
    ("SD", Data _parse_sound_detail "sound_detail_update");
    ("TR", Full _parse_trigger);
    ("PSLFE", Data (_create_numeric_parser "PSLFE") "lfe_level_update");
    ("PSBAS", Data (_create_numeric_parser "PSBAS") "bass_level_update");
    ("PSTRE", Data (_create_numeric_parser "PSTRE") "treble_level_update");
    (* ^PSMODE:(.{0,})$ *)
    ("PSMODE", Data (_create_multi_state_parser
                       (Re.Lit "PSMODE:"
                        >> Re.Grp 1 (Re.star Re.dot) >> Re.Eos)%re None)
                    "parameter_mode_update");
    (* ^SSSMG\s(.{0,})$ *)
    ("SSSMG", Data (_create_multi_state_parser
                      (Re.Lit "SSSMG" >> Re.Cls Re.space
                       >> Re.Grp 1 (Re.star Re.dot) >> Re.Eos)%re None)
                   "sound_submode_update");
    ("ZMON", Data (fun r => Ok (Some [("state", VStr "on")]))
                  "main_zone_power_update");
    ("ZMOFF", Data (fun r => Ok (Some [("state", VStr "off")]))
                   "main_zone_power_update");
    ("SLP", Data _parse_sleep_timer "sleep_timer_update");
    ("TM", Full _parse_tuner_status);
    ("TF", Full _parse_tuner_status);
    ("TP", Full _parse_tuner_status);
    ("MSSMART", Data _parse_smart_select "smart_select_update");
    ("MS", Data _parse_sound_mode "sound_mode_update");
    ("NSF ", Data _parse_play_state "play_state_update");
    ("CRPLYSTS ", Data _parse_play_state "play_state_update") ].

(** The truth value of a payload: an empty dictionary is false. *)
Definition truthy (d : payload) : bool :=
  match d with [] => false | _ :: _ => true end.

(** What the body of the loop does with the entry whose prefix matched. *)
Definition apply_entry (pf : parser_func) (response : string)
    : exc (option event) :=
  match pf with
  | Full parser_func => parser_func response
  | Data parser_func event_name =>
      data <- parser_func response ;;
      match data with
      | Some d => if truthy d then Ok (Some (event_name, d)) else Ok None
      | None => Ok None
      end
  end.

(** The loop of [parse_response] over a table. *)
Fixpoint dispatch (table : list entry) (response : string)
    : exc (option event) :=
  match table with
  | [] => Ok None
  | (prefix, pf) :: table' =>
      if Str.startswith response prefix
      then apply_entry pf response
      else dispatch table' response
  end.

(** [parse_response], with the shared [_osd_parser] object passed in and
    returned, and the two readings of the clock its [parse] may take. *)
Definition parse_response (now now_title : float) (response : string)
    (_osd_parser : OsdParser.OsdParser)
    : exc (option event) * OsdParser.OsdParser :=
  let (osd_event, _osd_parser) :=
    OsdParser.parse now now_title response _osd_parser in
  match osd_event with
  | Some ev => (Ok (Some ev), _osd_parser)
  | None => (dispatch PARSER_CONFIG response, _osd_parser)
  end.

(* ===================================================================== *)
(** ** The read path of [MarantzTelnetClient]: [_listen_for_updates] *)
(* ===================================================================== *)

(** Bytes are characters 0..255.  The argument of every call of
    [data_callback] is recorded, for a callback that returns: one that
    raises ends the listener, and what it does is not part of this model. *)
Module TelnetClient.

Definition CR : ascii := "013".

(** [b'\r' in buf] *)
Fixpoint has_cr (buf : string) : bool :=
  match buf with
  | EmptyString => false
  | String c buf' => Ascii.eqb c CR || has_cr buf'
  end.

(** [buf.split(b'\r', 1)] for a buffer that holds a carriage return: what
    precedes the first one, and what follows it. *)
Fixpoint split_cr (buf : string) : string * string :=
  match buf with
  | EmptyString => (EmptyString, EmptyString)
  | String c buf' =>
      if Ascii.eqb c CR then (EmptyString, buf')
      else let (line, rest) := split_cr buf' in (String c line, rest)
  end.

(** The [while b'\r' in self._line_buffer] loop, at most [rounds] times;
    [calls] are the arguments [data_callback] has received so far. *)
Fixpoint drain (rounds : nat) (line_buffer : string) (calls : list string)
    : list string * string :=
  match rounds with
  | O => (calls, line_buffer)
  | S rounds' =>
      if has_cr line_buffer then
        let (line, rest) := split_cr line_buffer in
        drain rounds' rest
              (if Str.is_empty line then calls
               else (calls ++ [(line ++ String CR "")%string])%list)
      else (calls, line_buffer)
  end.

(** One non-empty chunk read from the socket: it is appended to the buffer
    and the loop runs until no carriage return is left.  Every round removes
    a carriage return, so the length of the buffer bounds the rounds. *)
Definition receive (line_buffer chunk : string) : list string * string :=
  let buf := line_buffer ++ chunk in
  drain (String.length buf) buf [].

End TelnetClient.

(* ===================================================================== *)
(** ** [TelnetEventHandler.process_data] *)
(* ===================================================================== *)

(** The method from its decoded text on: the two decoders (UTF-8, then
    latin-1) are not modelled.  [socketio.emit] is recorded as the list of
    the events emitted, in order. *)
Module TelnetEventHandler.

Definition is_crlf (c : ascii) : bool :=
  Ascii.eqb c "013" || Ascii.eqb c "010".

(** [re.split(r'[\r\n]+', s)]: [cur] is the part being read and [in_run]
    tells that the last character read was a separator. *)
Fixpoint re_split (cur : string) (in_run : bool) (s : string)
    : list string :=
  match s with
  | EmptyString => [cur]
  | String c s' =>
      if is_crlf c then
        if in_run then re_split "" true s'
        else cur :: re_split "" true s'
      else re_split (cur ++ String c "") false s'
  end.

(** What one call leaves behind: the events emitted, the OSD parser, the
    number of calls of [parse_response] made so far, and the exception that
    ended the call, if any. *)
Definition outcome :=
  (list event * OsdParser.OsdParser * nat * option exn)%type.

(** The [for part in ...] loop.  [clock k] gives the two readings of the
    clock that the [k]-th call of [parse_response] may take. *)
Fixpoint loop (clock : nat -> float * float) (k : nat)
    (parts : list string) (osd : OsdParser.OsdParser) : outcome :=
  match parts with
  | [] => ([], osd, k, None)
  | part :: parts' =>
      let line := Str.strip part in
      if Str.is_empty line then loop clock k parts' osd
      else
        let (parsed_event, osd') :=
          parse_response (fst (clock k)) (snd (clock k)) line osd in
        match parsed_event with
        | Raise e => ([], osd', S k, Some e)
        | Ok parsed_event =>
            let '(emitted, osd'', k', raised) :=
              loop clock (S k) parts' osd' in
            (match parsed_event with
             | Some ev => ev :: emitted
             | None => emitted
             end, osd'', k', raised)
        end
  end.

Definition process_data (clock : nat -> float * float) (k : nat)
    (decoded_data : string) (osd : OsdParser.OsdParser) : outcome :=
  loop clock k (re_split "" false decoded_data) osd.

End TelnetEventHandler.

(* ===================================================================== *)
(** ** The value formatters of the setter commands *)
(* ===================================================================== *)

(** [format_volume] of [commands/main.py], [format_dialog_level] and
    [format_center_gain] of [commands/audio.py].  Each starts with
    [float(value_str)] on a string that comes from the request: that
    conversion is a parameter here, the rest is the arithmetic of binary64
    floats and unbounded integers. *)
Module Commands.

Definition fmul (x y : float) : float := SFmul prec emax x y.
Definition fadd (x y : float) : float := SFadd prec emax x y.
Definition feq (x y : float) : bool := SFeqb x y.
Definition fabs (x : float) : float := SFabs x.

(** [int(x)] for a float: the integer part, towards zero. *)
Definition int_of_float (x : float) : exc Z :=
  match x with
  | S754_nan => Raise ValueError
  | S754_infinity _ => Raise OverflowError
  | S754_zero _ => Ok 0
  | S754_finite s m e =>
      let a := if 0 <=? e then Z.pos m * 2 ^ e else Z.pos m / 2 ^ (- e) in
      Ok (if s then - a else a)
  end.

(** [round(x)] for a float: the nearest integer, ties to even. *)
Definition round_float (x : float) : exc Z :=
  match x with
  | S754_nan => Raise ValueError
  | S754_infinity _ => Raise OverflowError
  | S754_zero _ => Ok 0
  | S754_finite s m e =>
      let a := if 0 <=? e then Z.pos m * 2 ^ e
               else round_half_even_div (Z.pos m) (2 ^ (- e)) in
      Ok (if s then - a else a)
  end.

(** [x % y] for a divisor [y] that is finite and positive, as the 10 of
    the source is: the remainder of the C library, which is exact and has
    the sign of [x], moved into the range of [y] by adding [y] when it is
    negative. *)
Definition fmod_positive (x y : float) : float :=
  match x, y with
  | S754_zero _, S754_finite false _ _ => S754_zero false
  | S754_finite sx mx ex, S754_finite false my ey =>
      let e := Z.min ex ey in
      let r := (Z.pos mx * 2 ^ (ex - e)) mod (Z.pos my * 2 ^ (ey - e)) in
      if r =? 0 then S754_zero false
      else if sx then fadd (dyadic (- r) e) y
      else dyadic r e
  | _, _ => S754_nan
  end.

Fixpoint zeros (n : nat) : string :=
  match n with
  | O => ""
  | S n' => String "0" (zeros n')
  end.

(** [f"{n:0{width}d}"]: the sign, then zeros up to the width, then the
    digits. *)
Definition zero_pad (width : nat) (n : Z) : string :=
  let sign := if n <? 0 then "-" else "" in
  let digits := Str.of_Z (Z.abs n) in
  sign ++ zeros (width - String.length sign - String.length digits)
       ++ digits.

Definition half : float := dyadic 1 (-1).
Definition five : float := float_of_Z 5.

Section Formatters.

(** [float(s)] *)
Variable float_of_str : string -> exc float.

Definition format_volume (value_str : string) : exc string :=
  num_value <- float_of_str value_str ;;
  whole <- int_of_float num_value ;;
  if feq (fsub num_value (float_of_Z whole)) half then
    n <- int_of_float (fmul num_value ten) ;;
    Ok (zero_pad 3 n)
  else
    n <- int_of_float num_value ;;
    Ok (zero_pad 2 n).

Definition format_dialog_level (value_str : string) : exc string :=
  num_value <- float_of_str value_str ;;
  if feq (fabs (fmod_positive (fmul num_value ten) ten)) five then
    n <- int_of_float (fmul num_value ten) ;;
    Ok (Str.of_Z n)
  else
    n <- int_of_float num_value ;;
    Ok (Str.of_Z n).

Definition format_center_gain (value_str : string) : exc string :=
  num_value <- float_of_str value_str ;;
  n <- round_float (fmul num_value ten) ;;
  Ok (zero_pad 2 n).

End Formatters.

End Commands.

(* ===================================================================== *)
(** ** The command tables: [_merge_command_dicts] *)
(* ===================================================================== *)

(** [commands/__init__.py].  A table is a [dict] from command names to
    command descriptions, in insertion order; what a description holds
    plays no part in the merge, so its type is a parameter. *)
Module CommandMap.

Section Merge.

Variable command_info : Type.

Definition command_dict := list (string * command_info).

(** [key in merged_map] *)
Fixpoint has_key (key : string) (merged_map : command_dict) : bool :=
  match merged_map with
  | [] => false
  | (k, _) :: merged_map' => String.eqb k key || has_key key merged_map'
  end.

(** The merged table, or the [KeyError] raised for a key. *)
Inductive merge_result :=
| Merged (merged_map : command_dict)
| KeyError (key : string).

(** [for key, value in command_dict.items()] *)
Fixpoint merge_items (merged_map items : command_dict) : merge_result :=
  match items with
  | [] => Merged merged_map
  | (key, value) :: items' =>
      if has_key key merged_map then KeyError key
      else merge_items (merged_map ++ [(key, value)])%list items'
  end.

(** [for command_dict in dicts] *)
Fixpoint merge_from (merged_map : command_dict) (dicts : list command_dict)
    : merge_result :=
  match dicts with
  | [] => Merged merged_map
  | command_dict :: dicts' =>
      match merge_items merged_map command_dict with
      | Merged merged_map' => merge_from merged_map' dicts'
      | KeyError key => KeyError key
      end
  end.

Definition _merge_command_dicts (dicts : list command_dict) : merge_result :=
  merge_from [] dicts.

End Merge.

Arguments Merged {command_info} merged_map.
Arguments KeyError {command_info} key.

End CommandMap.

(* ===================================================================== *)
(** ** The configuration file: class [ConfigManager] *)
(* ===================================================================== *)

(** [config_manager.py].  The file on disk is part of the state: it is
    missing, unreadable ([open] or [json.load] raises [IOError] or
    [JSONDecodeError], the two exceptions [load_config] catches) or holds a
    JSON value; writing it can fail with the [IOError] that [save_config]
    catches.  [json.dump] followed by [json.load] is taken to give back the
    value written, and the directory of the file to exist or be creatable.
    JSON numbers are integers. *)
Module Config.

#[local] Unset Elimination Schemes.
Inductive json :=
| JNull
| JBool (b : bool)
| JInt (n : Z)
| JStr (s : string)
| JList (l : list json)
| JObj (members : list (string * json)).
#[local] Set Elimination Schemes.

(** A Python [dict] with string keys, in insertion order. *)
Definition dict := list (string * json).

(** [key in d] *)
Fixpoint has_key (key : string) (d : dict) : bool :=
  match d with
  | [] => false
  | (k, _) :: d' => String.eqb k key || has_key key d'
  end.

(** [d[key]] for a key of [d], [d.get(key)] in general *)
Fixpoint get (key : string) (d : dict) : option json :=
  match d with
  | [] => None
  | (k, v) :: d' => if String.eqb k key then Some v else get key d'
  end.

(** [d[key] = v]: the value of a key of [d] is replaced where it stands,
    a new key goes to the end. *)
Fixpoint set_item (key : string) (v : json) (d : dict) : dict :=
  match d with
  | [] => [(key, v)]
  | (k, x) :: d' =>
      if String.eqb k key then (k, v) :: d' else (k, x) :: set_item key v d'
  end.

(** [d.update(other)] for a [dict] [other] *)
Fixpoint update (d other : dict) : dict :=
  match other with
  | [] => d
  | (k, v) :: other' => update (set_item k v d) other'
  end.

(** [sub in s] for two strings *)
Fixpoint is_substring (sub s : string) : bool :=
  Str.startswith s sub
  || match s with
     | EmptyString => false
     | String _ s' => is_substring sub s'
     end.

(** The exceptions [load_config] does not catch. *)
Inductive error := TypeError | AttributeError.

Inductive result (A : Type) :=
| Done (a : A)
| Fail (e : error).
Arguments Done {A} a.
Arguments Fail {A} e.

Definition and_then {A B} (c : result A) (f : A -> result B) : result B :=
  match c with
  | Done a => f a
  | Fail e => Fail e
  end.

Notation "x <~ c ;; k" := (and_then c (fun x => k))
  (at level 61, c at next level, right associativity).

(** [key in data] for what [json.load] returned. *)
Definition contains (key : string) (data : json) : result bool :=
  match data with
  | JObj members => Done (has_key key members)
  | JList l =>
      Done (existsb (fun x => match x with
                              | JStr s => String.eqb s key
                              | _ => false
                              end) l)
  | JStr s => Done (is_substring key s)
  | JNull | JBool _ | JInt _ => Fail TypeError
  end.

(** [data[key]] after [key in data] held. *)
Definition getitem (key : string) (data : json) : result json :=
  match data with
  | JObj members =>
      match get key members with
      | Some v => Done v
      | None => Fail TypeError
      end
  | _ => Fail TypeError
  end.

Definition DEFAULT_INPUT_NAMES : dict :=
  [ ("SAT/CBL", JStr "SAT/CBL");
    ("BT", JStr "BLUETOOTH");
    ("TV", JStr "TV AUDIO");
    ("BD", JStr "BLU-RAY");
    ("DVD", JStr "DVD");
    ("GAME", JStr "GAME");
    ("MPLAY", JStr "MEDIA PLAYER");
    ("AUX1", JStr "AUX1");
    ("AUX2", JStr "AUX2");
    ("TUNER", JStr "TUNER");
    ("USB/IPOD", JStr "iPod/USB");
    ("CD", JStr "CD");
    ("NET", JStr "ONLINE MUSIC");
    ("PHONO", JStr "PHONO");
    ("IRADIO", JStr "INTERNET RADIO");
    ("PANDORA", JStr "PANDORA");
    ("FAVORITES", JStr "FAVORITES") ].

(** [FLASK_HOST] and [FLASK_PORT] of [config.py] *)
Definition DEFAULT_FLASK_HOST : json := JStr "0.0.0.0".
Definition DEFAULT_FLASK_PORT : json := JInt 5000.

(** The file [CONFIG_FILE] and whether it can be written. *)
Inductive file :=
| Missing
| Unreadable
| Content (data : json).

Record disk := {
  config_file : file;
  writable : bool
}.

Record ConfigManager := {
  _input_names : dict;
  _receiver_ip : json;
  _server_host : json;
  _server_port : json
}.

Definition set_input_names (self : ConfigManager) (names : dict)
    : ConfigManager :=
  {| _input_names := names;
     _receiver_ip := _receiver_ip self;
     _server_host := _server_host self;
     _server_port := _server_port self |}.

Definition set_ip (self : ConfigManager) (ip : json) : ConfigManager :=
  {| _input_names := _input_names self;
     _receiver_ip := ip;
     _server_host := _server_host self;
     _server_port := _server_port self |}.

Definition set_host (self : ConfigManager) (host : json) : ConfigManager :=
  {| _input_names := _input_names self;
     _receiver_ip := _receiver_ip self;
     _server_host := host;
     _server_port := _server_port self |}.

Definition set_port (self : ConfigManager) (port : json) : ConfigManager :=
  {| _input_names := _input_names self;
     _receiver_ip := _receiver_ip self;
     _server_host := _server_host self;
     _server_port := port |}.

Definition save_config (self : ConfigManager) (d : disk) : disk :=
  if writable d then
    let data_to_save :=
      JObj [ ("receiver_ip", _receiver_ip self);
             ("server_host", _server_host self);
             ("server_port", _server_port self);
             ("input_names", JObj (_input_names self)) ] in
    {| config_file := Content data_to_save; writable := true |}
  else d.

Section Environment.

(** [MARANTZ_IP] of [config.py]: the environment variable of that name,
    or 192.168.1.203. *)
Variable DEFAULT_MARANTZ_IP : string.

(** [names.update(x)] for an [x] that is not a [dict], which the file can
    hold under ["input_names"]: what it does then is left open. *)
Variable update_from_iterable : dict -> json -> result dict.

Definition defaults : ConfigManager :=
  {| _input_names := DEFAULT_INPUT_NAMES;
     _receiver_ip := JStr DEFAULT_MARANTZ_IP;
     _server_host := DEFAULT_FLASK_HOST;
     _server_port := DEFAULT_FLASK_PORT |}.

(** [load_config]; the fields [self] had are overwritten at once, so the
    result does not depend on them. *)
Definition load_config (d : disk) : result (ConfigManager * disk) :=
  let self := defaults in
  match config_file d with
  | Missing => Done (self, save_config self d)
  | Unreadable => Done (defaults, d)
  | Content data =>
      let config_was_updated := false in
      has_ip <~ contains "receiver_ip" data ;;
      step1 <~ (if has_ip
                then v <~ getitem "receiver_ip" data ;;
                     Done (set_ip self v, config_was_updated)
                else Done (self, true)) ;;
      let '(self, config_was_updated) := step1 in
      has_host <~ contains "server_host" data ;;
      step2 <~ (if has_host
                then v <~ getitem "server_host" data ;;
                     Done (set_host self v, config_was_updated)
                else Done (self, true)) ;;
      let '(self, config_was_updated) := step2 in
      has_port <~ contains "server_port" data ;;
      step3 <~ (if has_port
                then v <~ getitem "server_port" data ;;
                     Done (set_port self v, config_was_updated)
                else
                  custom_names <~
                    match data with
                    | JObj members =>
                        Done (match get "input_names" members with
                              | Some v => v
                              | None => JObj []
                              end)
                    | _ => Fail AttributeError
                    end ;;
                  names <~
                    match custom_names with
                    | JObj other => Done (update (_input_names self) other)
                    | x => update_from_iterable (_input_names self) x
                    end ;;
                  Done (set_input_names self names, true)) ;;
      let '(self, config_was_updated) := step3 in
      Done (self, if config_was_updated then save_config self d else d)
  end.

(** [ConfigManager()] *)
Definition init (d : disk) : result (ConfigManager * disk) :=
  load_config d.

Definition get_input_names (self : ConfigManager) : dict :=
  _input_names self.

Definition set_receiver_ip (new_ip : json) (self : ConfigManager) (d : disk)
    : ConfigManager * disk :=
  let self := set_ip self new_ip in
  (self, save_config self d).

Definition set_input_name (input_code : string) (new_name : json)
    (self : ConfigManager) (d : disk) : ConfigManager * disk :=
  if has_key input_code (_input_names self) then
    let self :=
      set_input_names self (set_item input_code new_name (_input_names self)) in
    (self, save_config self d)
  else (self, d).

Definition reset_input_names (self : ConfigManager) (d : disk)
    : ConfigManager * disk :=
  let self := set_input_names self DEFAULT_INPUT_NAMES in
  (self, save_config self d).

End Environment.

End Config.

(* ===================================================================== *)
(** ** The terms of the statements *)
(* ===================================================================== *)

Import OsdParser.

(** *** Events, titles and value strings *)

(** The event a buffered fragment is emitted as. *)
Definition fragment_event (m : option mode) (line : Z) (text : string)
    : event :=
  (match m with
   | Some MODE_CONTEXT_MENU => "osd_context_menu_item_update"
   | _ => "osd_menu_item_update"
   end,
   [("line", VInt line); ("text", VStr text); ("is_selected", VBool true)]).

(** The mode [_handle_title_line] derives from a title. *)
Definition mode_of_title (text : string) : mode :=
  if String.eqb (Str.lower text) "now playing" then MODE_NOW_PLAYING
  else if String.eqb text "Menu" then MODE_CONTEXT_MENU
  else MODE_MENU.

(** A non-empty string of decimal digits: what [(\d+)] captures. *)
Definition digit_string (d : string) : bool :=
  negb (Str.is_empty d) && Str.forallb Str.isdecimal d.

(** What [\s?] can take: nothing, or one white-space character. *)
Definition opt_space (sep : string) : bool :=
  match sep with
  | EmptyString => true
  | String c EmptyString => Re.space c
  | String _ (String _ _) => false
  end.

(** A string without decimal digits. *)
Definition digit_free (s : string) : bool :=
  Str.forallb (fun c => negb (Re.digit c)) s.

(** The conversion in the words of the specification: a 3-digit string is
    the number divided by 10, a string of any other length the number
    itself. *)
Definition half_step_value (d : string) : float :=
  if Nat.eqb (String.length d) 3
  then fdiv (float_of_Z (Str.digits_val d)) ten
  else float_of_Z (Str.digits_val d).

(** A channel name: one to three capital letters. *)
Definition channel_name (ch : string) : bool :=
  Nat.leb 1 (String.length ch) && Nat.leb (String.length ch) 3
  && Str.forallb Re.upper ch.

Definition decimal_digits : list ascii :=
  ["0"; "1"; "2"; "3"; "4"; "5"; "6"; "7"; "8"; "9"]%char.

Definition selected_text_event : event :=
  ("osd_menu_item_update",
   [("line", VInt 2); ("text", VStr "Selected Text");
    ("is_selected", VBool true)]).

Definition max_volume_73_5 : exc (option event) :=
  Ok (Some ("max_volume_update", [("value", VFloat (dyadic 147 (-1)))])).

(** The slot-1 line whose text is the now-playing signifier 0x01 followed by
    "Song A", and the same line with the menu-item signifier 0x05. *)
Definition soh_song : string := "NSE1" ++ NOW_PLAYING_CHAR ++ "Song A".
Definition enq_song : string := "NSE1" ++ MENU_ITEM_CHAR ++ "Song A".

(** *** States of the OSD parser used as examples *)

(** A state with slot 2 pending, in Menu mode, last updated at time 0. *)
Definition pending_menu_state : OsdParser :=
  {| context_timeout := float_of_Z 5;
     context := {| screen_mode := Some MODE_MENU;
                   last_update_time := float_of_Z 0;
                   screen_title := "Setup Menu";
                   cursor_line := -1;
                   menu_items := [] |};
     _pending_selected_line := Some 2 |}.

(** A parser in Menu mode whose context was last touched at time 0. *)
Definition stale_menu_state : OsdParser :=
  {| context_timeout := float_of_Z 5;
     context := {| screen_mode := Some MODE_MENU;
                   last_update_time := float_of_Z 0;
                   screen_title := "Setup Menu";
                   cursor_line := -1;
                   menu_items := [] |};
     _pending_selected_line := None |}.

(** The state reached from a fresh parser by the title "Now Playing" at
    time 0 and then, after the timeout, the menu item of slot 1 at time 100:
    the title is still "Now Playing" and the mode was inferred as Menu. *)
Definition inferred_menu_state : OsdParser :=
  {| context_timeout := float_of_Z 5;
     context := {| screen_mode := Some MODE_MENU;
                   last_update_time := float_of_Z 100;
                   screen_title := "Now Playing";
                   cursor_line := -1;
                   menu_items := [] |};
     _pending_selected_line := None |}.

(** *** Lines of the Telnet client *)

Import TelnetClient.

(** The lines of a buffer read off in one pass: [cur] is the segment
    being read. *)
Fixpoint scan (cur buf : string) : list string * string :=
  match buf with
  | EmptyString => ([], cur)
  | String c buf' =>
      if Ascii.eqb c CR then
        let (ls, rest) := scan "" buf' in
        (if Str.is_empty cur then ls else (cur ++ String CR "") :: ls, rest)
      else scan (cur ++ String c "") buf'
  end.

Fixpoint count_cr (buf : string) : nat :=
  match buf with
  | EmptyString => O
  | String c buf' => (if Ascii.eqb c CR then 1 else 0) + count_cr buf'
  end.

(** A delivered line: a non-empty segment without carriage return, then
    one carriage return. *)
Definition complete_line (l : string) : Prop :=
  exists seg, l = seg ++ String CR "" /\ seg <> "" /\ has_cr seg = false.

Definition not_cr (c : ascii) : bool := negb (Ascii.eqb c CR).

Fixpoint concat_lines (ls : list string) : string :=
  match ls with
  | [] => ""
  | l :: ls' => l ++ concat_lines ls'
  end.

(** *** Lines of a packet *)

Import TelnetEventHandler.

(** The lines [process_data] hands to [parse_response]. *)
Definition lines_of (cur : string) (in_run : bool) (s : string)
    : list string :=
  List.filter (fun l => negb (Str.is_empty l))
              (List.map Str.strip (re_split cur in_run s)).

Definition not_crlf (c : ascii) : bool := negb (is_crlf c).

(** The first character of a string, if any, satisfies [p]. *)
Definition head_is (p : ascii -> bool) (s : string) : bool :=
  match s with
  | EmptyString => false
  | String c _ => p c
  end.

(** A run of separators: a non-empty string of carriage returns and line
    feeds. *)
Definition separator (sep : string) : bool :=
  negb (Str.is_empty sep) && Str.forallb is_crlf sep.

(** *** Runs of the OSD parser *)

(** A slot that holds a content line: 1 to 7, and 9. *)
Definition content_slot (n : Z) : bool :=
  (1 <=? n) && (n <=? 9) && negb (n =? 8).

(** One call of [parse_response]: the two readings of the clock it may
    take, and its line. *)
Definition call := (float * float * string)%type.

(** The shared parser object after a sequence of calls. *)
Fixpoint run_calls (calls : list call) (osd : OsdParser) : OsdParser :=
  match calls with
  | [] => osd
  | (now, now_title, response) :: calls' =>
      run_calls calls' (snd (parse_response now now_title response osd))
  end.

(** What holds of the parser object throughout a run. *)
Definition osd_invariant (timeout : Z) (self : OsdParser) : Prop :=
  context_timeout self = float_of_Z timeout
  /\ menu_items (context self) = []
  /\ (cursor_line (context self) = -1
      \/ content_slot (cursor_line (context self)) = true)
  /\ match _pending_selected_line self with
     | Some n => content_slot n = true
     | None => True
     end.

Definition not_control (c : ascii) : bool := negb (is_control c).

(** *** Lines of the dispatch table *)

(** What [$] leaves unread: nothing, or one final newline. *)
Definition line_end (nl : string) : bool :=
  String.eqb nl "" || String.eqb nl (String "010" "").


(** [P] holds of [count] consecutive integers from [n] on. *)
Fixpoint all_from (P : Z -> bool) (n : Z) (count : nat) : bool :=
  match count with
  | O => true
  | S count' => P n && all_from P (n + 1) count'
  end.

(** The number of hundredths [format_2f] writes for a float that is not
    negative, and the test that a tuner line of value [n] is formatted as
    the exact decimal of [n / 100]. *)
Definition hundredths (x : float) : option Z :=
  match x with
  | S754_zero false => Some 0
  | S754_finite false m e =>
      Some (if 0 <=? e then 100 * Z.pos m * 2 ^ e
            else round_half_even_div (100 * Z.pos m) (2 ^ (- e)))
  | _ => None
  end.


(** A call that returns: it does not raise. *)
Definition returns {A} (x : exc A) : Prop := exists a, x = Ok a.

(** The interpreter's default limit on the number of digits [int] converts
    ([sys.int_max_str_digits]). *)
Definition int_max_str_digits : nat := 4300.

(** *** The order of the dispatch table *)

(** No prefix of [table] starts with a prefix that stands before it
    ([seen] are the prefixes before [table]): no entry hides a later one
    from the line that is that one's own prefix. *)
Fixpoint unshadowed (seen : list string) (table : list entry) : bool :=
  match table with
  | [] => true
  | (prefix, _) :: table' =>
      List.forallb (fun q => negb (Str.startswith prefix q)) seen
      && unshadowed (seen ++ [prefix]) table'
  end.

Import Commands.

(** *** Values sent and values decoded *)

(** Structural equality of floats. *)
Definition same_float (x y : float) : bool :=
  match x, y with
  | S754_zero a, S754_zero b => Bool.eqb a b
  | S754_infinity a, S754_infinity b => Bool.eqb a b
  | S754_nan, S754_nan => true
  | S754_finite a m e, S754_finite b m' e' =>
      Bool.eqb a b && Pos.eqb m m' && Z.eqb e e'
  | _, _ => false
  end.

(** The line [prefix] followed by the text a formatter returns is decoded
    as the event [name] with the single entry ["value"], of value [v]. *)
Definition decoded_as (prefix : string) (out : exc string) (name : string)
    (v : float) : bool :=
  match out with
  | Ok text =>
      match dispatch PARSER_CONFIG (prefix ++ text) with
      | Ok (Some (name', [(key, VFloat v')])) =>
          String.eqb name' name && String.eqb key "value" && same_float v' v
      | _ => false
      end
  | Raise _ => false
  end.

(** The formatters from the float on. *)
Definition volume_text (v : float) : exc string :=
  format_volume (fun _ => Ok v) "".
Definition dialog_level_text (v : float) : exc string :=
  format_dialog_level (fun _ => Ok v) "".

(** *** Keys of the command tables *)

(** The first key of [keys] that stands in [seen] or earlier in [keys]. *)
Fixpoint first_repeated (seen keys : list string) : option string :=
  match keys with
  | [] => None
  | k :: keys' =>
      if existsb (String.eqb k) seen then Some k
      else first_repeated (seen ++ [k])%list keys'
  end.


(** *** A selected item and its text in one packet *)

(** The packet: the line of slot [d] without text, a line feed, the text
    and the carriage return that ends the line. *)
Definition selected_item_packet (d : ascii) (text : string) : string :=
  "NSE" ++ String d "" ++ String "010" "" ++ text ++ String "013" "".

(* ===================================================================== *)
(** ** Strings and patterns *)
(* ===================================================================== *)

Lemma startswith_false_strip_prefix (p s : string) :
  Str.startswith s p = false -> Str.strip_prefix p s = None.
Proof.
  revert s; induction p as [|a p IH]; intros [|b s];
    cbn [Str.startswith Str.strip_prefix]; try discriminate; auto.
  destruct (Ascii.eqb a b); cbn [andb]; auto.
Qed.

Lemma startswith_app (p s : string) : Str.startswith (p ++ s) p = true.
Proof.
  induction p as [|a p IH]; cbn [Str.startswith String.append]; auto.
  now rewrite Ascii.eqb_refl.
Qed.

Lemma strip_prefix_app (p s : string) : Str.strip_prefix p (p ++ s) = Some s.
Proof.
  induction p as [|a p IH]; cbn [Str.strip_prefix String.append]; auto.
  now rewrite Ascii.eqb_refl.
Qed.

Lemma startswith_inv (p s : string) :
  Str.startswith s p = true -> exists rest, s = p ++ rest.
Proof.
  revert s; induction p as [|a p IH]; intros s H.
  - now exists s.
  - destruct s as [|b s]; cbn [Str.startswith] in H; try discriminate.
    apply andb_true_iff in H as [Hab Hs].
    apply Ascii.eqb_eq in Hab; subst b.
    destruct (IH _ Hs) as [rest ->]. now exists rest.
Qed.

Lemma strip_prefix_mismatch x p c s :
  Ascii.eqb x c = false -> Str.strip_prefix (String x p) (String c s) = None.
Proof. intros H. cbn [Str.strip_prefix]. now rewrite H. Qed.

Lemma string_eqb_mismatch c s x t :
  Ascii.eqb c x = false -> String.eqb (String c s) (String x t) = false.
Proof. intros H. cbn [String.eqb]. now rewrite H. Qed.

Lemma take_length_sub_0 (s : string) :
  Str.take (String.length s - 0) s = s.
Proof.
  rewrite Nat.sub_0_r. induction s as [|c s IH]; simpl; congruence.
Qed.

Lemma length_app_ge (d s : string) :
  (String.length s <= String.length (d ++ s))%nat.
Proof. induction d; simpl; lia. Qed.

Lemma take_app_length (d s : string) :
  Str.take (String.length (d ++ s) - String.length s) (d ++ s) = d.
Proof.
  induction d as [|c d IH]; cbn [String.append String.length].
  - rewrite Nat.sub_diag. now destruct s.
  - pose proof (length_app_ge d s).
    replace (S (String.length (d ++ s)) - String.length s)%nat
      with (S (String.length (d ++ s) - String.length s)) by lia.
    cbn [Str.take]. now rewrite IH.
Qed.

Lemma digit_not_space c : Re.digit c = true -> Re.space c = false.
Proof.
  destruct c as [[] [] [] [] [] [] [] []]; intros H;
    try discriminate; reflexivity.
Qed.

Lemma digit_neq c x :
  Re.digit c = true -> Re.digit x = false -> Ascii.eqb x c = false.
Proof.
  intros Hc Hx. destruct (Ascii.eqb_spec x c); auto. congruence.
Qed.

Lemma digit_neq' c x :
  Re.digit c = true -> Re.digit x = false -> Ascii.eqb c x = false.
Proof.
  intros Hc Hx. destruct (Ascii.eqb_spec c x); auto. congruence.
Qed.

Lemma digit_not_upper c : Re.digit c = true -> Re.upper c = false.
Proof.
  destruct c as [[] [] [] [] [] [] [] []]; intros H;
    try discriminate; reflexivity.
Qed.

Lemma digit_cases c : Re.digit c = true -> In c decimal_digits.
Proof.
  destruct c as [[] [] [] [] [] [] [] []]; intros H; try discriminate;
    cbn; tauto.
Qed.

Lemma digit_zero d :
  Re.digit d = true -> (Str.digits_val (String d "") =? 0) = true ->
  d = "0"%char.
Proof.
  destruct d as [[] [] [] [] [] [] [] []]; intros Hd H0;
    try discriminate; reflexivity.
Qed.

Lemma digit_string_inv d :
  digit_string d = true ->
  exists c d', d = String c d' /\ Re.digit c = true
               /\ Str.forallb Re.digit d = true.
Proof.
  unfold digit_string. destruct d as [|c d']; [discriminate|].
  cbn [Str.is_empty negb andb Str.forallb]. intros H.
  exists c, d'. apply andb_true_iff in H as [Hc Hd].
  repeat split; auto. cbn [Str.forallb]. unfold Re.digit.
  now rewrite Hc, Hd.
Qed.

(** A greedy repetition takes the whole rest of the string when every
    character is in the class and the rest of the pattern accepts the end. *)
Lemma rep_greedy_all {A} (p : ascii -> bool) (s : string) :
  Str.forallb p s = true ->
  forall (lo : nat) (k : string -> option A) (r : A),
    (lo <= String.length s)%nat -> k "" = Some r ->
    Re.rep p lo None s k = Some r.
Proof.
  induction s as [|c s IH]; intros Hall lo k r Hlo Hk.
  - simpl in Hlo. assert (lo = 0%nat) by lia. subst lo. exact Hk.
  - cbn [Str.forallb] in Hall. apply andb_true_iff in Hall as [Hc Hs].
    cbn [Re.rep]. rewrite Hc. cbn [andb Re.one_more option_map].
    rewrite (IH Hs (Nat.pred lo) k r); auto.
    simpl in Hlo. lia.
Qed.

Lemma forallb_any (s : string) : Str.forallb Re.any s = true.
Proof. induction s; simpl; auto. Qed.

(** The greedy [[A-Z]{1,3}] takes the whole channel name when what follows
    is not a capital letter and the rest of the pattern accepts it. *)
Lemma rep_channel {A} ch x rest (k : string -> option A) r :
  channel_name ch = true ->
  Re.upper x = false ->
  k (String x rest) = Some r ->
  Re.rep Re.upper 1 (Some 3%nat) (ch ++ String x rest) k = Some r.
Proof.
  unfold channel_name. intros H Hx Hk.
  destruct ch as [|a [|b [|c [|e ch]]]]; try discriminate;
    cbn [String.length Nat.leb andb Str.forallb] in H;
    repeat match type of H with
           | _ && _ = true => apply andb_true_iff in H as [? H]
           end;
    cbn [String.append Re.rep Re.one_more option_map Nat.pred];
    repeat match goal with
           | E : Re.upper _ = true |- _ => rewrite E; clear E
           end;
    cbn [andb Re.one_more]; rewrite ?Hx; cbn [andb]; rewrite ?Hk; auto.
Qed.

Lemma forallb_app p a b :
  Str.forallb p (a ++ b) = Str.forallb p a && Str.forallb p b.
Proof.
  induction a as [|c a IH]; cbn [String.append Str.forallb]; auto.
  now rewrite IH, andb_assoc.
Qed.

(** A string that holds a digit differs from every digit-free string. *)
Lemma no_digit_neq a b c0 d' cand :
  Re.digit c0 = true -> digit_free cand = true ->
  String.eqb (a ++ b ++ String c0 d') cand = false.
Proof.
  intros Hc Hf.
  destruct (String.eqb_spec (a ++ b ++ String c0 d') cand) as [E|]; auto.
  exfalso. subst cand. unfold digit_free in Hf.
  rewrite !forallb_app in Hf. cbn [Str.forallb] in Hf.
  rewrite Hc in Hf. cbn [negb andb] in Hf.
  now rewrite !andb_false_r in Hf.
Qed.

Lemma space_not_upper c : Re.space c = true -> Re.upper c = false.
Proof.
  destruct c as [[] [] [] [] [] [] [] []]; intros H;
    try discriminate; reflexivity.
Qed.

(** What follows a channel name, a separator and then digits, does not
    start with a capital letter. *)
Lemma sep_digits_head sep d :
  opt_space sep = true -> digit_string d = true ->
  exists x rest, sep ++ d = String x rest /\ Re.upper x = false.
Proof.
  intros Hsep H. destruct (digit_string_inv d H) as (c0 & d' & -> & Hc & _).
  destruct sep as [|sp [|? ?]]; try discriminate; cbn [opt_space] in Hsep.
  - exists c0, d'. split; [reflexivity|exact (digit_not_upper c0 Hc)].
  - exists sp, (String c0 d'). split; [reflexivity|].
    exact (space_not_upper sp Hsep).
Qed.

Lemma run_digits_end i d c :
  digit_string d = true ->
  Re.run (Re.Grp i (Re.plus Re.digit) >> Re.Eos)%re d c (fun _ c' => Some c')
  = Some ((i, d) :: c).
Proof.
  intros H. destruct (digit_string_inv d H) as (c0 & d' & E & Hc & Hall).
  unfold Re.plus. cbn [Re.run].
  erewrite rep_greedy_all; [reflexivity|exact Hall| |].
  - subst d. cbn. lia.
  - cbn [Re.at_end]. unfold Re.consumed. now rewrite take_length_sub_0.
Qed.

(** The end of a value pattern, [\s?(\d+)$] with its group numbered [i],
    on an optional white-space character and a digit string. *)
Lemma run_opt_space_digits_end i sep d c :
  opt_space sep = true ->
  digit_string d = true ->
  Re.run (Re.Opt (Re.Cls Re.space) >> Re.Grp i (Re.plus Re.digit) >> Re.Eos)%re
         (sep ++ d) c (fun _ c' => Some c')
  = Some ((i, d) :: c).
Proof.
  intros Hsep H. pose proof (run_digits_end i d c H) as R.
  destruct sep as [|sp [|? ?]]; try discriminate; cbn [opt_space] in Hsep;
    cbn [String.append]; cbn [Re.run] in R |- *.
  - destruct (digit_string_inv d H) as (c0 & d' & E & Hc & _).
    rewrite E at 1. rewrite (digit_not_space c0 Hc). exact R.
  - rewrite Hsep. now rewrite R.
Qed.

Lemma run_DIGITS_END d c :
  digit_string d = true ->
  Re.run DIGITS_END d c (fun _ c' => Some c') = Some ((1%nat, d) :: c).
Proof. apply run_digits_end. Qed.

Lemma run_SP_DIGITS_END sep d c :
  opt_space sep = true ->
  digit_string d = true ->
  Re.run SP_DIGITS_END (sep ++ d) c (fun _ c' => Some c')
  = Some ((1%nat, d) :: c).
Proof. apply run_opt_space_digits_end. Qed.

(** An OSD line: ["NSE"], the digit of the slot, and the raw text. *)
Lemma NSE_RE_match (d : ascii) (raw : string) :
  Re.digit d = true ->
  Re.rmatch NSE_RE ("NSE" ++ String d raw) = Some [(2%nat, raw); (1%nat, String d "")].
Proof.
  intros Hd. unfold Re.rmatch, NSE_RE, Re.star. cbn [Re.run].
  rewrite strip_prefix_app. rewrite Hd.
  erewrite rep_greedy_all; [reflexivity| apply forallb_any | lia |].
  cbn [Re.at_end]. unfold Re.consumed.
  rewrite take_length_sub_0.
  cbn [String.length]. 
  replace (S (String.length raw) - String.length raw)%nat with 1%nat by lia.
  reflexivity.
Qed.

(** A line that does not start with ["NSE"] is not an OSD line. *)
Lemma NSE_RE_no_prefix (response : string) :
  Str.startswith response "NSE" = false -> Re.rmatch NSE_RE response = None.
Proof.
  intros H. unfold Re.rmatch, NSE_RE. cbn [Re.run].
  now rewrite (startswith_false_strip_prefix "NSE" response H).
Qed.

(** Every line that [parse] accepts as an OSD line is ["NSE"], a digit and
    the raw text. *)
Lemma NSE_RE_inv response m :
  Re.rmatch NSE_RE response = Some m ->
  exists d raw, response = "NSE" ++ String d raw /\ Re.digit d = true.
Proof.
  unfold Re.rmatch, NSE_RE. cbn [Re.run]. intros H.
  destruct (Str.strip_prefix "NSE" response) as [rest|] eqn:Hp;
    [|discriminate].
  assert (Hs : Str.startswith response "NSE" = true).
  { destruct (Str.startswith response "NSE") eqn:E; auto.
    rewrite (startswith_false_strip_prefix _ _ E) in Hp. discriminate. }
  destruct (startswith_inv _ _ Hs) as [rest' ->].
  rewrite strip_prefix_app in Hp. injection Hp as <-.
  destruct rest' as [|d raw]; [discriminate|].
  destruct (Re.digit d) eqn:Hd; [|discriminate].
  now exists d, raw.
Qed.

(* ===================================================================== *)
(** ** The steps of [parse] *)
(* ===================================================================== *)

Lemma parse_pending_non_NSE self n now now_title response :
  _pending_selected_line self = Some n ->
  Str.startswith response "NSE" = false ->
  parse now now_title response self
  = (Some (fragment_event (screen_mode (context self)) n
                          (_clean_osd_text response)),
     set_pending self None).
Proof.
  intros Hp Hn. unfold parse. rewrite Hp, Hn.
  unfold fragment_event. simpl.
  now destruct (screen_mode (context self)) as [[]|].
Qed.

Lemma parse_idle_non_NSE self now now_title response :
  _pending_selected_line self = None ->
  Str.startswith response "NSE" = false ->
  parse now now_title response self = (None, self).
Proof.
  intros Hp Hn. unfold parse. rewrite Hp.
  now rewrite (NSE_RE_no_prefix _ Hn).
Qed.

Lemma reset_fresh self now :
  timed_out now self = false ->
  _reset_context_if_timed_out now self
  = set_context self (set_last_update_time (context self) now).
Proof. intros H. unfold _reset_context_if_timed_out. now rewrite H. Qed.

Lemma reset_stale self now :
  timed_out now self = true ->
  _reset_context_if_timed_out now self
  = set_context self
      (set_last_update_time (set_screen_mode (context self) None) now).
Proof. intros H. unfold _reset_context_if_timed_out. now rewrite H. Qed.

(** The frame of the timeout check, whichever way it goes. *)
Lemma reset_frame self now :
  let self' := _reset_context_if_timed_out now self in
  screen_title (context self') = screen_title (context self)
  /\ cursor_line (context self') = cursor_line (context self)
  /\ menu_items (context self') = menu_items (context self)
  /\ _pending_selected_line self' = _pending_selected_line self
  /\ context_timeout self' = context_timeout self
  /\ last_update_time (context self') = now.
Proof.
  unfold _reset_context_if_timed_out.
  destruct (timed_out now self); repeat split.
Qed.

(** Open [parse] on the line ["NSE" d raw]: the marker is not consulted and
    the pattern yields the slot digit and the raw text. *)
Ltac nse_line d raw :=
  unfold parse;
  change (Str.startswith ("NSE" ++ String d raw) "NSE") with true;
  rewrite (NSE_RE_match d raw) by (assumption || reflexivity);
  cbn [Re.grp Re.group Nat.eqb].

Lemma parse_title self now nt raw :
  parse now nt ("NSE0" ++ raw) self
  = (Some (fst (_handle_title_line nt (_clean_osd_text raw)
                   (_reset_context_if_timed_out now self))),
     snd (_handle_title_line nt (_clean_osd_text raw)
            (_reset_context_if_timed_out now self))).
Proof.
  change ("NSE0" ++ raw) with ("NSE" ++ String "0" raw).
  nse_line "0"%char raw.
  change (Str.digits_val (String "0" "") =? 0) with true. cbv iota.
  now destruct (_pending_selected_line self).
Qed.

Lemma handle_title_line_spec nt text self :
  _handle_title_line nt text self
  = (("osd_title_update", [("text", VStr text)]),
     if String.eqb text (screen_title (context self)) then
       set_context self
         {| screen_mode := Some (mode_of_title text);
            last_update_time := nt;
            screen_title := screen_title (context self);
            cursor_line := cursor_line (context self);
            menu_items := menu_items (context self) |}
     else
       {| context_timeout := context_timeout self;
          context := {| screen_mode := Some (mode_of_title text);
                        last_update_time := nt;
                        screen_title := text;
                        cursor_line := -1;
                        menu_items := [] |};
          _pending_selected_line := None |}).
Proof.
  unfold _handle_title_line, mode_of_title.
  destruct (String.eqb text (screen_title (context self))); cbn [negb];
    destruct (String.eqb (Str.lower text) "now playing");
    try destruct (String.eqb text "Menu"); reflexivity.
Qed.

Lemma parse_title_mode self now nt raw :
  screen_mode (context (snd (parse now nt ("NSE0" ++ raw) self)))
  = Some (mode_of_title (_clean_osd_text raw)).
Proof.
  rewrite parse_title, handle_title_line_spec. cbn [snd].
  now destruct (String.eqb _ _).
Qed.

Lemma parse_title_event self now nt raw :
  fst (parse now nt ("NSE0" ++ raw) self)
  = Some ("osd_title_update", [("text", VStr (_clean_osd_text raw))]).
Proof. now rewrite parse_title, handle_title_line_spec. Qed.

(** Case analysis on every test of a branching term. *)
Ltac split_branches :=
  repeat match goal with
  | |- context [if ?b then _ else _] => destruct b
  | |- context [match ?x with Some _ => _ | None => _ end] => destruct x
  | |- context [match ?x with MODE_NOW_PLAYING => _ | MODE_MENU => _ | MODE_CONTEXT_MENU => _ end] => destruct x
  end.

(** What a line of a slot other than 0 leaves alone. *)
Lemma parse_content_frame self now nt d raw :
  Re.digit d = true ->
  (Str.digits_val (String d "") =? 0) = false ->
  let s0 := _reset_context_if_timed_out now self in
  let s1 := snd (parse now nt ("NSE" ++ String d raw) self) in
  screen_title (context s1) = screen_title (context self)
  /\ menu_items (context s1) = menu_items (context self)
  /\ context_timeout s1 = context_timeout self
  /\ last_update_time (context s1) = now
  /\ (screen_mode (context s0) = None ->
      _pending_selected_line s1 = _pending_selected_line self).
Proof.
  intros Hd H0 s0 s1. subst s1.
  nse_line d raw. rewrite H0.
  pose proof (reset_frame self now) as (Ht & _ & Hi & Hp & Hto & Hl).
  cbv zeta in *. fold s0 in Ht, Hi, Hp, Hto, Hl |- *.
  rewrite <- Ht, <- Hi, <- Hp, <- Hto, <- Hl.
  clearbody s0. clear.
  unfold _handle_menu_line.
  destruct s0 as [tmo [m t title cur items] pend].
  cbn [context screen_mode _pending_selected_line screen_title menu_items
       context_timeout last_update_time].
  destruct m as [[]|], pend; cbn [in_menu_modes andb].
  all: split_branches; cbn; repeat split; try discriminate.
Qed.

(** Only a slot-0 line whose cleaned text differs from the stored title
    changes the stored title. *)
Lemma parse_title_changes_only_by_title self now nt response :
  screen_title (context (snd (parse now nt response self)))
  <> screen_title (context self) ->
  exists raw, response = "NSE0" ++ raw
              /\ _clean_osd_text raw <> screen_title (context self).
Proof.
  intros Hne.
  destruct (Str.startswith response "NSE") eqn:Hs.
  2:{ exfalso. apply Hne.
      destruct (_pending_selected_line self) as [n|] eqn:Hp.
      - now rewrite (parse_pending_non_NSE _ _ _ _ _ Hp Hs).
      - now rewrite (parse_idle_non_NSE _ _ _ _ Hp Hs). }
  destruct (Re.rmatch NSE_RE response) as [m|] eqn:Hm.
  2:{ exfalso. apply Hne. unfold parse. rewrite Hs, Hm.
      now destruct (_pending_selected_line self). }
  destruct (NSE_RE_inv _ _ Hm) as (d & raw & -> & Hd).
  destruct (Str.digits_val (String d "") =? 0) eqn:H0.
  - rewrite (digit_zero d Hd H0) in *.
    exists raw. split; [reflexivity|]. intros Heq. apply Hne.
    change ("NSE" ++ String "0" raw) with ("NSE0" ++ raw).
    rewrite parse_title, handle_title_line_spec. cbn [snd].
    pose proof (reset_frame self now) as (Ht & _).
    cbv zeta in Ht. rewrite Ht, Heq, String.eqb_refl. reflexivity.
  - exfalso. apply Hne.
    now destruct (parse_content_frame self now nt d raw Hd H0) as (Ht & _).
Qed.

(** An OSD line processed after the timeout keeps a pending marker, unless
    it is a title line that changes the title. *)
Lemma parse_stale_NSE_keeps_pending self now nt d raw :
  timed_out now self = true ->
  Re.digit d = true ->
  (d = "0"%char -> _clean_osd_text raw = screen_title (context self)) ->
  _pending_selected_line (snd (parse now nt ("NSE" ++ String d raw) self))
  = _pending_selected_line self.
Proof.
  intros Hto Hd Htitle.
  destruct (Str.digits_val (String d "") =? 0) eqn:H0.
  - pose proof (digit_zero d Hd H0) as ->.
    change ("NSE" ++ String "0" raw) with ("NSE0" ++ raw).
    rewrite parse_title, handle_title_line_spec. cbn [snd].
    pose proof (reset_frame self now) as (Ht & _ & _ & Hp & _).
    cbv zeta in Ht, Hp.
    rewrite Ht, (Htitle eq_refl), String.eqb_refl. exact Hp.
  - apply (parse_content_frame self now nt d raw Hd H0).
    now rewrite (reset_stale _ _ Hto).
Qed.

Lemma parse_NSE2_menu self now nt :
  screen_mode (context self) = Some MODE_MENU ->
  timed_out now self = false ->
  parse now nt "NSE2" self
  = (None, set_pending (_reset_context_if_timed_out now self) (Some 2)).
Proof.
  intros Hm Ht.
  change "NSE2" with ("NSE" ++ String "2" "").
  nse_line "2"%char "".
  rewrite (reset_fresh _ _ Ht).
  destruct self as [tmo [m t title cur items] pend]; simpl in Hm; subst m.
  now destruct pend.
Qed.

Lemma parse_soh_song_now_playing self now nt :
  screen_mode (context self) = Some MODE_NOW_PLAYING ->
  fst (parse now nt soh_song self)
  = Some ("now_playing_title_update", [("text", VStr "Song A")]).
Proof.
  intros Hm. unfold soh_song.
  change ("NSE1" ++ NOW_PLAYING_CHAR ++ "Song A")
    with ("NSE" ++ String "1" (String "001" "Song A")).
  nse_line "1"%char (String "001" "Song A").
  unfold _reset_context_if_timed_out.
  destruct self as [tmo [m t title cur items] pend]; simpl in Hm; subst m.
  destruct (timed_out now _); destruct pend; reflexivity.
Qed.

Lemma parse_soh_song_menu self now nt :
  screen_mode (context self) = Some MODE_MENU ->
  timed_out now self = false ->
  fst (parse now nt soh_song self) = None.
Proof.
  intros Hm Ht. unfold soh_song.
  change ("NSE1" ++ NOW_PLAYING_CHAR ++ "Song A")
    with ("NSE" ++ String "1" (String "001" "Song A")).
  nse_line "1"%char (String "001" "Song A").
  rewrite (reset_fresh _ _ Ht).
  destruct self as [tmo [m t title cur items] pend]; simpl in Hm; subst m.
  destruct pend; reflexivity.
Qed.

Lemma parse_enq_song_menu self now nt :
  screen_mode (context self) = Some MODE_MENU ->
  timed_out now self = false ->
  fst (parse now nt enq_song self)
  = Some ("osd_menu_item_update",
          [("line", VInt 1); ("text", VStr "Song A");
           ("is_selected", VBool false)]).
Proof.
  intros Hm Ht. unfold enq_song.
  change ("NSE1" ++ MENU_ITEM_CHAR ++ "Song A")
    with ("NSE" ++ String "1" (String "005" "Song A")).
  nse_line "1"%char (String "005" "Song A").
  rewrite (reset_fresh _ _ Ht).
  destruct self as [tmo [m t title cur items] pend]; simpl in Hm; subst m.
  destruct pend; reflexivity.
Qed.

(** The OSD event, when there is one, is the result of [parse_response]. *)
Lemma parse_response_osd now nt response self ev :
  fst (parse now nt response self) = Some ev ->
  parse_response now nt response self
  = (Ok (Some ev), snd (parse now nt response self)).
Proof.
  unfold parse_response. destruct (parse now nt response self) as [e s].
  cbn [fst snd]. now intros ->.
Qed.

Lemma parse_response_not_osd now nt response self :
  fst (parse now nt response self) = None ->
  parse_response now nt response self
  = (dispatch PARSER_CONFIG response, snd (parse now nt response self)).
Proof.
  unfold parse_response. destruct (parse now nt response self) as [e s].
  cbn [fst snd]. now intros ->.
Qed.

(* ===================================================================== *)
(** ** The sub-parsers on value strings *)
(* ===================================================================== *)

Lemma py_float_digits d :
  digit_string d = true -> py_float d = Ok (float_of_Z (Str.digits_val d)).
Proof. unfold py_float, digit_string. now intros ->. Qed.

Lemma half_step_digits d :
  digit_string d = true ->
  _parse_value_with_half_step d = Ok (half_step_value d).
Proof.
  intros H. unfold _parse_value_with_half_step, half_step_value.
  rewrite (py_float_digits d H). now destruct (Nat.eqb _ 3).
Qed.

(** A 3-digit string that ends in 5 is the whole number before it plus one
    half, exactly; one that ends in 0 is that whole number. *)
Lemma half_step_exact a b :
  Re.digit a = true -> Re.digit b = true ->
  half_step_value (String a (String b "5"))
  = dyadic (2 * Str.digits_val (String a (String b "")) + 1) (-1)
  /\ half_step_value (String a (String b "0"))
     = float_of_Z (Str.digits_val (String a (String b ""))).
Proof.
  intros Ha Hb.
  apply digit_cases in Ha. apply digit_cases in Hb.
  unfold decimal_digits in Ha, Hb. cbn [In] in Ha, Hb.
  repeat (destruct Ha as [<-|Ha]; [|]); try contradiction;
    repeat (destruct Hb as [<-|Hb]; [|]); try contradiction;
    vm_compute; split; reflexivity.
Qed.

Lemma parse_volume_MV d :
  digit_string d = true ->
  _parse_volume ("MV" ++ d)
  = Ok (Some ("volume_update", [("value", VFloat (half_step_value d))])).
Proof.
  intros H. destruct (digit_string_inv d H) as (c0 & d' & E & Hc & Hall).
  unfold _parse_volume, Re.rmatch, MVMAX_RE, MV_RE. cbn [Re.run].
  replace (Str.strip_prefix "MVMAX" ("MV" ++ d)) with (@None string).
  2:{ subst d.
      change (Str.strip_prefix "MVMAX" ("MV" ++ String c0 d'))
        with (Str.strip_prefix "MAX" (String c0 d')).
      now rewrite (strip_prefix_mismatch "M" "AX" c0 d' (digit_neq c0 "M" Hc eq_refl)). }
  rewrite strip_prefix_app, (run_DIGITS_END d [] H).
  cbn [Re.grp Re.group Nat.eqb]. now rewrite (half_step_digits d H).
Qed.

Lemma parse_volume_MVMAX sep d :
  opt_space sep = true ->
  digit_string d = true ->
  _parse_volume ("MVMAX" ++ sep ++ d)
  = Ok (Some ("max_volume_update", [("value", VFloat (half_step_value d))])).
Proof.
  intros Hsep H.
  unfold _parse_volume, Re.rmatch, MVMAX_RE. cbn [Re.run].
  rewrite strip_prefix_app, (run_SP_DIGITS_END sep d [] Hsep H).
  cbn [Re.grp Re.group Nat.eqb]. now rewrite (half_step_digits d H).
Qed.

Lemma parse_volume_MVMAX_not_plain rest data :
  _parse_volume ("MVMAX" ++ rest) <> Ok (Some ("volume_update", data)).
Proof.
  unfold _parse_volume.
  destruct (Re.rmatch MVMAX_RE ("MVMAX" ++ rest)) as [m|].
  - destruct (_parse_value_with_half_step (Re.grp 1 m)); cbn [bind];
      discriminate.
  - change (Re.rmatch MV_RE ("MVMAX" ++ rest)) with (@None Re.caps).
    discriminate.
Qed.

Lemma parse_dialog_level_value sep d :
  opt_space sep = true ->
  digit_string d = true ->
  _parse_dialog_level ("PSDIL" ++ sep ++ d)
  = Ok (Some [("value", VFloat (half_step_value d))]).
Proof.
  intros Hsep H.
  destruct (digit_string_inv d H) as (c0 & d' & E & Hc & Hall).
  unfold _parse_dialog_level, Re.rmatch, PSDIL_RE. cbn [Re.run].
  rewrite strip_prefix_app, (run_SP_DIGITS_END sep d [] Hsep H).
  cbn [Re.grp Re.group Nat.eqb]. rewrite (half_step_digits d H).
  unfold str_in. cbn [existsb]. subst d.
  rewrite !(no_digit_neq "PSDIL" sep c0 d') by (exact Hc || reflexivity).
  reflexivity.
Qed.

Lemma parse_zone2_volume d :
  digit_string d = true ->
  _parse_zone2 ("Z2" ++ d)
  = Ok (Some ("zone2_volume_update", [("value", VFloat (half_step_value d))])).
Proof.
  intros H. destruct (digit_string_inv d H) as (c0 & d' & E & Hc & Hall).
  unfold _parse_zone2, Re.rmatch, Z2_VOL_RE. cbn [Re.run].
  rewrite strip_prefix_app, (run_DIGITS_END d [] H).
  cbn [Re.grp Re.group Nat.eqb]. rewrite (half_step_digits d H).
  subst d.
  change (str_in ("Z2" ++ String c0 d') ["Z2ON"; "Z2OFF"])
    with (String.eqb (String c0 d') "ON"
          || (String.eqb (String c0 d') "OFF" || false)).
  change (str_in ("Z2" ++ String c0 d') ["Z2MUON"; "Z2MUOFF"])
    with (String.eqb (String c0 d') "MUON"
          || (String.eqb (String c0 d') "MUOFF" || false)).
  rewrite !string_eqb_mismatch by (apply digit_neq'; auto).
  reflexivity.
Qed.

Lemma parse_subwoofer_level_value sep d :
  opt_space sep = true ->
  digit_string d = true ->
  _parse_subwoofer_level_adjust ("PSSWL" ++ sep ++ d)
  = Ok (Some [("value", VFloat (fsub (half_step_value d) fifty))]).
Proof.
  intros Hsep H.
  destruct (digit_string_inv d H) as (c0 & d' & E & Hc & Hall).
  unfold _parse_subwoofer_level_adjust, Re.rmatch, PSSWL_RE. cbn [Re.run].
  rewrite strip_prefix_app, (run_SP_DIGITS_END sep d [] Hsep H).
  cbn [Re.grp Re.group Nat.eqb]. rewrite (half_step_digits d H).
  unfold str_in. cbn [existsb]. subst d.
  rewrite !(no_digit_neq "PSSWL" sep c0 d') by (exact Hc || reflexivity).
  reflexivity.
Qed.

Lemma parse_channel_level_value ch sep d :
  channel_name ch = true ->
  opt_space sep = true ->
  digit_string d = true ->
  _parse_channel_level ("CV" ++ ch ++ sep ++ d)
  = Ok (Some ("channel_level_update",
              [("channel", VStr ch);
               ("value", VFloat (fsub (half_step_value d) fifty))])).
Proof.
  intros Hch Hsep H.
  unfold _parse_channel_level.
  replace (String.eqb ("CV" ++ ch ++ sep ++ d) "CVEND") with false.
  2:{ destruct (digit_string_inv d H) as (c0 & d' & -> & Hc & _).
      symmetry.
      change ("CV" ++ ch ++ sep ++ String c0 d')
        with ("CV" ++ (ch ++ sep ++ String c0 d')).
      change (String.eqb ("CV" ++ (ch ++ sep ++ String c0 d')) "CVEND")
        with (String.eqb (ch ++ sep ++ String c0 d') "END").
      now apply no_digit_neq. }
  unfold Re.rmatch, CV_RE.
  set (tail := (Re.Opt (Re.Cls Re.space)
                >> Re.Grp 2 (Re.plus Re.digit) >> Re.Eos)%re).
  cbn [Re.run]. rewrite strip_prefix_app.
  destruct (sep_digits_head sep d Hsep H) as (x & rest & E & Hx).
  rewrite E.
  erewrite (rep_channel ch x rest); [|exact Hch|exact Hx|].
  2:{ rewrite <- E.
      exact (run_opt_space_digits_end 2 sep d
               [(1%nat, Re.consumed (ch ++ sep ++ d) (sep ++ d))] Hsep H). }
  cbn [Re.grp Re.group Nat.eqb]. unfold Re.consumed.
  rewrite take_app_length, (half_step_digits _ H). reflexivity.
Qed.

(* ===================================================================== *)
(** ** The dispatch loop *)
(* ===================================================================== *)

Lemma dispatch_skip prefix pf table response :
  Str.startswith response prefix = false ->
  dispatch ((prefix, pf) :: table) response = dispatch table response.
Proof. intros H. cbn [dispatch]. now rewrite H. Qed.

Lemma dispatch_hit prefix pf table response :
  Str.startswith response prefix = true ->
  dispatch ((prefix, pf) :: table) response = apply_entry pf response.
Proof. intros H. cbn [dispatch]. now rewrite H. Qed.

(** First match wins, whatever follows it in the table. *)
Lemma dispatch_first_match (before : list entry) prefix pf after response :
  (forall e, In e before -> Str.startswith response (fst e) = false) ->
  Str.startswith response prefix = true ->
  dispatch (before ++ (prefix, pf) :: after)%list response
  = apply_entry pf response.
Proof.
  induction before as [|[p f] before IH]; intros Hb Hp.
  - now apply dispatch_hit.
  - cbn [app]. rewrite dispatch_skip.
    + apply IH; auto. intros e He. apply Hb. now right.
    + apply (Hb (p, f)). now left.
Qed.

Lemma dispatch_no_match table response :
  (forall e, In e table -> Str.startswith response (fst e) = false) ->
  dispatch table response = Ok None.
Proof.
  induction table as [|[p f] table IH]; intros Hb; [reflexivity|].
  rewrite dispatch_skip.
  - apply IH. intros e He. apply Hb. now right.
  - apply (Hb (p, f)). now left.
Qed.

(** Every table splits at the first entry whose prefix matches, if any. *)
Lemma dispatch_split (table : list entry) response :
  (forall e, In e table -> Str.startswith response (fst e) = false)
  \/ exists before prefix pf after,
       table = (before ++ (prefix, pf) :: after)%list
       /\ (forall e, In e before -> Str.startswith response (fst e) = false)
       /\ Str.startswith response prefix = true.
Proof.
  induction table as [|[p f] table IH].
  - left. intros e [].
  - destruct (Str.startswith response p) eqn:Hp.
    + right. exists [], p, f, table. repeat split; auto. intros e [].
    + destruct IH as [IH|(before & prefix & pf & after & -> & Hb & Hm)].
      * left. intros e [<-|He]; auto.
      * right. exists ((p, f) :: before), prefix, pf, after.
        repeat split; auto. intros e [<-|He]; auto.
Qed.

Ltac skip_entries :=
  unfold PARSER_CONFIG;
  repeat (rewrite dispatch_skip by reflexivity).

Lemma dispatch_MV d :
  digit_string d = true ->
  dispatch PARSER_CONFIG ("MV" ++ d)
  = Ok (Some ("volume_update", [("value", VFloat (half_step_value d))])).
Proof.
  intros H. unfold PARSER_CONFIG.
  rewrite dispatch_skip.
  - rewrite dispatch_hit by apply startswith_app.
    apply (parse_volume_MV d H).
  - destruct (digit_string_inv d H) as (c0 & d' & -> & Hc & _).
    change (Str.startswith ("MV" ++ String c0 d') "MVMAX")
      with (Ascii.eqb "M" c0 && Str.startswith d' "AX").
    now rewrite (digit_neq c0 "M" Hc).
Qed.

Lemma dispatch_MVMAX rest :
  dispatch PARSER_CONFIG ("MVMAX" ++ rest) = _parse_volume ("MVMAX" ++ rest).
Proof.
  unfold PARSER_CONFIG. now rewrite dispatch_hit by apply startswith_app.
Qed.

Lemma dispatch_PSDIL sep d :
  opt_space sep = true ->
  digit_string d = true ->
  dispatch PARSER_CONFIG ("PSDIL" ++ sep ++ d)
  = Ok (Some ("dialog_level_update",
              [("value", VFloat (half_step_value d))])).
Proof.
  intros Hsep H. skip_entries.
  rewrite dispatch_hit by apply startswith_app.
  cbn [apply_entry]. now rewrite (parse_dialog_level_value sep d Hsep H).
Qed.

Lemma dispatch_Z2 d :
  digit_string d = true ->
  dispatch PARSER_CONFIG ("Z2" ++ d)
  = Ok (Some ("zone2_volume_update",
              [("value", VFloat (half_step_value d))])).
Proof.
  intros H. skip_entries.
  rewrite dispatch_hit by apply startswith_app.
  apply (parse_zone2_volume d H).
Qed.

Lemma dispatch_PSSWL sep d :
  opt_space sep = true ->
  digit_string d = true ->
  dispatch PARSER_CONFIG ("PSSWL" ++ sep ++ d)
  = Ok (Some ("sub_level_adjust_update",
              [("value", VFloat (fsub (half_step_value d) fifty))])).
Proof.
  intros Hsep H. skip_entries.
  rewrite dispatch_hit by apply startswith_app.
  cbn [apply_entry]. now rewrite (parse_subwoofer_level_value sep d Hsep H).
Qed.

Lemma dispatch_CV ch sep d :
  channel_name ch = true ->
  opt_space sep = true ->
  digit_string d = true ->
  dispatch PARSER_CONFIG ("CV" ++ ch ++ sep ++ d)
  = Ok (Some ("channel_level_update",
              [("channel", VStr ch);
               ("value", VFloat (fsub (half_step_value d) fifty))])).
Proof.
  intros Hch Hsep H. skip_entries.
  rewrite dispatch_hit by apply startswith_app.
  apply (parse_channel_level_value ch sep d Hch Hsep H).
Qed.

(* ===================================================================== *)
(** ** The claims *)
(* ===================================================================== *)

(** *** C1 *)

(** C1, as stated, fails: with slot 2 pending, the next line
    ["NSE3" + 0x05 + "Audio"] is not consumed as the text of slot 2.  It is
    decoded as the unselected menu item of slot 3, and slot 2 stays
    pending. *)
Lemma C1_counterexample :
  _pending_selected_line pending_menu_state = Some 2
  /\ parse (float_of_Z 1) (float_of_Z 1)
           ("NSE3" ++ String "005" "Audio") pending_menu_state
     = (Some ("osd_menu_item_update",
              [("line", VInt 3); ("text", VStr "Audio");
               ("is_selected", VBool false)]),
        {| context_timeout := float_of_Z 5;
           context := {| screen_mode := Some MODE_MENU;
                         last_update_time := float_of_Z 1;
                         screen_title := "Setup Menu";
                         cursor_line := -1;
                         menu_items := [] |};
           _pending_selected_line := Some 2 |}).
Proof. split; vm_compute; reflexivity. Qed.

(** C1 (amended): in every state where [_pending_selected_line] is some
    slot [n], the next line processed by [parse] that does not start with
    ["NSE"] is consumed as the text of slot [n]: it is emitted as a menu item
    update (a context-menu item update in context-menu mode) with
    [is_selected] true and the cleaned line as text, and the marker is
    cleared, so that a second such line is not consumed by it and yields no
    event. *)
Theorem C1_pending_consumed_by_next_non_NSE_line :
  forall self n now now_title response,
    _pending_selected_line self = Some n ->
    Str.startswith response "NSE" = false ->
    let (ev, self') := parse now now_title response self in
    ev = Some (fragment_event (screen_mode (context self)) n
                              (_clean_osd_text response))
    /\ _pending_selected_line self' = None
    /\ context self' = context self
    /\ forall now2 now_title2 response2,
         Str.startswith response2 "NSE" = false ->
         parse now2 now_title2 response2 self' = (None, self').
Proof.
  intros self n now now_title response Hp Hn.
  rewrite (parse_pending_non_NSE _ _ _ _ _ Hp Hn).
  repeat split.
  intros. now apply parse_idle_non_NSE.
Qed.

Lemma C1_witness :
  _pending_selected_line pending_menu_state = Some 2
  /\ Str.startswith "MV50" "NSE" = false
  /\ let (ev, self') :=
       parse (float_of_Z 9) (float_of_Z 9) "MV50" pending_menu_state in
     ev = Some (fragment_event (Some MODE_MENU) 2 "MV50")
     /\ _pending_selected_line self' = None
     /\ context self' = context pending_menu_state
     /\ forall now2 now_title2 response2,
          Str.startswith response2 "NSE" = false ->
          parse now2 now_title2 response2 self' = (None, self').
Proof.
  split; [reflexivity|]. split; [reflexivity|].
  exact (C1_pending_consumed_by_next_non_NSE_line
           pending_menu_state 2 (float_of_Z 9) (float_of_Z 9) "MV50"
           eq_refl eq_refl).
Defined.

(** *** C2 *)

(** C2, as stated, fails: in Menu mode, when ["NSE2"] arrives more than the
    timeout (5 s) after the last update (here at time 100 after an update at
    time 0), the mode is reset before the line is looked at, nothing is
    buffered, and the sequence yields no event at all. *)
Lemma C2_counterexample :
  screen_mode (context stale_menu_state) = Some MODE_MENU
  /\ (let (e1, s1) :=
        parse_response (float_of_Z 100) (float_of_Z 100) "NSE2"
                       stale_menu_state in
      let (e2, _) :=
        parse_response (float_of_Z 100) (float_of_Z 100) "Selected Text" s1 in
      e1 = Ok None /\ e2 = Ok None /\ _pending_selected_line s1 = None).
Proof. vm_compute. auto. Qed.

(** C2 (amended): starting from an OSD parser whose screen mode is Menu and
    whose last update is no more than the inactivity timeout before the
    first line is processed, the sequence ["NSE2"], ["Selected Text"] yields
    exactly one event across both calls: the first line yields none and
    buffers slot 2, the second yields [osd_menu_item_update] with line 2,
    text "Selected Text" and [is_selected] true, and clears the marker. *)
Theorem C2_fragment_then_text_in_menu_mode :
  forall self now1 nt1 now2 nt2,
    screen_mode (context self) = Some MODE_MENU ->
    timed_out now1 self = false ->
    let (e1, s1) := parse_response now1 nt1 "NSE2" self in
    let (e2, s2) := parse_response now2 nt2 "Selected Text" s1 in
    e1 = Ok None
    /\ _pending_selected_line s1 = Some 2
    /\ e2 = Ok (Some selected_text_event)
    /\ _pending_selected_line s2 = None.
Proof.
  intros self now1 nt1 now2 nt2 Hm Ht.
  unfold parse_response.
  rewrite (parse_NSE2_menu _ _ _ Hm Ht).
  change (dispatch PARSER_CONFIG "NSE2") with (@Ok (option event) None).
  rewrite (parse_pending_non_NSE _ 2 now2 nt2 "Selected Text")
    by reflexivity.
  rewrite (reset_fresh _ _ Ht).
  destruct self as [tmo [m t title cur items] pend]; simpl in Hm; subst m.
  repeat split.
Qed.

Lemma C2_witness :
  screen_mode (context stale_menu_state) = Some MODE_MENU
  /\ timed_out (float_of_Z 3) stale_menu_state = false
  /\ let (e1, s1) :=
       parse_response (float_of_Z 3) (float_of_Z 3) "NSE2" stale_menu_state in
     let (e2, s2) :=
       parse_response (float_of_Z 4) (float_of_Z 4) "Selected Text" s1 in
     e1 = Ok None
     /\ _pending_selected_line s1 = Some 2
     /\ e2 = Ok (Some selected_text_event)
     /\ _pending_selected_line s2 = None.
Proof.
  split; [reflexivity|]. split; [reflexivity|].
  exact (C2_fragment_then_text_in_menu_mode
           stale_menu_state (float_of_Z 3) (float_of_Z 3)
           (float_of_Z 4) (float_of_Z 4) eq_refl eq_refl).
Defined.

(** *** C3 *)

(** C3, as stated, fails in its second half: after the title "Setup Menu",
    the slot-1 line with the signifier 0x01 and "Song A" emits no menu-item
    event; it emits no event at all. *)
Lemma C3_counterexample :
  let (e1, s1) :=
    parse_response (float_of_Z 1) (float_of_Z 1) "NSE0Setup Menu" (init 5) in
  let (e2, s2) :=
    parse_response (float_of_Z 2) (float_of_Z 2) soh_song s1 in
  e1 = Ok (Some ("osd_title_update", [("text", VStr "Setup Menu")]))
  /\ screen_mode (context s1) = Some MODE_MENU
  /\ e2 = Ok None.
Proof. vm_compute. auto. Qed.

(** C3 (amended): after a slot-0 title line "Now Playing", the slot-1 line
    whose text is 0x01 followed by "Song A" emits [now_playing_title_update]
    with payload text "Song A".  The identical bytes processed, within the
    inactivity timeout, after a slot-0 title "Setup Menu" are decoded in
    Menu mode and emit no event, 0x01 not being a menu-item signifier; with
    the menu-item signifier 0x05 in its place the line emits a menu-item
    event. *)
Theorem C3_slot1_meaning_depends_on_title :
  forall self now1 nt1 now2 nt2,
    (let (e1, s1) := parse_response now1 nt1 "NSE0Now Playing" self in
     e1 = Ok (Some ("osd_title_update", [("text", VStr "Now Playing")]))
     /\ fst (parse_response now2 nt2 soh_song s1)
        = Ok (Some ("now_playing_title_update", [("text", VStr "Song A")])))
    /\
    (let (e1, s1) := parse_response now1 nt1 "NSE0Setup Menu" self in
     e1 = Ok (Some ("osd_title_update", [("text", VStr "Setup Menu")]))
     /\ (timed_out now2 s1 = false ->
         fst (parse_response now2 nt2 soh_song s1) = Ok None
         /\ fst (parse_response now2 nt2 enq_song s1)
            = Ok (Some ("osd_menu_item_update",
                        [("line", VInt 1); ("text", VStr "Song A");
                         ("is_selected", VBool false)])))).
Proof.
  intros self now1 nt1 now2 nt2. split.
  - rewrite (parse_response_osd now1 nt1 "NSE0Now Playing" self _
               (parse_title_event self now1 nt1 "Now Playing")).
    split; [reflexivity|].
    erewrite parse_response_osd; [reflexivity|].
    apply parse_soh_song_now_playing.
    apply (parse_title_mode self now1 nt1 "Now Playing").
  - rewrite (parse_response_osd now1 nt1 "NSE0Setup Menu" self _
               (parse_title_event self now1 nt1 "Setup Menu")).
    split; [reflexivity|]. intros Ht.
    pose proof (parse_title_mode self now1 nt1 "Setup Menu") as Hm.
    change (mode_of_title (_clean_osd_text "Setup Menu")) with MODE_MENU in Hm.
    split.
    + rewrite parse_response_not_osd by now apply parse_soh_song_menu.
      reflexivity.
    + erewrite parse_response_osd; [reflexivity|].
      now apply parse_enq_song_menu.
Qed.

Lemma C3_witness :
  (let (e1, s1) :=
     parse_response (float_of_Z 1) (float_of_Z 1) "NSE0Now Playing" (init 5) in
   e1 = Ok (Some ("osd_title_update", [("text", VStr "Now Playing")]))
   /\ fst (parse_response (float_of_Z 2) (float_of_Z 2) soh_song s1)
      = Ok (Some ("now_playing_title_update", [("text", VStr "Song A")])))
  /\ timed_out (float_of_Z 2)
       (snd (parse_response (float_of_Z 1) (float_of_Z 1) "NSE0Setup Menu"
                            (init 5))) = false
  /\ fst (parse_response (float_of_Z 2) (float_of_Z 2) soh_song
            (snd (parse_response (float_of_Z 1) (float_of_Z 1)
                                 "NSE0Setup Menu" (init 5)))) = Ok None
  /\ fst (parse_response (float_of_Z 2) (float_of_Z 2) enq_song
            (snd (parse_response (float_of_Z 1) (float_of_Z 1)
                                 "NSE0Setup Menu" (init 5))))
     = Ok (Some ("osd_menu_item_update",
                 [("line", VInt 1); ("text", VStr "Song A");
                  ("is_selected", VBool false)])).
Proof.
  pose proof (C3_slot1_meaning_depends_on_title
                (init 5) (float_of_Z 1) (float_of_Z 1)
                (float_of_Z 2) (float_of_Z 2)) as [Hnp Hmenu].
  split; [exact Hnp|].
  split; [reflexivity|].
  apply (proj2 Hmenu). reflexivity.
Defined.

(** *** C4 *)

(** C4, as stated, fails: a title line whose text equals the stored title
    changes the stored screen mode as well as the timestamp (here from Menu
    to NowPlaying). *)
Lemma C4_counterexample :
  inferred_menu_state
  = snd (parse (float_of_Z 100) (float_of_Z 100) enq_song
           (snd (parse (float_of_Z 0) (float_of_Z 0) "NSE0Now Playing"
                       (init 5))))
  /\ _clean_osd_text "Now Playing"
     = screen_title (context inferred_menu_state)
  /\ context (snd (parse (float_of_Z 101) (float_of_Z 101) "NSE0Now Playing"
                         inferred_menu_state))
     = {| screen_mode := Some MODE_NOW_PLAYING;
          last_update_time := float_of_Z 101;
          screen_title := "Now Playing";
          cursor_line := -1;
          menu_items := [] |}.
Proof. vm_compute. auto. Qed.

(** C4 (amended): for every OSD parser state, a slot-0 title line whose
    cleaned text equals the stored [screen_title] emits only the title event
    and leaves [screen_title], [cursor_line], [menu_items] and the pending
    fragment marker as they were; the timestamp advances and the screen mode
    is set again to the mode derived from the title text.  A title line whose
    text differs resets the context (new title, no cursor, no items, no
    pending marker), and only such a line changes the stored title. *)
Theorem C4_unchanged_title_keeps_context :
  forall self now nt raw,
    let text := _clean_osd_text raw in
    let (ev, self') := parse now nt ("NSE0" ++ raw) self in
    ev = Some ("osd_title_update", [("text", VStr text)])
    /\ last_update_time (context self') = nt
    /\ screen_mode (context self') = Some (mode_of_title text)
    /\ context_timeout self' = context_timeout self
    /\ (text = screen_title (context self) ->
        screen_title (context self') = screen_title (context self)
        /\ cursor_line (context self') = cursor_line (context self)
        /\ menu_items (context self') = menu_items (context self)
        /\ _pending_selected_line self' = _pending_selected_line self)
    /\ (text <> screen_title (context self) ->
        screen_title (context self') = text
        /\ cursor_line (context self') = -1
        /\ menu_items (context self') = []
        /\ _pending_selected_line self' = None)
    /\ (forall now2 nt2 response,
          screen_title (context (snd (parse now2 nt2 response self)))
          <> screen_title (context self) ->
          exists raw2, response = "NSE0" ++ raw2
                       /\ _clean_osd_text raw2 <> screen_title (context self)).
Proof.
  intros self now nt raw text.
  rewrite parse_title, handle_title_line_spec. fold text. cbn [fst snd].
  pose proof (reset_frame self now) as (Ht & Hc & Hi & Hp & Hto & _).
  cbv zeta in Ht, Hc, Hi, Hp, Hto.
  rewrite Ht.
  split; [reflexivity|].
  split; [now destruct (String.eqb text (screen_title (context self)))|].
  split; [now destruct (String.eqb text (screen_title (context self)))|].
  split; [now destruct (String.eqb text (screen_title (context self)))|].
  split; [|split].
  - intros E. rewrite E, String.eqb_refl. cbn. auto.
  - intros E. apply String.eqb_neq in E. rewrite E. cbn. auto.
  - intros now2 nt2 response. apply parse_title_changes_only_by_title.
Qed.

Lemma C4_witness :
  _clean_osd_text "Setup Menu" = screen_title (context pending_menu_state)
  /\ let self' :=
       snd (parse (float_of_Z 9) (float_of_Z 9) "NSE0Setup Menu"
                  pending_menu_state) in
     screen_title (context self') = "Setup Menu"
     /\ cursor_line (context self') = -1
     /\ menu_items (context self') = []
     /\ _pending_selected_line self' = Some 2.
Proof.
  split; [reflexivity|].
  pose proof (C4_unchanged_title_keeps_context
                pending_menu_state (float_of_Z 9) (float_of_Z 9)
                "Setup Menu") as H.
  apply H. reflexivity.
Defined.

(** *** C5 *)

(** C5: every sub-parser that handles half-unit values (main and maximum
    volume, dialog level, zone-2 volume, subwoofer level, channel level)
    obtains its value from the one routine [_parse_value_with_half_step],
    which decodes a 3-digit string as the number divided by 10 and a 2-digit
    string as the number itself (the two level parsers then subtract their
    offset of 50); this for every digit string, with or without the
    white-space character the patterns allow before it.  A 3-digit string
    ending in 5 is exactly the half step, and decoding "PSDIL505" yields the
    dialog-level value 50.5 and "PSDIL50" the value 50.0. *)
Theorem C5_half_step_values_share_one_routine :
  (forall d, digit_string d = true ->
     _parse_value_with_half_step d = Ok (half_step_value d))
  /\ (forall d, digit_string d = true -> String.length d = 3%nat ->
      _parse_value_with_half_step d
      = Ok (fdiv (float_of_Z (Str.digits_val d)) ten))
  /\ (forall d, digit_string d = true -> String.length d = 2%nat ->
      _parse_value_with_half_step d = Ok (float_of_Z (Str.digits_val d)))
  /\ (forall sep d, opt_space sep = true -> digit_string d = true ->
      dispatch PARSER_CONFIG ("MV" ++ d)
      = Ok (Some ("volume_update", [("value", VFloat (half_step_value d))]))
      /\ dispatch PARSER_CONFIG ("MVMAX" ++ sep ++ d)
         = Ok (Some ("max_volume_update",
                     [("value", VFloat (half_step_value d))]))
      /\ dispatch PARSER_CONFIG ("PSDIL" ++ sep ++ d)
         = Ok (Some ("dialog_level_update",
                     [("value", VFloat (half_step_value d))]))
      /\ dispatch PARSER_CONFIG ("Z2" ++ d)
         = Ok (Some ("zone2_volume_update",
                     [("value", VFloat (half_step_value d))]))
      /\ dispatch PARSER_CONFIG ("PSSWL" ++ sep ++ d)
         = Ok (Some ("sub_level_adjust_update",
                     [("value", VFloat (fsub (half_step_value d) fifty))]))
      /\ forall ch, channel_name ch = true ->
           dispatch PARSER_CONFIG ("CV" ++ ch ++ sep ++ d)
           = Ok (Some ("channel_level_update",
                       [("channel", VStr ch);
                        ("value",
                         VFloat (fsub (half_step_value d) fifty))])))
  /\ (forall a b, Re.digit a = true -> Re.digit b = true ->
      half_step_value (String a (String b "5"))
      = dyadic (2 * Str.digits_val (String a (String b "")) + 1) (-1))
  /\ dispatch PARSER_CONFIG "PSDIL505"
     = Ok (Some ("dialog_level_update", [("value", VFloat (dyadic 101 (-1)))]))
  /\ dispatch PARSER_CONFIG "PSDIL50"
     = Ok (Some ("dialog_level_update", [("value", VFloat (dyadic 50 0))])).
Proof.
  split; [exact half_step_digits|].
  split.
  { intros d H L. rewrite (half_step_digits d H).
    unfold half_step_value. now rewrite L. }
  split.
  { intros d H L. rewrite (half_step_digits d H).
    unfold half_step_value. now rewrite L. }
  split.
  { intros sep d Hsep H. repeat split.
    - exact (dispatch_MV d H).
    - rewrite dispatch_MVMAX. exact (parse_volume_MVMAX sep d Hsep H).
    - exact (dispatch_PSDIL sep d Hsep H).
    - exact (dispatch_Z2 d H).
    - exact (dispatch_PSSWL sep d Hsep H).
    - intros ch Hch. exact (dispatch_CV ch sep d Hch Hsep H). }
  split.
  { intros a b Ha Hb. exact (proj1 (half_step_exact a b Ha Hb)). }
  split; vm_compute; reflexivity.
Qed.

Lemma C5_witness :
  digit_string "505" = true
  /\ opt_space " " = true
  /\ channel_name "FL" = true
  /\ _parse_value_with_half_step "505" = Ok (dyadic 101 (-1))
  /\ dispatch PARSER_CONFIG "CVFL 505"
     = Ok (Some ("channel_level_update",
                 [("channel", VStr "FL"); ("value", VFloat (dyadic 1 (-1)))])).
Proof.
  pose proof C5_half_step_values_share_one_routine
    as (Hr & _ & _ & Hu & _).
  split; [reflexivity|]. split; [reflexivity|]. split; [reflexivity|]. split.
  - exact (Hr "505" eq_refl).
  - destruct (Hu " " "505" eq_refl eq_refl) as (_ & _ & _ & _ & _ & Hcv).
    exact (Hcv "FL" eq_refl).
Defined.

(** *** C6 *)

(** C6: "MVMAX735" decodes to exactly [max_volume_update] with value 73.5,
    by [_parse_volume], by the dispatch over [PARSER_CONFIG] and by
    [parse_response] (when no OSD fragment is pending, which would claim the
    line first); and no line that starts with "MVMAX" ever decodes to a
    plain [volume_update], in any state of the OSD parser. *)
Theorem C6_MVMAX_is_never_plain_volume :
  _parse_volume "MVMAX735" = max_volume_73_5
  /\ dispatch PARSER_CONFIG "MVMAX735" = max_volume_73_5
  /\ (forall osd now nt,
        _pending_selected_line osd = None ->
        parse_response now nt "MVMAX735" osd = (max_volume_73_5, osd))
  /\ (forall rest data,
        dispatch PARSER_CONFIG ("MVMAX" ++ rest)
        <> Ok (Some ("volume_update", data)))
  /\ (forall rest osd now nt data,
        fst (parse_response now nt ("MVMAX" ++ rest) osd)
        <> Ok (Some ("volume_update", data))).
Proof.
  split; [vm_compute; reflexivity|].
  split; [vm_compute; reflexivity|].
  split.
  { intros osd now nt Hp. unfold parse_response.
    now rewrite (parse_idle_non_NSE osd now nt "MVMAX735" Hp eq_refl). }
  split.
  { intros rest data. rewrite dispatch_MVMAX.
    apply parse_volume_MVMAX_not_plain. }
  intros rest osd now nt data. unfold parse_response.
  destruct (_pending_selected_line osd) as [n|] eqn:Hp.
  - rewrite (parse_pending_non_NSE osd n now nt ("MVMAX" ++ rest) Hp eq_refl).
    cbn [fst]. unfold fragment_event.
    destruct (screen_mode (context osd)) as [[]|]; discriminate.
  - rewrite (parse_idle_non_NSE osd now nt ("MVMAX" ++ rest) Hp eq_refl).
    cbn [fst]. rewrite dispatch_MVMAX.
    apply parse_volume_MVMAX_not_plain.
Qed.

Lemma C6_witness :
  _pending_selected_line (init 5) = None
  /\ parse_response (float_of_Z 1) (float_of_Z 1) "MVMAX735" (init 5)
     = (max_volume_73_5, init 5).
Proof.
  pose proof C6_MVMAX_is_never_plain_volume as (_ & _ & H & _).
  split; [reflexivity|].
  exact (H (init 5) (float_of_Z 1) (float_of_Z 1) eq_refl).
Defined.

(** *** C7 *)

(** C7: at most one entry of the dispatch table is applied to a line: the
    first entry whose prefix matches decides the result, whatever entries
    follow it, also when its sub-parser returns nothing; when no prefix
    matches there is no event.  [parse_response] returns the OSD event when
    there is one and otherwise the result of that single entry of
    [PARSER_CONFIG]. *)
Theorem C7_first_matching_entry_decides :
  (forall (before : list entry) prefix pf after response,
     (forall e, In e before -> Str.startswith response (fst e) = false) ->
     Str.startswith response prefix = true ->
     dispatch (before ++ (prefix, pf) :: after)%list response
     = apply_entry pf response)
  /\ (forall (table : list entry) response,
        (forall e, In e table -> Str.startswith response (fst e) = false) ->
        dispatch table response = Ok None)
  /\ (forall now nt response osd,
        match fst (parse now nt response osd) with
        | Some ev => fst (parse_response now nt response osd) = Ok (Some ev)
        | None =>
            (exists before prefix pf after,
               PARSER_CONFIG = (before ++ (prefix, pf) :: after)%list
               /\ (forall e, In e before ->
                     Str.startswith response (fst e) = false)
               /\ Str.startswith response prefix = true
               /\ fst (parse_response now nt response osd)
                  = apply_entry pf response)
            \/ ((forall e, In e PARSER_CONFIG ->
                   Str.startswith response (fst e) = false)
                /\ fst (parse_response now nt response osd) = Ok None)
        end).
Proof.
  split; [exact dispatch_first_match|].
  split; [exact dispatch_no_match|].
  intros now nt response osd.
  destruct (fst (parse now nt response osd)) as [ev|] eqn:E.
  - now rewrite (parse_response_osd _ _ _ _ _ E).
  - rewrite (parse_response_not_osd _ _ _ _ E). cbn [fst].
    destruct (dispatch_split PARSER_CONFIG response)
      as [Hn|(before & prefix & pf & after & Ht & Hb & Hm)].
    + right. split; [exact Hn|]. now apply dispatch_no_match.
    + left. exists before, prefix, pf, after. repeat split; auto.
      rewrite Ht. now apply dispatch_first_match.
Qed.

(** A first entry that matches and returns nothing hides a later entry that
    would have decoded the line. *)
Lemma C7_witness :
  (forall e, In e (@nil entry) -> Str.startswith "MV35" (fst e) = false)
  /\ Str.startswith "MV35" "MV" = true
  /\ dispatch ([] ++ ("MV", Full (fun _ => Ok None))
                  :: [("MV", Full _parse_volume)])%list "MV35"
     = Ok None
  /\ dispatch [("MV", Full _parse_volume)] "MV35"
     = Ok (Some ("volume_update", [("value", VFloat (dyadic 35 0))])).
Proof.
  pose proof C7_first_matching_entry_decides as (H & _).
  assert (Hb : forall e, In e (@nil entry) ->
                         Str.startswith "MV35" (fst e) = false)
    by (intros e []).
  split; [exact Hb|]. split; [reflexivity|]. split.
  - exact (H [] "MV" (Full (fun _ => Ok None))
             [("MV", Full _parse_volume)] "MV35" Hb eq_refl).
  - reflexivity.
Defined.

(** *** C9 *)

(** C9: when the context is older than the timeout,
    [_reset_context_if_timed_out] clears the screen mode and refreshes the
    timestamp, and keeps the title, the cursor line, the menu items and the
    pending fragment marker.  A fragment buffered before the timeout is
    still consumed by the next line that does not start with ["NSE"]: right
    after the reset, and also after the whole OSD line that triggered the
    reset, provided that line is not a title line that changes the title. *)
Theorem C9_timeout_reset_keeps_fragment :
  forall self now,
    timed_out now self = true ->
    let self' := _reset_context_if_timed_out now self in
    (screen_mode (context self') = None
     /\ last_update_time (context self') = now
     /\ screen_title (context self') = screen_title (context self)
     /\ cursor_line (context self') = cursor_line (context self)
     /\ menu_items (context self') = menu_items (context self)
     /\ _pending_selected_line self' = _pending_selected_line self
     /\ context_timeout self' = context_timeout self)
    /\ (forall n t nt response,
          _pending_selected_line self = Some n ->
          Str.startswith response "NSE" = false ->
          parse t nt response self'
          = (Some ("osd_menu_item_update",
                   [("line", VInt n);
                    ("text", VStr (_clean_osd_text response));
                    ("is_selected", VBool true)]),
             set_pending self' None))
    /\ (forall n nt d raw,
          _pending_selected_line self = Some n ->
          Re.digit d = true ->
          (d = "0"%char -> _clean_osd_text raw = screen_title (context self)) ->
          let self1 := snd (parse now nt ("NSE" ++ String d raw) self) in
          _pending_selected_line self1 = Some n
          /\ forall t nt' response,
               Str.startswith response "NSE" = false ->
               parse t nt' response self1
               = (Some (fragment_event (screen_mode (context self1)) n
                                       (_clean_osd_text response)),
                  set_pending self1 None)).
Proof.
  intros self now Hto self'. subst self'.
  split; [|split].
  - rewrite (reset_stale _ _ Hto). repeat split.
  - intros n t nt response Hp Hn.
    rewrite (reset_stale _ _ Hto).
    now rewrite (parse_pending_non_NSE _ n t nt response) by assumption.
  - intros n nt d raw Hp Hd Htitle self1.
    assert (Hp1 : _pending_selected_line self1 = Some n).
    { subst self1.
      now rewrite (parse_stale_NSE_keeps_pending _ _ _ _ _ Hto Hd Htitle). }
    split; [exact Hp1|].
    intros t nt' response Hn.
    now apply parse_pending_non_NSE.
Qed.

(** The state [pending_menu_state] read at time 100, slot-8 line in between. *)
Lemma C9_witness :
  timed_out (float_of_Z 100) pending_menu_state = true
  /\ _reset_context_if_timed_out (float_of_Z 100) pending_menu_state
     = {| context_timeout := float_of_Z 5;
          context := {| screen_mode := None;
                        last_update_time := float_of_Z 100;
                        screen_title := "Setup Menu";
                        cursor_line := -1;
                        menu_items := [] |};
          _pending_selected_line := Some 2 |}
  /\ fst (parse (float_of_Z 101) (float_of_Z 101) "Selected Text"
            (snd (parse (float_of_Z 100) (float_of_Z 100) "NSE8 1/3"
                        pending_menu_state)))
     = Some selected_text_event.
Proof.
  pose proof (C9_timeout_reset_keeps_fragment
                pending_menu_state (float_of_Z 100) eq_refl) as (_ & _ & H).
  split; [reflexivity|]. split; [reflexivity|].
  specialize (H 2 (float_of_Z 100) "8"%char " 1/3" eq_refl eq_refl).
  cbv zeta in H.
  destruct H as [_ H]; [discriminate|].
  exact (f_equal fst
           (H (float_of_Z 101) (float_of_Z 101) "Selected Text" eq_refl)).
Defined.

(** *** C10 *)

(** C10: [_parse_value_with_half_step] divides by 10 only when the string is
    exactly 3 characters long: for every other length it is [float] of the
    string, undivided; so the 1-digit "5" decodes to 5.0 and the 4-digit
    "1005" to 1005.0, which is not 100.5. *)
Theorem C10_divides_only_three_digit_strings :
  (forall s, String.length s <> 3%nat ->
     _parse_value_with_half_step s = py_float s)
  /\ (forall d, digit_string d = true -> String.length d <> 3%nat ->
      _parse_value_with_half_step d = Ok (float_of_Z (Str.digits_val d)))
  /\ (forall d, digit_string d = true -> String.length d = 3%nat ->
      _parse_value_with_half_step d
      = Ok (fdiv (float_of_Z (Str.digits_val d)) ten))
  /\ _parse_value_with_half_step "5" = Ok (dyadic 5 0)
  /\ _parse_value_with_half_step "1005" = Ok (dyadic 1005 0)
  /\ dyadic 1005 0 <> dyadic 201 (-1).
Proof.
  split.
  { intros s L. unfold _parse_value_with_half_step.
    apply Nat.eqb_neq in L. now rewrite L. }
  split.
  { intros d H L. unfold _parse_value_with_half_step.
    apply Nat.eqb_neq in L. rewrite L. exact (py_float_digits d H). }
  split.
  { intros d H L. unfold _parse_value_with_half_step.
    rewrite L, (py_float_digits d H). reflexivity. }
  repeat split; try (vm_compute; reflexivity).
  vm_compute. discriminate.
Qed.

Lemma C10_witness :
  String.length "1005" <> 3%nat
  /\ digit_string "1005" = true
  /\ _parse_value_with_half_step "1005" = Ok (float_of_Z 1005).
Proof.
  pose proof C10_divides_only_three_digit_strings as (_ & H & _).
  assert (L : String.length "1005" <> 3%nat) by (cbn; lia).
  split; [exact L|]. split; [reflexivity|].
  exact (H "1005" eq_refl L).
Defined.

(* ===================================================================== *)
(** ** Line reassembly in the Telnet client *)
(* ===================================================================== *)

Lemma has_cr_count buf : has_cr buf = negb (Nat.eqb (count_cr buf) 0).
Proof.
  induction buf as [|c buf IH]; cbn [has_cr count_cr]; auto.
  destruct (Ascii.eqb c CR); cbn; auto.
Qed.

Lemma count_cr_le buf : (count_cr buf <= String.length buf)%nat.
Proof.
  induction buf as [|c buf IH]; cbn [count_cr String.length]; auto.
  destruct (Ascii.eqb c CR); cbn; lia.
Qed.

Lemma append_assoc (a b c : string) : (a ++ b) ++ c = a ++ b ++ c.
Proof. induction a as [|x a IH]; cbn; congruence. Qed.

Lemma append_nil_r (a : string) : a ++ "" = a.
Proof. induction a as [|x a IH]; cbn; congruence. Qed.

Lemma is_empty_app a c : Str.is_empty (a ++ String c "") = false.
Proof. now destruct a. Qed.

(** [scan] on a buffer with a carriage return, in terms of [split_cr]. *)
Lemma scan_split cur buf :
  has_cr buf = true ->
  scan cur buf
  = (let (line, rest) := split_cr buf in
     let (ls, r) := scan "" rest in
     (if Str.is_empty (cur ++ line) then ls
      else (cur ++ line ++ String CR "") :: ls, r)).
Proof.
  revert cur. induction buf as [|c buf IH]; intros cur H; [discriminate|].
  cbn [has_cr] in H. cbn [scan split_cr].
  destruct (Ascii.eqb c CR) eqn:E.
  - rewrite append_nil_r. cbn [String.append]. reflexivity.
  - cbn [orb] in H. rewrite (IH _ H).
    destruct (split_cr buf) as [line rest].
    destruct (scan "" rest) as [ls r].
    rewrite !append_assoc. cbn [String.append]. reflexivity.
Qed.

Lemma scan_no_cr cur buf :
  has_cr buf = false -> scan cur buf = ([], cur ++ buf).
Proof.
  revert cur. induction buf as [|c buf IH]; intros cur H; cbn [scan].
  - now rewrite append_nil_r.
  - cbn [has_cr] in H. apply orb_false_iff in H as [E H].
    rewrite E, (IH _ H), append_assoc. reflexivity.
Qed.

Lemma split_cr_count buf :
  has_cr buf = true -> count_cr buf = S (count_cr (snd (split_cr buf))).
Proof.
  induction buf as [|c buf IH]; intros H; [discriminate|].
  cbn [has_cr] in H. cbn [split_cr count_cr].
  destruct (Ascii.eqb c CR) eqn:E; [reflexivity|].
  cbn [orb] in H. rewrite (IH H).
  now destruct (split_cr buf).
Qed.

(** With as many rounds as carriage returns, the loop computes [scan]. *)
Lemma drain_scan rounds buf calls :
  (count_cr buf <= rounds)%nat ->
  drain rounds buf calls
  = ((calls ++ fst (scan "" buf))%list, snd (scan "" buf)).
Proof.
  revert buf calls. induction rounds as [|n IH]; intros buf calls H.
  - assert (Hc : has_cr buf = false).
    { rewrite has_cr_count. assert (count_cr buf = 0)%nat by lia.
      now rewrite H0. }
    cbn [drain]. rewrite (scan_no_cr _ _ Hc). cbn. now rewrite app_nil_r.
  - cbn [drain]. destruct (has_cr buf) eqn:Hc.
    + rewrite (scan_split "" buf Hc).
      pose proof (split_cr_count buf Hc) as Hn.
      destruct (split_cr buf) as [line rest]. cbn [snd] in Hn.
      rewrite IH by lia. cbn [String.append].
      destruct (scan "" rest) as [ls r]. cbn [fst snd].
      destruct (Str.is_empty line); [reflexivity|].
      now rewrite <- app_assoc.
    + rewrite (scan_no_cr _ _ Hc). cbn. now rewrite app_nil_r.
Qed.

Lemma receive_scan line_buffer chunk :
  receive line_buffer chunk = scan "" (line_buffer ++ chunk).
Proof.
  unfold receive. rewrite drain_scan by apply count_cr_le.
  now destruct (scan "" (line_buffer ++ chunk)).
Qed.

Lemma scan_app cur x y :
  scan cur (x ++ y)
  = (let (l1, r1) := scan cur x in
     let (l2, r2) := scan r1 y in
     ((l1 ++ l2)%list, r2)).
Proof.
  revert cur. induction x as [|c x IH]; intros cur;
    cbn [String.append scan].
  - now destruct (scan cur y).
  - destruct (Ascii.eqb c CR).
    + rewrite (IH "").
      destruct (scan "" x) as [l1 r1]. destruct (scan r1 y) as [l2 r2].
      now destruct (Str.is_empty cur).
    + apply IH.
Qed.

Lemma has_cr_app a b : has_cr (a ++ b) = has_cr a || has_cr b.
Proof.
  induction a as [|c a IH]; cbn [String.append has_cr]; auto.
  now rewrite IH, orb_assoc.
Qed.

Lemma scan_rest_no_cr cur buf :
  has_cr cur = false -> has_cr (snd (scan cur buf)) = false.
Proof.
  revert cur. induction buf as [|c buf IH]; intros cur H; cbn [scan]; auto.
  destruct (Ascii.eqb c CR) eqn:E.
  - specialize (IH "" eq_refl). now destruct (scan "" buf).
  - apply IH. rewrite has_cr_app, H. cbn. now rewrite E.
Qed.

Lemma scan_lines cur buf :
  has_cr cur = false ->
  Forall complete_line (fst (scan cur buf)).
Proof.
  revert cur. induction buf as [|c buf IH]; intros cur H; cbn [scan].
  - constructor.
  - destruct (Ascii.eqb c CR) eqn:E.
    + specialize (IH "" eq_refl). destruct (scan "" buf) as [ls r].
      cbn [fst] in *. destruct cur as [|a cur]; cbn [Str.is_empty]; auto.
      constructor; auto. exists (String a cur). repeat split; auto.
      discriminate.
    + apply IH. rewrite has_cr_app, H. cbn. now rewrite E.
Qed.

Lemma filter_app p a b :
  Str.filter p (a ++ b) = Str.filter p a ++ Str.filter p b.
Proof.
  induction a as [|c a IH]; cbn [String.append Str.filter]; auto.
  destruct (p c); cbn [String.append]; now rewrite IH.
Qed.

Lemma scan_payload cur buf :
  Str.filter not_cr (concat_lines (fst (scan cur buf)) ++ snd (scan cur buf))
  = Str.filter not_cr (cur ++ buf).
Proof.
  revert cur. induction buf as [|c buf IH]; intros cur; cbn [scan].
  - cbn. now rewrite append_nil_r.
  - destruct (Ascii.eqb c CR) eqn:E.
    + specialize (IH ""). destruct (scan "" buf) as [ls r].
      cbn [fst snd String.append] in *.
      rewrite (filter_app _ cur). cbn [Str.filter]. unfold not_cr at 3.
      rewrite E. cbn [negb]. rewrite <- IH.
      destruct cur as [|a cur]; cbn [Str.is_empty]; auto.
      cbn [concat_lines]. rewrite !append_assoc, !filter_app.
      change (Str.filter not_cr (String CR "")) with "". reflexivity.
    + rewrite IH, append_assoc. reflexivity.
Qed.

(** X1: how the bytes are cut into chunks does not matter: feeding two chunks
    one after the other delivers the same lines, and leaves the same buffer, as
    feeding them joined. *)
Theorem receive_chunking line_buffer chunk1 chunk2 :
  receive line_buffer (chunk1 ++ chunk2)
  = (let (calls1, buffer1) := receive line_buffer chunk1 in
     let (calls2, buffer2) := receive buffer1 chunk2 in
     ((calls1 ++ calls2)%list, buffer2)).
Proof.
  rewrite !receive_scan, <- append_assoc, scan_app.
  pose proof (scan_rest_no_cr "" (line_buffer ++ chunk1) eq_refl) as Hr.
  destruct (scan "" (line_buffer ++ chunk1)) as [l1 r1]. cbn [snd] in Hr.
  rewrite receive_scan, (scan_app "" r1 chunk2), (scan_no_cr "" r1 Hr).
  cbn [String.append]. now destruct (scan r1 chunk2).
Qed.

(** X2: what [data_callback] receives and what stays behind: every delivered
    line is a non-empty segment followed by its carriage return, no carriage
    return is left in the buffer, and apart from carriage returns no byte is
    lost, repeated or moved. *)
Theorem receive_lines line_buffer chunk :
  let (calls, buffer) := receive line_buffer chunk in
  Forall complete_line calls
  /\ has_cr buffer = false
  /\ Str.filter not_cr (concat_lines calls ++ buffer)
     = Str.filter not_cr (line_buffer ++ chunk).
Proof.
  rewrite receive_scan.
  pose proof (scan_lines "" (line_buffer ++ chunk) eq_refl) as H1.
  pose proof (scan_rest_no_cr "" (line_buffer ++ chunk) eq_refl) as H2.
  pose proof (scan_payload "" (line_buffer ++ chunk)) as H3.
  destruct (scan "" (line_buffer ++ chunk)) as [calls buffer].
  auto.
Qed.

(* ===================================================================== *)
(** ** The lines of a packet: [process_data] *)
(* ===================================================================== *)

(** *** White space *)

Lemma lstrip_by_forallb p q s :
  Str.forallb q s = true -> Str.forallb q (Str.lstrip_by p s) = true.
Proof.
  induction s as [|c s IH]; cbn [Str.lstrip_by Str.forallb]; auto.
  intros H. apply andb_true_iff in H as [Hc Hs].
  destruct (p c); [now apply IH|]. cbn [Str.forallb]. now rewrite Hc, Hs.
Qed.

Lemma rstrip_by_forallb p q s :
  Str.forallb q s = true -> Str.forallb q (Str.rstrip_by p s) = true.
Proof.
  induction s as [|c s IH]; cbn [Str.rstrip_by Str.forallb]; auto.
  intros H. apply andb_true_iff in H as [Hc Hs]. specialize (IH Hs).
  destruct (Str.rstrip_by p s) eqn:E.
  - destruct (p c); cbn [Str.forallb]; auto. now rewrite Hc.
  - cbn [Str.forallb] in *. now rewrite Hc, IH.
Qed.

Lemma strip_forallb q s :
  Str.forallb q s = true -> Str.forallb q (Str.strip s) = true.
Proof.
  intros H. unfold Str.strip.
  now apply rstrip_by_forallb, lstrip_by_forallb.
Qed.

Lemma lstrip_by_head p s : head_is p (Str.lstrip_by p s) = false.
Proof.
  induction s as [|c s IH]; cbn [Str.lstrip_by]; auto.
  destruct (p c) eqn:E; [exact IH|]. cbn [head_is]. exact E.
Qed.

Lemma lstrip_by_fix p s : head_is p s = false -> Str.lstrip_by p s = s.
Proof. destruct s as [|c s]; cbn; auto. now intros ->. Qed.

Lemma rstrip_by_head p s :
  head_is p s = false -> head_is p (Str.rstrip_by p s) = false.
Proof.
  destruct s as [|c s]; cbn [Str.rstrip_by head_is]; auto.
  intros H. destruct (Str.rstrip_by p s); cbn [head_is]; auto.
  now rewrite H.
Qed.

Lemma rstrip_by_idem p s :
  Str.rstrip_by p (Str.rstrip_by p s) = Str.rstrip_by p s.
Proof.
  induction s as [|c s IH]; cbn [Str.rstrip_by]; auto.
  destruct (Str.rstrip_by p s) as [|a r] eqn:E.
  - destruct (p c) eqn:Ec; cbn [Str.rstrip_by]; auto. now rewrite Ec.
  - cbn [Str.rstrip_by]. cbn [Str.rstrip_by] in IH.
    destruct (match Str.rstrip_by p r with
              | "" => if p a then "" else String a ""
              | String a0 s0 => String a (String a0 s0)
              end) eqn:E2; [discriminate|].
    congruence.
Qed.

Lemma strip_idem s : Str.strip (Str.strip s) = Str.strip s.
Proof.
  unfold Str.strip.
  rewrite (lstrip_by_fix Str.isspace (Str.rstrip_by _ _)).
  - apply rstrip_by_idem.
  - apply rstrip_by_head, lstrip_by_head.
Qed.

(** *** The lines handed to the decoder *)

Lemma forallb_snoc q s c :
  Str.forallb q (s ++ String c "") = Str.forallb q s && q c.
Proof.
  induction s as [|a s IH]; cbn [String.append Str.forallb].
  - now rewrite andb_true_r.
  - now rewrite IH, andb_assoc.
Qed.

Lemma re_split_parts cur in_run s :
  Str.forallb not_crlf cur = true ->
  Forall (fun part => Str.forallb not_crlf part = true)
         (re_split cur in_run s).
Proof.
  revert cur in_run. induction s as [|c s IH]; intros cur in_run H;
    cbn [re_split].
  - now constructor.
  - destruct (is_crlf c) eqn:E.
    + destruct in_run; [|constructor; auto]; now apply IH.
    + apply IH. rewrite forallb_snoc, H. unfold not_crlf. now rewrite E.
Qed.

Lemma loop_lines clock k parts osd :
  loop clock k parts osd
  = loop clock k
      (List.filter (fun l => negb (Str.is_empty l)) (List.map Str.strip parts))
      osd.
Proof.
  revert k osd. induction parts as [|part parts IH]; intros k osd;
    [reflexivity|].
  cbn [loop List.map List.filter].
  destruct (Str.is_empty (Str.strip part)) eqn:E; cbn [negb]; [apply IH|].
  cbn [loop]. rewrite strip_idem, E.
  destruct (parse_response _ _ _ _) as [[r|e] osd']; [|reflexivity].
  now rewrite IH.
Qed.

Lemma loop_app clock k l1 l2 osd :
  loop clock k (l1 ++ l2) osd
  = (let '(ev1, osd1, k1, raised1) := loop clock k l1 osd in
     match raised1 with
     | Some e => (ev1, osd1, k1, Some e)
     | None =>
         let '(ev2, osd2, k2, raised2) := loop clock k1 l2 osd1 in
         ((ev1 ++ ev2)%list, osd2, k2, raised2)
     end).
Proof.
  revert k osd. induction l1 as [|part l1 IH]; intros k osd;
    cbn [app loop].
  - now destruct (loop clock k l2 osd) as [[[ev2 osd2] k2] r2].
  - destruct (Str.is_empty (Str.strip part)); [apply IH|].
    destruct (parse_response _ _ _ _) as [[r|e] osd']; [|reflexivity].
    rewrite IH.
    destruct (loop clock (S k) l1 osd') as [[[ev1 osd1] k1] [e|]];
      [reflexivity|].
    destruct (loop clock k1 l2 osd1) as [[[ev2 osd2] k2] r2].
    now destruct r.
Qed.

Lemma lines_of_in_run s : lines_of "" true s = lines_of "" false s.
Proof.
  destruct s as [|c s]; [reflexivity|].
  unfold lines_of. cbn [re_split]. destruct (is_crlf c); reflexivity.
Qed.

Lemma lines_of_seps sep b :
  Str.forallb is_crlf sep = true ->
  lines_of "" true (sep ++ b) = lines_of "" false b.
Proof.
  induction sep as [|c sep IH]; intros H; cbn [String.append].
  - apply lines_of_in_run.
  - cbn [Str.forallb] in H. apply andb_true_iff in H as [Hc Hs].
    unfold lines_of in *. cbn [re_split]. rewrite Hc. now apply IH.
Qed.

Lemma lines_of_join cur in_run a sep b :
  (in_run = true -> cur = "") ->
  separator sep = true ->
  lines_of cur in_run (a ++ sep ++ b)
  = (lines_of cur in_run a ++ lines_of "" false b)%list.
Proof.
  intros Hcur Hsep. unfold separator in Hsep.
  apply andb_true_iff in Hsep as [Hne Hall].
  revert cur in_run Hcur.
  induction a as [|x a IH]; intros cur in_run Hcur; cbn [String.append].
  - destruct sep as [|c sep]; [discriminate|].
    cbn [Str.forallb] in Hall. apply andb_true_iff in Hall as [Hc Hs].
    pose proof (lines_of_seps sep b Hs) as L.
    unfold lines_of in *. cbn [String.append re_split]. rewrite Hc.
    destruct in_run.
    + rewrite (Hcur eq_refl). cbn. exact L.
    + cbn [List.map List.filter]. rewrite L.
      now destruct (negb (Str.is_empty (Str.strip cur))).
  - unfold lines_of in *. cbn [re_split]. destruct (is_crlf x).
    + destruct in_run.
      * now apply IH.
      * cbn [List.map List.filter]. rewrite IH by auto.
        now destruct (negb (Str.is_empty (Str.strip cur))).
    + apply IH. discriminate.
Qed.

(** X3: every line [process_data] hands to [parse_response] is non-empty, has no
    white space at either end and holds no carriage return or line feed; and the
    call is the loop over exactly these lines. *)
Theorem process_data_lines clock k decoded_data osd :
  process_data clock k decoded_data osd
  = loop clock k (lines_of "" false decoded_data) osd
  /\ Forall (fun line => line <> ""
                         /\ Str.strip line = line
                         /\ Str.forallb not_crlf line = true)
            (lines_of "" false decoded_data).
Proof.
  split; [apply loop_lines|].
  unfold lines_of.
  pose proof (re_split_parts "" false decoded_data eq_refl) as H.
  induction H as [|part parts Hp _ IH]; cbn [List.map List.filter];
    [constructor|].
  destruct (Str.strip part) eqn:E; cbn [Str.is_empty negb]; auto.
  constructor; auto. rewrite <- E.
  repeat split.
  - rewrite E. discriminate.
  - apply strip_idem.
  - now apply strip_forallb.
Qed.

(** X4: a packet that holds several lines is processed as the lines sent one
    after the other: the events, the final state and a raised exception are
    those of processing what precedes a run of separators and then, unless that
    raised, what follows it. *)
Theorem process_data_join clock k a sep b osd :
  separator sep = true ->
  process_data clock k (a ++ sep ++ b) osd
  = (let '(ev1, osd1, k1, raised1) := process_data clock k a osd in
     match raised1 with
     | Some e => (ev1, osd1, k1, Some e)
     | None =>
         let '(ev2, osd2, k2, raised2) := process_data clock k1 b osd1 in
         ((ev1 ++ ev2)%list, osd2, k2, raised2)
     end).
Proof.
  intros Hsep. unfold process_data.
  rewrite (loop_lines clock k (re_split "" false (a ++ sep ++ b))).
  fold (lines_of "" false (a ++ sep ++ b)).
  rewrite (lines_of_join "" false a sep b) by (auto; discriminate).
  rewrite loop_app. unfold lines_of.
  rewrite <- (loop_lines clock k (re_split "" false a)).
  destruct (loop clock k (re_split "" false a) osd)
    as [[[ev1 osd1] k1] [e|]]; [reflexivity|].
  now rewrite <- loop_lines.
Qed.

Lemma process_data_join_witness :
  let clock := fun _ : nat => (float_of_Z 0, float_of_Z 0) in
  process_data clock 0 ("MV50" ++ String "013" (String "010" "") ++ "MUON")
               (OsdParser.init 5)
  = (let '(ev1, osd1, k1, raised1) :=
       process_data clock 0 "MV50" (OsdParser.init 5) in
     match raised1 with
     | Some e => (ev1, osd1, k1, Some e)
     | None =>
         let '(ev2, osd2, k2, raised2) := process_data clock k1 "MUON" osd1 in
         ((ev1 ++ ev2)%list, osd2, k2, raised2)
     end).
Proof.
  intros clock.
  apply (process_data_join clock 0 "MV50" (String "013" (String "010" ""))
                           "MUON" (OsdParser.init 5)).
  reflexivity.
Defined.

(* ===================================================================== *)
(** ** The OSD state machine over a run *)
(* ===================================================================== *)

Lemma filter_forallb p s : Str.forallb p (Str.filter p s) = true.
Proof.
  induction s as [|c s IH]; cbn [Str.filter Str.forallb]; auto.
  destruct (p c) eqn:E; auto. cbn [Str.forallb]. now rewrite E, IH.
Qed.

Lemma filter_id p s : Str.forallb p s = true -> Str.filter p s = s.
Proof.
  induction s as [|c s IH]; cbn [Str.filter Str.forallb]; auto.
  intros H. apply andb_true_iff in H as [Hc Hs]. now rewrite Hc, IH.
Qed.

(** X5: [_clean_osd_text] returns a text in normal form: no control character is
    left in it, no white space at either end, and cleaning it again changes
    nothing. *)
Theorem clean_osd_text_normal_form text :
  let t := _clean_osd_text text in
  Str.forallb not_control t = true
  /\ Str.strip t = t
  /\ _clean_osd_text t = t.
Proof.
  intros t. subst t. unfold _clean_osd_text.
  fold not_control.
  assert (H : Str.forallb not_control
                (Str.strip (Str.filter not_control text)) = true)
    by apply strip_forallb, filter_forallb.
  split; [exact H|]. split; [apply strip_idem|].
  rewrite (filter_id _ _ H). now rewrite strip_idem.
Qed.

Lemma digit_slot d :
  Re.digit d = true ->
  0 <= Str.digits_val (String d "") <= 9.
Proof.
  intros H. apply digit_cases in H. cbn in H.
  repeat (destruct H as [<-|H]; [vm_compute; split; discriminate|]).
  contradiction.
Qed.

Lemma content_slot_digit d :
  Re.digit d = true ->
  (Str.digits_val (String d "") =? 0) = false ->
  (Str.digits_val (String d "") =? 8) = false ->
  content_slot (Str.digits_val (String d "")) = true.
Proof.
  intros H H0 H8. pose proof (digit_slot d H). unfold content_slot. lia.
Qed.

Lemma now_playing_event_has_no_line line raw name n rest :
  _handle_now_playing_line line raw
  <> Some (name, ("line", VInt n) :: rest).
Proof.
  unfold _handle_now_playing_line.
  repeat match goal with
         | |- context [if ?b then _ else _] => destruct b
         end; try discriminate.
  destruct (Re.search TIME_RE _), (Re.search PERCENT_RE _); discriminate.
Qed.

Lemma context_menu_event_line line raw name n rest :
  _handle_context_menu_line line raw
  = Some (name, ("line", VInt n) :: rest) -> n = line.
Proof.
  unfold _handle_context_menu_line.
  repeat match goal with
         | |- context [if ?b then _ else _] => destruct b
         end; try discriminate.
  intros E. now injection E as _ <- _.
Qed.

Lemma invariant_set_mode timeout self m :
  osd_invariant timeout self ->
  osd_invariant timeout
    (set_context self (set_screen_mode (context self) m)).
Proof. intros H. exact H. Qed.

Lemma menu_line_invariant timeout line raw self :
  osd_invariant timeout self ->
  content_slot line = true ->
  osd_invariant timeout (snd (_handle_menu_line line raw self))
  /\ (forall name n rest,
        fst (_handle_menu_line line raw self)
        = Some (name, ("line", VInt n) :: rest) -> n = line).
Proof.
  intros (Hto & Hmi & Hcur & Hpend) Hslot. unfold _handle_menu_line.
  destruct (Str.startswith raw SELECTED_ITEM_CHAR);
    destruct (_ || _); cbn [fst snd]; (split; [|try discriminate]).
  all: try (intros name n rest E; now injection E as _ <- _).
  all: unfold osd_invariant;
    cbn [set_context set_cursor_line context context_timeout menu_items
         cursor_line _pending_selected_line]; auto.
  all: now repeat split.
Qed.

(** One call of [parse] keeps the invariant, and the events it emits with
    a ["line"] carry a content slot. *)
Lemma parse_invariant timeout self now nt response :
  osd_invariant timeout self ->
  osd_invariant timeout (snd (parse now nt response self))
  /\ (forall name n rest,
        fst (parse now nt response self)
        = Some (name, ("line", VInt n) :: rest) ->
        content_slot n = true).
Proof.
  intros (Hto & Hmi & Hcur & Hpend).
  destruct (Str.startswith response "NSE") eqn:Hs.
  2:{ destruct (_pending_selected_line self) as [p|] eqn:Hp.
      - rewrite (parse_pending_non_NSE _ _ _ _ _ Hp Hs). cbn [fst snd].
        split; [now repeat split|].
        intros name n rest E. unfold fragment_event in E.
        injection E as _ <- _. exact Hpend.
      - rewrite (parse_idle_non_NSE _ _ _ _ Hp Hs). cbn [fst snd].
        split; [repeat split; auto; now rewrite Hp|discriminate]. }
  destruct (Re.rmatch NSE_RE response) as [m|] eqn:Hm.
  2:{ unfold parse. rewrite Hs, Hm.
      assert (E : (match _pending_selected_line self with
                   | Some _ | _ => (@None event, self) end) = (None, self))
        by now destruct (_pending_selected_line self).
      rewrite E. cbn [fst snd]. split; [now repeat split|discriminate]. }
  destruct (NSE_RE_inv _ _ Hm) as (d & raw & -> & Hd).
  destruct (Str.digits_val (String d "") =? 0) eqn:H0.
  { rewrite (digit_zero d Hd H0).
    change ("NSE" ++ String "0" raw) with ("NSE0" ++ raw).
    rewrite parse_title, handle_title_line_spec. cbn [fst snd].
    pose proof (reset_frame self now) as (Ht & Hc & Hi & Hp & Hto' & Hl).
    cbv zeta in *.
    split; [|discriminate].
    destruct (String.eqb _ _).
    - unfold osd_invariant.
      cbn [set_context context context_timeout menu_items cursor_line
           _pending_selected_line].
      rewrite Hto', Hi, Hc, Hp. now repeat split.
    - unfold osd_invariant.
      cbn [context context_timeout menu_items cursor_line
           _pending_selected_line].
      rewrite Hto'. repeat split; auto. }
  pose proof (content_slot_digit d Hd H0) as Hslot.
  assert (Hinv : osd_invariant timeout (_reset_context_if_timed_out now self)).
  { pose proof (reset_frame self now) as (_ & Hc & Hi & Hp & Hto' & _).
    cbv zeta in *. unfold osd_invariant. rewrite Hto', Hi, Hc, Hp.
    now repeat split. }
  assert (Hparse :
    parse now nt ("NSE" ++ String d raw) self
    = (let self := _reset_context_if_timed_out now self in
       let line := Str.digits_val (String d "") in
       if line =? 8 then
         let text :=
           _clean_osd_text
             (Str.lstrip_by (Ascii.eqb PLAYING_ITEM_CHAR) raw) in
         if negb (Str.is_empty text)
         then (Some ("station_info_update", [("text", VStr text)]), self)
         else (None, self)
       else if in_menu_modes (screen_mode (context self))
               && Str.is_empty (Str.strip raw) then
         (None, set_pending self (Some line))
       else
         let self :=
           match screen_mode (context self) with
           | Some _ => self
           | None =>
               let current_mode :=
                 if Str.startswith raw NOW_PLAYING_CHAR then
                   Some MODE_NOW_PLAYING
                 else if Str.startswith raw MENU_ITEM_CHAR
                         || Str.startswith raw SELECTED_ITEM_CHAR then
                   Some MODE_MENU
                 else if Str.startswith raw CONTEXT_MENU_CHAR
                         || Str.startswith raw (String "010" "") then
                   Some MODE_CONTEXT_MENU
                 else None in
               set_context self (set_screen_mode (context self) current_mode)
           end in
         match screen_mode (context self) with
         | Some MODE_NOW_PLAYING =>
             (_handle_now_playing_line line raw, self)
         | Some MODE_MENU => _handle_menu_line line raw self
         | Some MODE_CONTEXT_MENU =>
             (_handle_context_menu_line line raw, self)
         | None => (None, self)
         end)).
  { nse_line d raw. rewrite H0. now destruct (_pending_selected_line self). }
  rewrite Hparse. clear Hparse. cbv zeta.
  set (s0 := _reset_context_if_timed_out now self) in *. clearbody s0.
  set (line := Str.digits_val (String d "")) in *. clearbody line.
  clear Hto Hmi Hcur Hpend Hm Hs.
  destruct (line =? 8) eqn:H8.
  { destruct (negb _); cbn [fst snd]; (split; [exact Hinv|discriminate]). }
  specialize (Hslot eq_refl).
  destruct (in_menu_modes (screen_mode (context s0))
            && Str.is_empty (Str.strip raw)).
  { cbn [fst snd]. split; [|discriminate].
    destruct Hinv as (Hto & Hmi & Hcur & _). now repeat split. }
  set (s1 := match screen_mode (context s0) with
             | Some _ => s0
             | None => _
             end).
  assert (Hinv1 : osd_invariant timeout s1).
  { subst s1. destruct (screen_mode (context s0)); [exact Hinv|].
    now apply invariant_set_mode. }
  clearbody s1.
  destruct (screen_mode (context s1)) as [[]|]; cbn [fst snd].
  - split; [exact Hinv1|]. intros name n rest E.
    now apply now_playing_event_has_no_line in E.
  - destruct (menu_line_invariant timeout line raw s1 Hinv1 Hslot)
      as [H1 H2].
    split; [exact H1|]. intros name n rest E.
    now rewrite (H2 _ _ _ E).
  - split; [exact Hinv1|]. intros name n rest E.
    now rewrite (context_menu_event_line _ _ _ _ _ E).
  - split; [exact Hinv1|discriminate].
Qed.

(** X6: over any run of [parse_response] from a new parser object, the timeout
    stays the one given to [__init__], [menu_items] stays empty, the cursor is
    -1 or a content slot (1 to 7, or 9) and so is a pending slot; and every
    event the OSD parser then emits with a ["line"] carries a content slot. *)
Theorem osd_invariant_run timeout calls :
  let osd := run_calls calls (init timeout) in
  osd_invariant timeout osd
  /\ (forall now now_title response name n rest,
        fst (parse now now_title response osd)
        = Some (name, ("line", VInt n) :: rest) ->
        content_slot n = true).
Proof.
  intros osd.
  assert (H : osd_invariant timeout osd).
  { subst osd.
    assert (H0 : osd_invariant timeout (init timeout))
      by (unfold osd_invariant; cbn; auto).
    revert H0. generalize (init timeout).
    induction calls as [|[[now nt] response] calls IH]; intros self H;
      cbn [run_calls]; auto.
    apply IH. unfold parse_response.
    pose proof (parse_invariant timeout self now nt response H) as [H1 _].
    destruct (parse now nt response self) as [[ev|] self']; exact H1. }
  split; [exact H|].
  intros now nt response.
  apply (parse_invariant timeout osd now nt response H).
Qed.

(** X7: the stored cursor moves only in two ways: a title line whose text
    differs from the stored title resets it to -1, and a line decoded in Menu
    mode whose text starts with the selected-item signifier 0x04 sets it to the
    slot of that line.  No other line changes it; in particular a fragment
    emitted as the selected item leaves it alone. *)
Theorem cursor_moves_only_on_selected_item self now now_title response :
  cursor_line (context (snd (parse now now_title response self)))
  <> cursor_line (context self) ->
  (exists raw,
      response = "NSE0" ++ raw
      /\ _clean_osd_text raw <> screen_title (context self)
      /\ cursor_line (context (snd (parse now now_title response self))) = -1)
  \/ (exists d raw,
        response = "NSE" ++ String d (SELECTED_ITEM_CHAR ++ raw)
        /\ Re.digit d = true
        /\ cursor_line (context (snd (parse now now_title response self)))
           = Str.digits_val (String d "")
        /\ screen_mode (context (snd (parse now now_title response self)))
           = Some MODE_MENU).
Proof.
  intros Hne.
  destruct (Str.startswith response "NSE") eqn:Hs.
  2:{ exfalso. apply Hne.
      destruct (_pending_selected_line self) as [n|] eqn:Hp.
      - now rewrite (parse_pending_non_NSE _ _ _ _ _ Hp Hs).
      - now rewrite (parse_idle_non_NSE _ _ _ _ Hp Hs). }
  destruct (Re.rmatch NSE_RE response) as [m|] eqn:Hm.
  2:{ exfalso. apply Hne. unfold parse. rewrite Hs, Hm.
      now destruct (_pending_selected_line self). }
  destruct (NSE_RE_inv _ _ Hm) as (d & raw & -> & Hd).
  destruct (Str.digits_val (String d "") =? 0) eqn:H0.
  - left. rewrite (digit_zero d Hd H0) in *.
    exists raw. split; [reflexivity|].
    change ("NSE" ++ String "0" raw) with ("NSE0" ++ raw) in *.
    rewrite parse_title, handle_title_line_spec in *. cbn [snd] in *.
    pose proof (reset_frame self now) as (Ht & Hc & _).
    cbv zeta in Ht, Hc. rewrite Ht in *.
    destruct (String.eqb (_clean_osd_text raw) (screen_title (context self)))
      eqn:E.
    + exfalso. apply Hne. cbn [set_context context cursor_line]. exact Hc.
    + split; [|reflexivity]. now apply String.eqb_neq.
  - right. exists d.
    revert Hne. nse_line d raw. rewrite H0.
    pose proof (reset_frame self now) as (_ & Hc & _).
    cbv zeta in Hc. rewrite <- Hc.
    generalize (_reset_context_if_timed_out now self). intros s0.
    set (line := Str.digits_val (String d "")). clearbody line.
    unfold _handle_menu_line.
    destruct s0 as [tmo [md t title cur items] pend].
    cbn [context screen_mode cursor_line].
    destruct (Str.startswith raw SELECTED_ITEM_CHAR) eqn:Hsel.
    + destruct (startswith_inv _ _ Hsel) as [rest ->].
      intros Hne. exists rest. split; [reflexivity|]. split; [exact Hd|].
      revert Hne.
      cbn [Str.startswith String.append SELECTED_ITEM_CHAR NOW_PLAYING_CHAR
           MENU_ITEM_CHAR CONTEXT_MENU_CHAR Ascii.eqb Bool.eqb andb orb].
      destruct md as [[]|];
        cbn [in_menu_modes andb set_context set_screen_mode context
             screen_mode].
      all: split_branches; cbn; intros Hne;
        try (exfalso; apply Hne; reflexivity).
      all: split; reflexivity.
    + intros Hne. exfalso. apply Hne.
      destruct md as [[]|]; cbn [in_menu_modes andb].
      all: split_branches; cbn; try reflexivity; try discriminate.
Qed.

Lemma cursor_moves_only_on_selected_item_witness :
  let response := "NSE3" ++ SELECTED_ITEM_CHAR ++ "Audio" in
  let after := snd (parse (float_of_Z 1) (float_of_Z 1) response
                          stale_menu_state) in
  (exists raw,
      response = "NSE0" ++ raw
      /\ _clean_osd_text raw <> screen_title (context stale_menu_state)
      /\ cursor_line (context after) = -1)
  \/ (exists d raw,
        response = "NSE" ++ String d (SELECTED_ITEM_CHAR ++ raw)
        /\ Re.digit d = true
        /\ cursor_line (context after) = Str.digits_val (String d "")
        /\ screen_mode (context after) = Some MODE_MENU).
Proof.
  intros response after.
  apply (cursor_moves_only_on_selected_item stale_menu_state
           (float_of_Z 1) (float_of_Z 1) response).
  vm_compute. discriminate.
Defined.

(** X8: within the timeout, only a title line changes a screen mode that is
    determined: every other line, of the OSD or not, leaves it as it is. *)
Theorem determined_mode_changes_only_by_title self now now_title response m :
  screen_mode (context self) = Some m ->
  timed_out now self = false ->
  Str.startswith response "NSE0" = false ->
  screen_mode (context (snd (parse now now_title response self))) = Some m.
Proof.
  intros Hm Hto Hn0.
  destruct (Str.startswith response "NSE") eqn:Hs.
  2:{ destruct (_pending_selected_line self) as [n|] eqn:Hp.
      - now rewrite (parse_pending_non_NSE _ _ _ _ _ Hp Hs).
      - now rewrite (parse_idle_non_NSE _ _ _ _ Hp Hs). }
  destruct (Re.rmatch NSE_RE response) as [mt|] eqn:Hmt.
  2:{ unfold parse. rewrite Hs, Hmt.
      now destruct (_pending_selected_line self). }
  destruct (NSE_RE_inv _ _ Hmt) as (d & raw & -> & Hd).
  destruct (Str.digits_val (String d "") =? 0) eqn:H0.
  { rewrite (digit_zero d Hd H0) in Hn0.
    change ("NSE" ++ String "0" raw) with ("NSE0" ++ raw) in Hn0.
    rewrite (startswith_app "NSE0" raw) in Hn0. discriminate. }
  nse_line d raw. rewrite H0, (reset_fresh _ _ Hto).
  set (line := Str.digits_val (String d "")). clearbody line.
  unfold _handle_menu_line.
  destruct self as [tmo [md t title cur items] pend].
  cbn [context screen_mode] in Hm. subst md.
  cbn [set_context set_last_update_time context screen_mode].
  destruct m; cbn [in_menu_modes andb].
  all: split_branches; reflexivity.
Qed.

Lemma determined_mode_changes_only_by_title_witness :
  screen_mode (context (snd (parse (float_of_Z 1) (float_of_Z 1)
                                   ("NSE1" ++ NOW_PLAYING_CHAR ++ "Song")
                                   stale_menu_state)))
  = Some MODE_MENU.
Proof.
  apply (determined_mode_changes_only_by_title stale_menu_state
           (float_of_Z 1) (float_of_Z 1)
           ("NSE1" ++ NOW_PLAYING_CHAR ++ "Song") MODE_MENU);
    reflexivity.
Defined.

(* ===================================================================== *)
(** ** What the patterns capture *)
(* ===================================================================== *)

Lemma rep_inv {A} p s : forall lo hi (k : string -> option A) r,
  Re.rep p lo hi s k = Some r ->
  exists a b, s = a ++ b
              /\ Str.forallb p a = true
              /\ (lo <= String.length a)%nat
              /\ (forall h, hi = Some h -> (String.length a <= h)%nat)
              /\ k b = Some r.
Proof.
  induction s as [|c s IH]; intros lo hi k r; cbn [Re.rep].
  - destruct lo; [|discriminate]. intros H.
    exists "", "". repeat split; auto. intros; cbn; lia.
  - assert (Stop : match lo with O => k (String c s) | S _ => None end
                   = Some r ->
                   exists a b, String c s = a ++ b
                     /\ Str.forallb p a = true
                     /\ (lo <= String.length a)%nat
                     /\ (forall h, hi = Some h -> (String.length a <= h)%nat)
                     /\ k b = Some r).
    { destruct lo; [|discriminate]. intros H.
      exists "", (String c s). repeat split; auto. intros; cbn; lia. }
    destruct (p c && Re.one_more hi) eqn:E; [|exact Stop].
    destruct (Re.rep p (Nat.pred lo) (option_map Nat.pred hi) s k)
      as [r'|] eqn:R; [|exact Stop].
    intros H. injection H as <-.
    apply andb_true_iff in E as [Hc Hm].
    destruct (IH _ _ _ _ R) as (a & b & -> & Ha & Hlo & Hhi & Hk).
    exists (String c a), b. cbn [String.append Str.forallb String.length].
    rewrite Hc, Ha. repeat split; auto; [lia|].
    intros h ->. destruct h as [|h]; [discriminate|].
    specialize (Hhi h eq_refl). lia.
Qed.

Lemma at_end_line_end s : Re.at_end s = line_end s.
Proof.
  destruct s as [|c [|c' s]]; cbn; auto;
    now destruct (Ascii.eqb c "010").
Qed.

(** A group of digits up to the end of the line. *)
Lemma run_digits_end_inv i lo hi s c m :
  Re.run (Re.Grp i (Re.Rep Re.digit lo hi) >> Re.Eos)%re s c
         (fun _ c' => Some c') = Some m ->
  exists d nl, s = d ++ nl
               /\ m = (i, d) :: c
               /\ Str.forallb Re.digit d = true
               /\ (lo <= String.length d)%nat
               /\ (forall h, hi = Some h -> (String.length d <= h)%nat)
               /\ line_end nl = true.
Proof.
  cbn [Re.run]. intros H.
  apply rep_inv in H as (a & b & -> & Ha & Hlo & Hhi & Hk).
  exists a, b. rewrite <- at_end_line_end.
  destruct (Re.at_end b); [|discriminate].
  injection Hk as <-. unfold Re.consumed. rewrite take_app_length.
  now repeat split.
Qed.

Lemma run_lit_inv l (R : Re.regex) s c k m :
  Re.run (Re.Lit l >> R)%re s c k = Some m ->
  exists rest, s = l ++ rest /\ Re.run R rest c k = Some m.
Proof.
  cbn [Re.run]. intros H.
  destruct (Str.startswith s l) eqn:E.
  - destruct (startswith_inv _ _ E) as [rest ->].
    rewrite strip_prefix_app in H. now exists rest.
  - now rewrite (startswith_false_strip_prefix _ _ E) in H.
Qed.

Lemma run_cls_inv p (R : Re.regex) s c k m :
  Re.run (Re.Cls p >> R)%re s c k = Some m ->
  exists a rest, s = String a rest /\ p a = true
                 /\ Re.run R rest c k = Some m.
Proof.
  cbn [Re.run]. destruct s as [|a rest]; [discriminate|].
  destruct (p a) eqn:E; [|discriminate]. intros H. now exists a, rest.
Qed.

Lemma run_opt_space_inv (R : Re.regex) s c k m :
  Re.run (Re.Opt (Re.Cls Re.space) >> R)%re s c k = Some m ->
  exists sep rest, s = sep ++ rest /\ opt_space sep = true
                   /\ Re.run R rest c k = Some m.
Proof.
  cbn [Re.run]. intros H.
  assert (Skip : Re.run R s c k = Some m ->
                 exists sep rest, s = sep ++ rest /\ opt_space sep = true
                                  /\ Re.run R rest c k = Some m)
    by (intros H'; now exists "", s).
  destruct s as [|a rest]; [now apply Skip|].
  destruct (Re.space a) eqn:E; [|now apply Skip].
  destruct (Re.run R rest c k) as [m'|] eqn:E'; [|now apply Skip].
  injection H as <-. exists (String a ""), rest. cbn. now rewrite E.
Qed.

Lemma digit_string_of d :
  Str.forallb Re.digit d = true -> (1 <= String.length d)%nat ->
  digit_string d = true.
Proof.
  intros H L. unfold digit_string. destruct d; [cbn in L; lia|]. exact H.
Qed.

(** [prefix(\d+)$] *)
Lemma prefix_digits_inv prefix s m :
  Re.rmatch (Re.Lit prefix >> DIGITS_END)%re s = Some m ->
  exists d nl, s = prefix ++ d ++ nl /\ m = [(1%nat, d)]
               /\ digit_string d = true /\ line_end nl = true.
Proof.
  unfold Re.rmatch. intros H.
  apply run_lit_inv in H as (rest & -> & H).
  apply run_digits_end_inv in H as (d & nl & -> & -> & Hd & Hl & _ & Hn).
  exists d, nl. repeat split; auto. now apply digit_string_of.
Qed.

(** [prefix\s?(\d+)$] *)
Lemma prefix_sp_digits_inv prefix s m :
  Re.rmatch (Re.Lit prefix >> SP_DIGITS_END)%re s = Some m ->
  exists sep d nl, s = prefix ++ sep ++ d ++ nl /\ m = [(1%nat, d)]
                   /\ opt_space sep = true
                   /\ digit_string d = true /\ line_end nl = true.
Proof.
  unfold Re.rmatch. intros H.
  apply run_lit_inv in H as (rest & -> & H).
  apply run_opt_space_inv in H as (sep & rest' & -> & Hsep & H).
  apply run_digits_end_inv in H as (d & nl & -> & -> & Hd & Hl & _ & Hn).
  exists sep, d, nl. repeat split; auto. now apply digit_string_of.
Qed.

Lemma lstrip_by_none p s :
  Str.forallb (fun c => negb (p c)) s = true -> Str.lstrip_by p s = s.
Proof.
  destruct s as [|c s]; cbn; auto. intros H.
  apply andb_true_iff in H as [H _]. now destruct (p c).
Qed.

Lemma rstrip_by_none p s :
  Str.forallb (fun c => negb (p c)) s = true -> Str.rstrip_by p s = s.
Proof.
  induction s as [|c s IH]; cbn [Str.rstrip_by Str.forallb]; auto.
  intros H. apply andb_true_iff in H as [Hc Hs]. rewrite (IH Hs).
  destruct s; auto. now destruct (p c).
Qed.

Lemma forallb_impl (p q : ascii -> bool) s :
  (forall c, p c = true -> q c = true) ->
  Str.forallb p s = true -> Str.forallb q s = true.
Proof.
  intros Hpq. induction s as [|c s IH]; cbn [Str.forallb]; auto.
  intros H. apply andb_true_iff in H as [Hc Hs].
  now rewrite (Hpq _ Hc), IH.
Qed.

Lemma strip_digits d : Str.forallb Re.digit d = true -> Str.strip d = d.
Proof.
  intros H.
  assert (H' : Str.forallb (fun c => negb (Str.isspace c)) d = true).
  { revert H. apply forallb_impl. intros c Hc.
    pose proof (digit_not_space c Hc) as E. unfold Re.space in E.
    now rewrite E. }
  unfold Str.strip. now rewrite (lstrip_by_none _ _ H'), rstrip_by_none.
Qed.

Lemma py_int_digits d :
  digit_string d = true -> py_int d = Ok (Str.digits_val d).
Proof.
  intros H. unfold py_int.
  destruct (digit_string_inv d H) as (c & d' & -> & _ & Hall).
  rewrite (strip_digits _ Hall).
  change (negb (Str.is_empty (String c d'))
          && Str.forallb Str.isdecimal (String c d'))
    with (digit_string (String c d')).
  now rewrite H.
Qed.

Lemma run_grp_rep_inv i p lo hi (R : Re.regex) s c k m :
  Re.run (Re.Grp i (Re.Rep p lo hi) >> R)%re s c k = Some m ->
  exists a rest, s = a ++ rest
                 /\ Str.forallb p a = true
                 /\ (lo <= String.length a)%nat
                 /\ (forall h, hi = Some h -> (String.length a <= h)%nat)
                 /\ Re.run R rest ((i, a) :: c) k = Some m.
Proof.
  cbn [Re.run]. intros H.
  apply rep_inv in H as (a & b & -> & Ha & Hlo & Hhi & Hk).
  unfold Re.consumed in Hk. rewrite take_app_length in Hk.
  now exists a, b.
Qed.

(** [^PSCEG\s?(\d{2})$] *)
Lemma PSCEG_RE_inv s m :
  Re.rmatch PSCEG_RE s = Some m ->
  exists sep d nl, s = "PSCEG" ++ sep ++ d ++ nl /\ m = [(1%nat, d)]
                   /\ opt_space sep = true
                   /\ Str.forallb Re.digit d = true
                   /\ String.length d = 2%nat /\ line_end nl = true.
Proof.
  unfold Re.rmatch, PSCEG_RE. intros H.
  apply run_lit_inv in H as (rest & -> & H).
  apply run_opt_space_inv in H as (sep & rest' & -> & Hsep & H).
  apply run_digits_end_inv in H as (d & nl & -> & -> & Hd & Hl & Hh & Hn).
  exists sep, d, nl. specialize (Hh _ eq_refl). repeat split; auto. lia.
Qed.

(** [^PSREFLEV\s(\d+)$] *)
Lemma PSREFLEV_RE_inv s m :
  Re.rmatch PSREFLEV_RE s = Some m ->
  exists a d nl, s = "PSREFLEV" ++ String a (d ++ nl) /\ m = [(1%nat, d)]
                 /\ Re.space a = true
                 /\ digit_string d = true /\ line_end nl = true.
Proof.
  unfold Re.rmatch, PSREFLEV_RE. intros H.
  apply run_lit_inv in H as (rest & -> & H).
  apply run_cls_inv in H as (a & rest' & -> & Ha & H).
  apply run_digits_end_inv in H as (d & nl & -> & -> & Hd & Hl & _ & Hn).
  exists a, d, nl. repeat split; auto. now apply digit_string_of.
Qed.

(** [^CV([A-Z]{1,3})\s?(\d+)$] *)
Lemma CV_RE_inv s m :
  Re.rmatch CV_RE s = Some m ->
  exists ch sep d nl, s = "CV" ++ ch ++ sep ++ d ++ nl
                      /\ m = [(2%nat, d); (1%nat, ch)]
                      /\ channel_name ch = true
                      /\ opt_space sep = true
                      /\ digit_string d = true /\ line_end nl = true.
Proof.
  unfold Re.rmatch, CV_RE. intros H.
  apply run_lit_inv in H as (rest & -> & H).
  apply run_grp_rep_inv in H as (ch & rest' & -> & Hch & Hlo & Hhi & H).
  apply run_opt_space_inv in H as (sep & rest'' & -> & Hsep & H).
  apply run_digits_end_inv in H as (d & nl & -> & -> & Hd & Hl & _ & Hn).
  exists ch, sep, d, nl. specialize (Hhi _ eq_refl).
  repeat split; auto.
  - unfold channel_name. rewrite Hch.
    apply andb_true_iff; split; [apply andb_true_iff; split|reflexivity];
      apply Nat.leb_le; lia.
  - now apply digit_string_of.
Qed.

(* ===================================================================== *)
(** ** Which lines can raise *)
(* ===================================================================== *)

Lemma returns_ok {A} (a : A) : returns (Ok a).
Proof. now exists a. Qed.

Lemma half_step_returns d k :
  digit_string d = true ->
  (forall v : float, returns (k v)) ->
  returns (A := option event) (bind (_parse_value_with_half_step d) k).
Proof. intros H Hk. rewrite (half_step_digits d H). apply Hk. Qed.

Lemma half_step_returns_data d k :
  digit_string d = true ->
  (forall v : float, returns (k v)) ->
  returns (A := option payload) (bind (_parse_value_with_half_step d) k).
Proof. intros H Hk. rewrite (half_step_digits d H). apply Hk. Qed.

Lemma py_int_returns d (k : Z -> exc (option payload)) :
  digit_string d = true ->
  (forall v, returns (k v)) ->
  returns (bind (py_int d) k).
Proof. intros H Hk. rewrite (py_int_digits d H). apply Hk. Qed.

Lemma on_off_returns prefix on_val off_val response :
  returns (_create_on_off_parser prefix on_val off_val response).
Proof.
  unfold _create_on_off_parser. split_branches; apply returns_ok.
Qed.

Lemma multi_state_returns pattern map response :
  returns (_create_multi_state_parser pattern map response).
Proof.
  unfold _create_multi_state_parser.
  destruct (Re.rmatch pattern response); apply returns_ok.
Qed.

Lemma numeric_returns prefix response :
  returns (_create_numeric_parser prefix response).
Proof.
  unfold _create_numeric_parser.
  destruct (Re.rmatch _ response) as [m|] eqn:E; [|apply returns_ok].
  apply prefix_sp_digits_inv in E as (sep & d & nl & _ & -> & _ & Hd & _).
  apply py_int_returns; [exact Hd|]. intros. apply returns_ok.
Qed.

Lemma volume_returns response : returns (_parse_volume response).
Proof.
  unfold _parse_volume.
  destruct (Re.rmatch MVMAX_RE response) as [m|] eqn:E.
  - apply prefix_sp_digits_inv in E as (sep & d & nl & _ & -> & _ & Hd & _).
    apply half_step_returns; [exact Hd|]. intros. apply returns_ok.
  - destruct (Re.rmatch MV_RE response) as [m|] eqn:E'; [|apply returns_ok].
    apply prefix_digits_inv in E' as (d & nl & _ & -> & Hd & _).
    apply half_step_returns; [exact Hd|]. intros. apply returns_ok.
Qed.

Lemma dialog_level_returns response : returns (_parse_dialog_level response).
Proof.
  unfold _parse_dialog_level.
  destruct (str_in response _); [apply returns_ok|].
  destruct (str_in response _); [apply returns_ok|].
  destruct (Re.rmatch PSDIL_RE response) as [m|] eqn:E; [|apply returns_ok].
  apply prefix_sp_digits_inv in E as (sep & d & nl & _ & -> & _ & Hd & _).
  apply half_step_returns_data; [exact Hd|]. intros. apply returns_ok.
Qed.

Lemma subwoofer_level_returns response :
  returns (_parse_subwoofer_level_adjust response).
Proof.
  unfold _parse_subwoofer_level_adjust.
  destruct (str_in response _); [apply returns_ok|].
  destruct (str_in response _); [apply returns_ok|].
  destruct (Re.rmatch PSSWL_RE response) as [m|] eqn:E; [|apply returns_ok].
  apply prefix_sp_digits_inv in E as (sep & d & nl & _ & -> & _ & Hd & _).
  apply half_step_returns_data; [exact Hd|]. intros. apply returns_ok.
Qed.

Lemma channel_level_returns response :
  returns (_parse_channel_level response).
Proof.
  unfold _parse_channel_level.
  destruct (String.eqb response "CVEND"); [apply returns_ok|].
  destruct (Re.rmatch CV_RE response) as [m|] eqn:E; [|apply returns_ok].
  apply CV_RE_inv in E as (ch & sep & d & nl & _ & -> & _ & _ & Hd & _).
  apply half_step_returns; [exact Hd|]. intros. apply returns_ok.
Qed.

Lemma zone2_returns response : returns (_parse_zone2 response).
Proof.
  unfold _parse_zone2.
  destruct (str_in response _); [apply returns_ok|].
  destruct (str_in response _); [apply returns_ok|].
  destruct (Re.rmatch Z2_VOL_RE response) as [m|] eqn:E.
  - apply prefix_digits_inv in E as (d & nl & _ & -> & Hd & _).
    apply half_step_returns; [exact Hd|]. intros. apply returns_ok.
  - destruct (Re.rmatch Z2_INPUT_RE response); apply returns_ok.
Qed.

Lemma center_gain_returns response : returns (_parse_center_gain response).
Proof.
  unfold _parse_center_gain.
  destruct (Re.rmatch PSCEG_RE response) as [m|] eqn:E; [|apply returns_ok].
  apply PSCEG_RE_inv in E as (sep & d & nl & _ & -> & _ & Hd & Hl & _).
  apply py_int_returns; [|intros; apply returns_ok].
  apply digit_string_of; [exact Hd|]. cbn [Re.grp Re.group Nat.eqb]. lia.
Qed.

Lemma reference_level_returns response :
  returns (_parse_reference_level response).
Proof.
  unfold _parse_reference_level.
  destruct (Re.rmatch PSREFLEV_RE response) as [m|] eqn:E;
    [|apply returns_ok].
  apply PSREFLEV_RE_inv in E as (a & d & nl & _ & -> & _ & Hd & _).
  apply py_int_returns; [exact Hd|]. intros. apply returns_ok.
Qed.

Lemma sleep_timer_returns response : returns (_parse_sleep_timer response).
Proof.
  unfold _parse_sleep_timer.
  destruct (String.eqb response "SLPOFF"); [apply returns_ok|].
  destruct (Re.rmatch SLP_RE response) as [m|] eqn:E; [|apply returns_ok].
  apply prefix_digits_inv in E as (d & nl & _ & -> & Hd & _).
  apply py_int_returns; [exact Hd|].
  intros v. destruct (v =? 0); apply returns_ok.
Qed.

Lemma tuner_returns response :
  Str.startswith response "TFAN" = false ->
  returns (_parse_tuner_status response).
Proof.
  intros H. unfold _parse_tuner_status. rewrite H.
  split_branches; apply returns_ok.
Qed.

Lemma simple_returns response :
  returns (_parse_picture_mode response)
  /\ returns (_parse_system_lock response)
  /\ returns (_parse_sound_mode response)
  /\ returns (_parse_smart_select response)
  /\ returns (_parse_play_state response)
  /\ returns (_parse_video_select response)
  /\ returns (_parse_trigger response)
  /\ returns (_parse_input_source response).
Proof.
  unfold _parse_picture_mode, _parse_system_lock, _parse_sound_mode,
    _parse_smart_select, _parse_play_state, _parse_video_select,
    _parse_trigger, _parse_input_source.
  repeat split; split_branches; apply returns_ok.
Qed.

Lemma apply_data_returns f event_name response :
  returns (f response) -> returns (apply_entry (Data f event_name) response).
Proof.
  intros [d H]. cbn [apply_entry]. rewrite H. cbn [bind].
  destruct d as [d|]; [destruct (truthy d)|]; apply returns_ok.
Qed.

Ltac entry_returns :=
  first
  [ apply apply_data_returns;
    first [ apply on_off_returns | apply multi_state_returns
          | apply numeric_returns | apply dialog_level_returns
          | apply subwoofer_level_returns | apply center_gain_returns
          | apply reference_level_returns | apply sleep_timer_returns
          | apply simple_returns | apply returns_ok ]
  | cbn [apply_entry];
    first [ apply volume_returns | apply channel_level_returns
          | apply zone2_returns | apply simple_returns ] ].

Lemma dispatch_returns response :
  Str.startswith response "TFAN" = false ->
  returns (dispatch PARSER_CONFIG response).
Proof.
  intros H. unfold PARSER_CONFIG.
  repeat (cbn [dispatch];
          match goal with
          | |- returns (if ?b then _ else _) =>
              destruct b; [first [entry_returns
                                 | cbn [apply_entry]; now apply tuner_returns]|]
          end).
  cbn [dispatch]. apply returns_ok.
Qed.

(** X9: apart from the tuner frequency lines, no line raises: for a line that
    does not start with TFAN, [parse_response] returns, in every state of the
    OSD parser.  (Lines of at most 4300 characters: the interpreter refuses to
    convert longer runs of digits to an integer, a limit the model leaves out.)
    *)
Theorem parse_response_raises_only_on_TFAN now now_title response osd :
  (String.length response <= int_max_str_digits)%nat ->
  Str.startswith response "TFAN" = false ->
  returns (fst (parse_response now now_title response osd)).
Proof.
  intros _ H. unfold parse_response.
  destruct (parse now now_title response osd) as [[ev|] osd'];
    cbn [fst]; [apply returns_ok|].
  now apply dispatch_returns.
Qed.

Lemma parse_response_raises_only_on_TFAN_witness :
  returns (fst (parse_response (float_of_Z 0) (float_of_Z 0) "PSLFE 10"
                               (init 5))).
Proof.
  apply (parse_response_raises_only_on_TFAN (float_of_Z 0) (float_of_Z 0)
           "PSLFE 10" (init 5)).
  - cbn. unfold int_max_str_digits. lia.
  - reflexivity.
Defined.

Lemma py_int_not_decimal s :
  Str.forallb Str.isdecimal (Str.strip s) = false ->
  py_int s = Raise ValueError.
Proof. intros H. unfold py_int. now rewrite H, andb_false_r. Qed.

Lemma dispatch_TFAN f :
  dispatch PARSER_CONFIG ("TFAN" ++ f) = _parse_tuner_status ("TFAN" ++ f).
Proof.
  skip_entries. rewrite dispatch_hit by reflexivity. reflexivity.
Qed.

Lemma tuner_superscript f :
  Str.isdigit (Str.strip f) = true ->
  Str.forallb Str.isdecimal (Str.strip f) = false ->
  _parse_tuner_status ("TFAN" ++ f) = Raise ValueError.
Proof.
  intros Hd Hn. unfold _parse_tuner_status.
  change (Str.startswith ("TFAN" ++ f) "TMAN") with false.
  change (Str.startswith ("TFAN" ++ f) "TFAN") with true.
  change (Str.drop 4 ("TFAN" ++ f)) with f.
  cbv iota. rewrite Hd. cbn [negb].
  rewrite (py_int_not_decimal f Hn). cbn [bind].
  now destruct (_ && _).
Qed.

(** X10: a tuner frequency line raises [ValueError] when what follows TFAN
    passes [str.isdigit] without being a decimal number (a superscript digit):
    with no fragment pending, [parse_response] raises and leaves the OSD parser
    as it was, and [process_data] stops there, without parsing the lines that
    follow in the packet. *)
Theorem tuner_frequency_superscript_raises clock k f part parts osd :
  _pending_selected_line osd = None ->
  Str.isdigit (Str.strip f) = true ->
  Str.forallb Str.isdecimal (Str.strip f) = false ->
  Str.strip part = "TFAN" ++ f ->
  parse_response (fst (clock k)) (snd (clock k)) ("TFAN" ++ f) osd
  = (Raise ValueError, osd)
  /\ loop clock k (part :: parts) osd = ([], osd, S k, Some ValueError).
Proof.
  intros Hp Hd Hn Hs.
  assert (E : parse_response (fst (clock k)) (snd (clock k)) ("TFAN" ++ f) osd
              = (Raise ValueError, osd)).
  { unfold parse_response.
    rewrite (parse_idle_non_NSE osd _ _ ("TFAN" ++ f) Hp eq_refl).
    now rewrite dispatch_TFAN, tuner_superscript. }
  split; [exact E|].
  cbn [loop]. rewrite Hs. cbn [String.append Str.is_empty].
  change (String "T" (String "F" (String "A" (String "N" f))))
    with ("TFAN" ++ f).
  now rewrite E.
Qed.

Lemma tuner_frequency_superscript_raises_witness :
  let clock := fun _ : nat => (float_of_Z 0, float_of_Z 0) in
  let f := String "178" "" in
  parse_response (fst (clock 0%nat)) (snd (clock 0%nat)) ("TFAN" ++ f)
                 (init 5)
  = (Raise ValueError, init 5)
  /\ loop clock 0 [("TFAN" ++ f); "MV50"] (init 5)
     = ([], init 5, 1%nat, Some ValueError).
Proof.
  intros clock f.
  apply (tuner_frequency_superscript_raises clock 0%nat f ("TFAN" ++ f)
           ["MV50"] (init 5)); reflexivity.
Defined.

(** *** Words and states *)

Lemma run_alts_inv ws : forall w s c k m,
  Re.run (alts w ws) s c k = Some m ->
  exists w' rest, In w' (w :: ws) /\ s = w' ++ rest /\ k rest c = Some m.
Proof.
  induction ws as [|w1 ws IH]; intros w s c k m; cbn [alts Re.run].
  - intros H. destruct (Str.startswith s w) eqn:E.
    + destruct (startswith_inv _ _ E) as [rest ->].
      rewrite strip_prefix_app in H. exists w, rest. cbn. auto.
    + now rewrite (startswith_false_strip_prefix _ _ E) in H.
  - intros H. destruct (Str.startswith s w) eqn:E.
    + destruct (startswith_inv _ _ E) as [rest ->].
      rewrite strip_prefix_app in H.
      destruct (k rest c) as [m'|] eqn:K.
      * injection H as <-. exists w, rest. cbn. auto.
      * destruct (IH _ _ _ _ _ H) as (w' & rest' & Hin & Heq & Hk).
        exists w', rest'. split; [now right|]. now split.
    + rewrite (startswith_false_strip_prefix _ _ E) in H.
      destruct (IH _ _ _ _ _ H) as (w' & rest' & Hin & Heq & Hk).
      exists w', rest'. split; [now right|]. now split.
Qed.

Lemma run_words_inv i w ws (R : Re.regex) s c k m :
  Re.run (words i w ws >> R)%re s c k = Some m ->
  exists w' rest, In w' (w :: ws) /\ s = w' ++ rest
                  /\ Re.run R rest ((i, w') :: c) k = Some m.
Proof.
  unfold words. cbn [Re.run]. intros H.
  apply run_alts_inv in H as (w' & rest & Hin & -> & H).
  unfold Re.consumed in H. rewrite take_app_length in H.
  now exists w', rest.
Qed.

Lemma run_eos_inv s c m :
  Re.run Re.Eos s c (fun _ c' => Some c') = Some m -> m = c.
Proof. cbn [Re.run]. destruct (Re.at_end s); congruence. Qed.

(** X11: the parsers of M-DAX, Dynamic Volume and Dynamic Range Compression
    return nothing or one of their four normalised states, whatever the line:
    the receiver's abbreviations (MED, HI, LIT, HEV, MID) never reach the
    payload. *)
Theorem multi_state_parsers_normalise response :
  (_parse_mdax response = Ok None
   \/ exists st, In st ["off"; "low"; "medium"; "high"]
                 /\ _parse_mdax response = Ok (Some [("state", VStr st)]))
  /\ (_parse_dynamic_volume response = Ok None
      \/ exists st, In st ["off"; "light"; "medium"; "heavy"]
                    /\ _parse_dynamic_volume response
                       = Ok (Some [("state", VStr st)]))
  /\ (_parse_dynamic_range_compression response = Ok None
      \/ exists st, In st ["off"; "low"; "medium"; "high"]
                    /\ _parse_dynamic_range_compression response
                       = Ok (Some [("state", VStr st)])).
Proof.
  unfold _parse_mdax, _parse_dynamic_volume,
    _parse_dynamic_range_compression, _create_multi_state_parser, Re.rmatch.
  repeat split.
  - destruct (Re.run _ response [] _) as [m|] eqn:E; [right|now left].
    apply run_lit_inv in E as (r1 & -> & E).
    apply run_opt_space_inv in E as (sep & r2 & -> & _ & E).
    apply run_words_inv in E as (w & r3 & Hin & -> & E).
    apply run_eos_inv in E as ->.
    cbn [Re.grp Re.group Nat.eqb]. cbn in Hin.
    repeat (destruct Hin as [<-|Hin];
            [eexists; split; [|reflexivity]; cbn; tauto|]).
    contradiction.
  - destruct (Re.run _ response [] _) as [m|] eqn:E; [right|now left].
    apply run_lit_inv in E as (r1 & -> & E).
    apply run_opt_space_inv in E as (sep & r2 & -> & _ & E).
    apply run_words_inv in E as (w & r3 & Hin & -> & E).
    apply run_eos_inv in E as ->.
    cbn [Re.grp Re.group Nat.eqb]. cbn in Hin.
    repeat (destruct Hin as [<-|Hin];
            [eexists; split; [|reflexivity]; cbn; tauto|]).
    contradiction.
  - destruct (Re.run _ response [] _) as [m|] eqn:E; [right|now left].
    apply run_lit_inv in E as (r1 & -> & E).
    apply run_cls_inv in E as (a & r2 & -> & _ & E).
    apply run_words_inv in E as (w & r3 & Hin & -> & E).
    apply run_eos_inv in E as ->.
    cbn [Re.grp Re.group Nat.eqb]. cbn in Hin.
    repeat (destruct Hin as [<-|Hin];
            [eexists; split; [|reflexivity]; cbn; tauto|]).
    contradiction.
Qed.

(** *** Tuner frequencies *)

Lemma all_from_spec P count : forall n i,
  all_from P n count = true ->
  n <= i < n + Z.of_nat count -> P i = true.
Proof.
  induction count as [|count IH]; intros n i H Hi; [lia|].
  cbn [all_from] in H. apply andb_true_iff in H as [H0 H].
  destruct (Z.eq_dec i n) as [->|Hne]; [exact H0|].
  apply (IH (n + 1)); [exact H|lia].
Qed.








(* ===================================================================== *)
(** ** Lines of the dispatch table *)
(* ===================================================================== *)




(** *** Smart select and sound mode *)

(** X14: the entry of MSSMART stands before the entry of MS and takes every line
    that starts with MSSMART, which is then never decoded as a sound mode; every
    other line that starts with MS is a sound mode update whose mode is the rest
    of the line, the empty rest included. *)
Theorem smart_select_before_sound_mode rest :
  dispatch PARSER_CONFIG ("MS" ++ rest)
  = Ok (Some (if Str.startswith rest "SMART"
              then ("smart_select_update",
                    [("selection", VStr ("MS" ++ rest))])
              else ("sound_mode_update", [("mode", VStr rest)]))).
Proof.
  skip_entries. cbn [dispatch].
  change (Str.startswith ("MS" ++ rest) "MSSMART")
    with (Str.startswith rest "SMART").
  destruct (Str.startswith rest "SMART") eqn:E.
  - cbn [apply_entry]. unfold _parse_smart_select.
    change (Str.startswith ("MS" ++ rest) "MSSMART")
      with (Str.startswith rest "SMART").
    now rewrite E.
  - reflexivity.
Qed.

(** *** The panel lock with volume *)

(** X15: [_parse_system_lock] decodes the lock of the panel and the volume knob
    (SYPANEL+V LOCK ON or OFF) as a panel lock update, but no line that starts
    with SYPANEL+V reaches it through the dispatch table, whose prefix for it is
    SYPANEL LOCK: such a line gives no event. *)
Theorem panel_and_volume_lock_is_not_dispatched rest :
  dispatch PARSER_CONFIG ("SYPANEL+V" ++ rest) = Ok None
  /\ _parse_system_lock "SYPANEL+V LOCK ON"
     = Ok (Some ("panel_lock_update", [("state", VStr "on")]))
  /\ _parse_system_lock "SYPANEL+V LOCK OFF"
     = Ok (Some ("panel_lock_update", [("state", VStr "off")])).
Proof.
  split; [|split; reflexivity].
  skip_entries. reflexivity.
Qed.

(** *** No entry is hidden *)

Lemma unshadowed_spec table : forall seen,
  unshadowed seen table = true ->
  forall before prefix pf after,
    table = (before ++ (prefix, pf) :: after)%list ->
    forall e, In e before -> Str.startswith prefix (fst e) = false.
Proof.
  induction table as [|[p f] table IH]; intros seen H before prefix pf after E e He.
  - now destruct before.
  - cbn [unshadowed] in H. apply andb_true_iff in H as [Hp H].
    destruct before as [|b before]; [contradiction|].
    injection E as <- E.
    assert (Hseen : In p (seen ++ [p])%list)
      by (apply in_or_app; right; now left).
    destruct He as [<-|He].
    + cbn [fst].
      assert (G : forall table seen,
                 unshadowed seen table = true ->
                 forall before prefix pf after,
                   table = (before ++ (prefix, pf) :: after)%list ->
                   forall q, In q seen ->
                             Str.startswith prefix q = false).
      { clear. induction table as [|[p f] table IH];
          intros seen H before prefix pf after E q Hq.
        - now destruct before.
        - cbn [unshadowed] in H. apply andb_true_iff in H as [Hp H].
          destruct before as [|b before].
          + injection E as -> _ _.
            rewrite forallb_forall in Hp. specialize (Hp q Hq).
            now apply negb_true_iff in Hp.
          + injection E as _ E.
            apply (IH (seen ++ [p])%list H before prefix pf after E).
            apply in_or_app. now left. }
      exact (G table _ H before prefix pf after E p Hseen).
    + exact (IH _ H before prefix pf after E e He).
Qed.

(** X16: no entry of [PARSER_CONFIG] is out of reach: the line that is an
    entry's own prefix is handed to that entry, because no prefix earlier in the
    table is an initial part of it. *)
Theorem every_entry_can_be_reached before prefix pf after :
  PARSER_CONFIG = (before ++ (prefix, pf) :: after)%list ->
  dispatch PARSER_CONFIG prefix = apply_entry pf prefix.
Proof.
  intros E. rewrite E. apply dispatch_first_match.
  - apply (unshadowed_spec PARSER_CONFIG [] eq_refl before prefix pf after E).
  - rewrite <- (append_nil_r prefix) at 1. apply startswith_app.
Qed.

Lemma every_entry_can_be_reached_witness :
  dispatch PARSER_CONFIG "MV" = apply_entry (Full _parse_volume) "MV".
Proof.
  apply (every_entry_can_be_reached
           [("MVMAX", Full _parse_volume)] "MV" (Full _parse_volume)
           (tl (tl PARSER_CONFIG))).
  reflexivity.
Defined.

(** *** Center gain *)

Lemma forallb_digit_newline d :
  Str.forallb Re.digit (d ++ String "010" "") = false.
Proof.
  rewrite forallb_app. cbn [Str.forallb].
  change (Re.digit "010") with false. cbn [andb].
  apply andb_false_r.
Qed.

Lemma digits_line_end d d' nl :
  Str.forallb Re.digit d = true -> line_end nl = true ->
  d = d' ++ nl -> d = d'.
Proof.
  intros Hd Hn E. unfold line_end in Hn. apply orb_true_iff in Hn as [Hn|Hn];
    apply String.eqb_eq in Hn; subst nl.
  - now rewrite append_nil_r in E.
  - subst d. now rewrite forallb_digit_newline in Hd.
Qed.

(** What precedes the digits and the digits themselves are determined by
    the line. *)
Lemma sep_digits_unique sep d sep' d' nl :
  opt_space sep = true -> digit_string d = true ->
  opt_space sep' = true -> Str.forallb Re.digit d' = true ->
  d' <> "" -> line_end nl = true ->
  sep ++ d = sep' ++ d' ++ nl -> d = d'.
Proof.
  intros Hs Hd Hs' Hd' Hne Hn E.
  destruct (digit_string_inv d Hd) as (c0 & t & -> & Hc0 & Hall).
  destruct d' as [|c1 t']; [contradiction|].
  cbn [Str.forallb] in Hd'. apply andb_true_iff in Hd' as [Hc1 Ht'].
  destruct sep as [|a [|? ?]]; [| |discriminate];
    destruct sep' as [|a' [|? ?]]; try discriminate;
    cbn [String.append opt_space] in *.
  - apply (digits_line_end (String c0 t) (String c1 t') nl Hall Hn E).
  - injection E as -> _. now rewrite (digit_not_space _ Hc0) in Hs'.
  - injection E as -> _. now rewrite (digit_not_space _ Hc1) in Hs.
  - injection E as _ E1 E2.
    apply (digits_line_end (String c0 t) (String c1 t') nl Hall Hn).
    cbn [String.append]. now rewrite E1, E2.
Qed.

Lemma rmatch_PSCEG sep a b :
  opt_space sep = true -> Re.digit a = true -> Re.digit b = true ->
  Re.rmatch PSCEG_RE ("PSCEG" ++ sep ++ String a (String b ""))
  = Some [(1%nat, String a (String b ""))].
Proof.
  intros Hs Ha Hb. unfold Re.rmatch, PSCEG_RE. cbn [Re.run].
  rewrite strip_prefix_app.
  assert (R : forall c,
    Re.rep Re.digit 2 (Some 2%nat) (String a (String b ""))
      (fun s' => if Re.at_end s'
                 then Some ((1%nat,
                             Re.consumed (String a (String b "")) s') :: c)
                 else None)
    = Some ((1%nat, String a (String b "")) :: c)).
  { intros c. cbn [Re.rep Re.one_more Nat.pred option_map].
    rewrite Ha, Hb. reflexivity. }
  destruct sep as [|x [|? ?]]; [| |discriminate]; cbn [String.append].
  - rewrite (digit_not_space a Ha). apply R.
  - cbn [opt_space] in Hs. rewrite Hs. now rewrite R.
Qed.

(** X17: the center gain parser takes a value of exactly two decimal digits,
    read as tenths (PSCEG05 is 0.5 dB, PSCEG10 is 1.0 dB): a run of one digit,
    or of three or more, gives no event, unlike the values with half steps. *)
Theorem center_gain_takes_two_digits sep d :
  opt_space sep = true ->
  digit_string d = true ->
  _parse_center_gain ("PSCEG" ++ sep ++ d)
  = if Nat.eqb (String.length d) 2
    then Ok (Some [("value",
                    VFloat (fdiv (float_of_Z (Str.digits_val d)) ten))])
    else Ok None.
Proof.
  intros Hs Hd. unfold _parse_center_gain.
  destruct (Nat.eqb (String.length d) 2) eqn:L.
  - apply Nat.eqb_eq in L.
    destruct d as [|a [|b [|? ?]]]; try discriminate.
    unfold digit_string in Hd. cbn [Str.is_empty negb andb Str.forallb] in Hd.
    apply andb_true_iff in Hd as [Ha Hb].
    rewrite andb_true_r in Hb.
    rewrite (rmatch_PSCEG sep a b Hs Ha Hb).
    cbn [Re.grp Re.group Nat.eqb].
    rewrite py_int_digits; [reflexivity|].
    unfold digit_string. cbn [Str.is_empty negb andb Str.forallb].
    now rewrite Ha, Hb.
  - destruct (Re.rmatch PSCEG_RE _) as [m|] eqn:E; [|reflexivity].
    exfalso.
    apply PSCEG_RE_inv in E as (sep' & d' & nl & E & _ & Hs' & Hd' & L' & Hn).
    assert (E' : sep ++ d = sep' ++ d' ++ nl).
    { clear -E. cbn [String.append] in E. now injection E. }
    assert (Hne : d' <> "") by (intros ->; discriminate).
    rewrite (sep_digits_unique sep d sep' d' nl Hs Hd Hs' Hd' Hne Hn E') in L.
    rewrite L' in L. discriminate.
Qed.

Lemma center_gain_takes_two_digits_witness :
  _parse_center_gain "PSCEG 05"
  = Ok (Some [("value", VFloat (fdiv (float_of_Z 5) ten))]).
Proof.
  apply (center_gain_takes_two_digits " " "05"); reflexivity.
Defined.

(* ===================================================================== *)
(** ** What is sent is what is decoded *)
(* ===================================================================== *)

Lemma same_float_eq x y : same_float x y = true -> x = y.
Proof.
  destruct x as [a|a| |a m e], y as [b|b| |b m' e']; try discriminate;
    cbn [same_float]; intros H.
  - now apply Bool.eqb_prop in H as ->.
  - now apply Bool.eqb_prop in H as ->.
  - reflexivity.
  - apply andb_true_iff in H as [H He]. apply andb_true_iff in H as [Hs Hm].
    apply Bool.eqb_prop in Hs as ->. apply Pos.eqb_eq in Hm as ->.
    now apply Z.eqb_eq in He as ->.
Qed.

Lemma decoded_as_spec prefix out name v :
  decoded_as prefix out name v = true ->
  exists text, out = Ok text
               /\ dispatch PARSER_CONFIG (prefix ++ text)
                  = Ok (Some (name, [("value", VFloat v)])).
Proof.
  unfold decoded_as. destruct out as [text|]; [|discriminate].
  intros H. exists text. split; [reflexivity|].
  destruct (dispatch PARSER_CONFIG (prefix ++ text))
    as [[[name' [|[key [| |v'| |]] [|]]]|]|]; try discriminate.
  apply andb_true_iff in H as [H Hv]. apply andb_true_iff in H as [Hn Hk].
  apply String.eqb_eq in Hn as ->. apply String.eqb_eq in Hk as ->.
  now rewrite (same_float_eq _ _ Hv).
Qed.

Lemma volume_half_steps :
  all_from (fun h => decoded_as "MV" (volume_text (dyadic h (-1)))
                                "volume_update" (dyadic h (-1)))
           0 (Z.to_nat 197) = true.
Proof. vm_compute. reflexivity. Qed.

(** X18: a volume between 0 and 98 in steps of 0.5 survives the round trip:
    [format_volume] returns a text (two digits for a whole number, three for a
    half step) and the line MV followed by that text, which is what VOLUME_SET
    sends and the receiver reports, is decoded by [parse_response]'s dispatch
    table as a volume update of the same value. *)
Theorem format_volume_round_trip float_of_str value_str h :
  0 <= h <= 196 ->
  float_of_str value_str = Ok (dyadic h (-1)) ->
  exists text,
    format_volume float_of_str value_str = Ok text
    /\ dispatch PARSER_CONFIG ("MV" ++ text)
       = Ok (Some ("volume_update", [("value", VFloat (dyadic h (-1)))])).
Proof.
  intros Hh Hf.
  pose proof (all_from_spec _ _ _ h volume_half_steps) as H.
  cbv beta in H. rewrite Z2Nat.id in H by lia. specialize (H ltac:(lia)).
  apply decoded_as_spec in H as (text & Ht & Hd).
  exists text. split; [|exact Hd].
  unfold format_volume. rewrite Hf. exact Ht.
Qed.

Lemma format_volume_round_trip_witness :
  exists text,
    format_volume py_float "50" = Ok text
    /\ dispatch PARSER_CONFIG ("MV" ++ text)
       = Ok (Some ("volume_update", [("value", VFloat (dyadic 100 (-1)))])).
Proof.
  apply (format_volume_round_trip py_float "50" 100).
  - lia.
  - vm_compute. reflexivity.
Defined.

Lemma volume_half_steps_above_100 :
  all_from (fun h => Z.even h
                     || decoded_as "MV" (volume_text (dyadic h (-1)))
                                   "volume_update" (float_of_Z (5 * h)))
           200 (Z.to_nat 1800) = true.
Proof. vm_compute. reflexivity. Qed.

(** X19: [format_volume] alone does not keep a half step of 100.5 or more: its
    text then has four digits, which the parser reads as a whole number, so that
    the line MV followed by the text is decoded as ten times the value (100.5
    gives MV1005, decoded as 1005.0).  The round trip rests on the range 0 to 98
    that VOLUME_SET declares. *)
Theorem format_volume_above_range float_of_str value_str h :
  200 <= h < 2000 ->
  Z.odd h = true ->
  float_of_str value_str = Ok (dyadic h (-1)) ->
  exists text,
    format_volume float_of_str value_str = Ok text
    /\ dispatch PARSER_CONFIG ("MV" ++ text)
       = Ok (Some ("volume_update", [("value", VFloat (float_of_Z (5 * h)))])).
Proof.
  intros Hh Hodd Hf.
  pose proof (all_from_spec _ _ _ h volume_half_steps_above_100) as H.
  cbv beta in H. rewrite Z2Nat.id in H by lia. specialize (H ltac:(lia)).
  rewrite <- Z.negb_odd, Hodd in H. cbn [negb orb] in H.
  apply decoded_as_spec in H as (text & Ht & Hd).
  exists text. split; [|exact Hd].
  unfold format_volume. rewrite Hf. exact Ht.
Qed.

Lemma format_volume_above_range_witness :
  exists text,
    format_volume (fun _ => Ok (dyadic 201 (-1))) "100.5" = Ok text
    /\ dispatch PARSER_CONFIG ("MV" ++ text)
       = Ok (Some ("volume_update", [("value", VFloat (float_of_Z 1005))])).
Proof.
  apply (format_volume_above_range (fun _ => Ok (dyadic 201 (-1)))
           "100.5" 201).
  - lia.
  - reflexivity.
  - reflexivity.
Defined.

Lemma dialog_level_half_steps :
  all_from (fun h => decoded_as "PSDIL " (dialog_level_text (dyadic h (-1)))
                                "dialog_level_update" (dyadic h (-1)))
           76 (Z.to_nat 49) = true.
Proof. vm_compute. reflexivity. Qed.

(** X20: a dialog level between 38 and 62 (-12 dB to +12 dB) in steps of 0.5
    survives the round trip: [format_dialog_level] returns a text and the line
    PSDIL, a space and that text, which is what DIALOG_LEVEL_SET sends, is
    decoded as a dialog level update of the same value. *)
Theorem format_dialog_level_round_trip float_of_str value_str h :
  76 <= h <= 124 ->
  float_of_str value_str = Ok (dyadic h (-1)) ->
  exists text,
    format_dialog_level float_of_str value_str = Ok text
    /\ dispatch PARSER_CONFIG ("PSDIL " ++ text)
       = Ok (Some ("dialog_level_update",
                   [("value", VFloat (dyadic h (-1)))])).
Proof.
  intros Hh Hf.
  pose proof (all_from_spec _ _ _ h dialog_level_half_steps) as H.
  cbv beta in H. rewrite Z2Nat.id in H by lia. specialize (H ltac:(lia)).
  apply decoded_as_spec in H as (text & Ht & Hd).
  exists text. split; [|exact Hd].
  unfold format_dialog_level. rewrite Hf. exact Ht.
Qed.

Lemma format_dialog_level_round_trip_witness :
  exists text,
    format_dialog_level py_float "50" = Ok text
    /\ dispatch PARSER_CONFIG ("PSDIL " ++ text)
       = Ok (Some ("dialog_level_update",
                   [("value", VFloat (dyadic 100 (-1)))])).
Proof.
  apply (format_dialog_level_round_trip py_float "50" 100).
  - lia.
  - vm_compute. reflexivity.
Defined.

(** X21: a center gain of [k] tenths of a dB, [k] from 0 to 10, given as the
    float nearest to [k / 10], survives the round trip: [format_center_gain]
    returns the two digits of [k] and the line PSCEG followed by them, which is
    what CENTER_GAIN_SET sends, is decoded as a center gain update of the same
    float. *)
Theorem format_center_gain_round_trip float_of_str value_str k :
  0 <= k <= 10 ->
  float_of_str value_str = Ok (fdiv (float_of_Z k) ten) ->
  format_center_gain float_of_str value_str = Ok (zero_pad 2 k)
  /\ dispatch PARSER_CONFIG ("PSCEG" ++ zero_pad 2 k)
     = Ok (Some ("center_gain_update",
                 [("value", VFloat (fdiv (float_of_Z k) ten))])).
Proof.
  intros Hk Hf.
  unfold format_center_gain. rewrite Hf. cbn [bind].
  assert (E : k = 0 \/ k = 1 \/ k = 2 \/ k = 3 \/ k = 4 \/ k = 5 \/ k = 6
              \/ k = 7 \/ k = 8 \/ k = 9 \/ k = 10) by lia.
  repeat (destruct E as [->|E]; [split; vm_compute; reflexivity|]).
  subst k. split; vm_compute; reflexivity.
Qed.

Lemma format_center_gain_round_trip_witness :
  format_center_gain (fun s => Ok (fdiv (float_of_Z 3) ten)) "0.3"
  = Ok (zero_pad 2 3)
  /\ dispatch PARSER_CONFIG ("PSCEG" ++ zero_pad 2 3)
     = Ok (Some ("center_gain_update",
                 [("value", VFloat (fdiv (float_of_Z 3) ten))])).
Proof.
  apply (format_center_gain_round_trip
           (fun s => Ok (fdiv (float_of_Z 3) ten)) "0.3" 3).
  - lia.
  - reflexivity.
Defined.

(* ===================================================================== *)
(** ** Merging the command tables *)
(* ===================================================================== *)

Lemma has_key_existsb {V} key (m : CommandMap.command_dict V) :
  CommandMap.has_key V key m = existsb (String.eqb key) (map fst m).
Proof.
  induction m as [|[k v] m IH]; cbn [CommandMap.has_key map existsb fst];
    auto.
  now rewrite IH, (String.eqb_sym k key).
Qed.

Lemma merge_items_spec {V} (items : CommandMap.command_dict V) :
  forall merged,
    CommandMap.merge_items V merged items
    = match first_repeated (map fst merged) (map fst items) with
      | None => CommandMap.Merged (merged ++ items)%list
      | Some k => CommandMap.KeyError k
      end.
Proof.
  induction items as [|[k v] items IH]; intros merged;
    cbn [CommandMap.merge_items map fst first_repeated].
  - now rewrite app_nil_r.
  - rewrite has_key_existsb.
    destruct (existsb (String.eqb k) (map fst merged)); [reflexivity|].
    rewrite IH, map_app. cbn [map fst]. now rewrite <- app_assoc.
Qed.

Lemma first_repeated_app keys1 : forall seen keys2,
  first_repeated seen (keys1 ++ keys2)%list
  = match first_repeated seen keys1 with
    | Some k => Some k
    | None => first_repeated (seen ++ keys1)%list keys2
    end.
Proof.
  induction keys1 as [|k keys1 IH]; intros seen keys2;
    cbn [app first_repeated].
  - now rewrite app_nil_r.
  - destruct (existsb (String.eqb k) seen); [reflexivity|].
    rewrite IH, <- app_assoc. reflexivity.
Qed.

Lemma merge_from_spec {V} (dicts : list (CommandMap.command_dict V)) :
  forall merged,
    CommandMap.merge_from V merged dicts
    = match first_repeated (map fst merged) (map fst (List.concat dicts)) with
      | None => CommandMap.Merged (merged ++ List.concat dicts)%list
      | Some k => CommandMap.KeyError k
      end.
Proof.
  induction dicts as [|d dicts IH]; intros merged;
    cbn [CommandMap.merge_from List.concat].
  - cbn. now rewrite app_nil_r.
  - rewrite merge_items_spec, map_app, first_repeated_app.
    destruct (first_repeated (map fst merged) (map fst d)); [reflexivity|].
    rewrite IH, map_app, <- app_assoc. reflexivity.
Qed.

Lemma first_repeated_none keys : forall seen,
  first_repeated seen keys = None
  <-> NoDup keys /\ (forall k, In k keys -> ~ In k seen).
Proof.
  induction keys as [|k keys IH]; intros seen; cbn [first_repeated].
  - split; [intros _; split; [constructor|intros k []]|reflexivity].
  - destruct (existsb (String.eqb k) seen) eqn:E.
    + split; [discriminate|]. intros [_ H]. exfalso.
      apply existsb_exists in E as (x & Hx & Ex).
      apply String.eqb_eq in Ex. subst x.
      apply (H k); [now left|exact Hx].
    + rewrite IH. split.
      * intros [Hnd H]. split.
        -- constructor; [|exact Hnd]. intros Hin.
           apply (H k Hin). apply in_or_app. right. now left.
        -- intros x [<-|Hx] Hs.
           ++ assert (T : existsb (String.eqb k) seen = true)
                by (apply existsb_exists; exists k; split;
                    [exact Hs|apply String.eqb_refl]).
              congruence.
           ++ apply (H x Hx). apply in_or_app. now left.
      * intros [Hnd H]. inversion Hnd as [|? ? Hk Hnd']; subst. split; auto.
        intros x Hx Hs. apply in_app_or in Hs as [Hs|[<-|[]]].
        -- apply (H x); [now right|exact Hs].
        -- contradiction.
Qed.

(** X22: [_merge_command_dicts] returns the tables joined in the order given,
    with the entries of each in their order, exactly when no key occurs twice
    among them; otherwise it raises [KeyError] for the first key met a second
    time, so that no entry is ever overwritten. *)
Theorem merge_command_dicts_keeps_every_entry
    (command_info : Type)
    (dicts : list (CommandMap.command_dict command_info)) :
  CommandMap._merge_command_dicts command_info dicts
  = match first_repeated [] (map fst (List.concat dicts)) with
    | None => CommandMap.Merged (List.concat dicts)
    | Some key => CommandMap.KeyError key
    end
  /\ (first_repeated [] (map fst (List.concat dicts)) = None
      <-> NoDup (map fst (List.concat dicts))).
Proof.
  split.
  - unfold CommandMap._merge_command_dicts. now rewrite merge_from_spec.
  - rewrite first_repeated_none. split; [now intros [H _]|].
    intros H. split; [exact H|]. now intros k _ [].
Qed.

(* ===================================================================== *)
(** ** What a restart keeps of the configuration *)
(* ===================================================================== *)

Lemma config_get_set_item key v d :
  Config.has_key key d = true ->
  Config.get key (Config.set_item key v d) = Some v.
Proof.
  induction d as [|[k x] d IH]; [discriminate|].
  cbn [Config.has_key Config.set_item]. intros H.
  destruct (String.eqb k key) eqn:E.
  - cbn [Config.get]. now rewrite E.
  - cbn [Config.get]. rewrite E. now apply IH.
Qed.

(** X23: a file that holds the key server_port makes [load_config] skip the
    input names: whatever the file holds under input_names, and whether or not
    the other keys are there, the names loaded are the defaults.  (The lines
    that read input_names stand in the branch taken when server_port is
    missing.) *)
Theorem load_config_skips_saved_input_names ip update_from members d :
  Config.config_file d = Config.Content (Config.JObj members) ->
  Config.has_key "server_port" members = true ->
  exists self d',
    Config.load_config ip update_from d = Config.Done (self, d')
    /\ Config._input_names self = Config.DEFAULT_INPUT_NAMES.
Proof.
  intros Hf Hp. unfold Config.load_config. rewrite Hf.
  cbn [Config.contains Config.and_then Config.getitem].
  destruct (Config.has_key "receiver_ip" members) eqn:E1.
  - destruct (Config.get "receiver_ip" members) as [v1|] eqn:G1.
    2:{ exfalso. clear -E1 G1. induction members as [|[k x] m IH];
          [discriminate|]. cbn in E1, G1.
        destruct (String.eqb k "receiver_ip"); [discriminate|]. auto. }
    cbn [Config.and_then].
    destruct (Config.has_key "server_host" members) eqn:E2.
    + destruct (Config.get "server_host" members) as [v2|] eqn:G2.
      2:{ exfalso. clear -E2 G2. induction members as [|[k x] m IH];
            [discriminate|]. cbn in E2, G2.
          destruct (String.eqb k "server_host"); [discriminate|]. auto. }
      cbn [Config.and_then]. rewrite Hp.
      destruct (Config.get "server_port" members) as [v3|] eqn:G3.
      2:{ exfalso. clear -Hp G3. induction members as [|[k x] m IH];
            [discriminate|]. cbn in Hp, G3.
          destruct (String.eqb k "server_port"); [discriminate|]. auto. }
      cbn [Config.and_then]. eexists _, _. split; reflexivity.
    + cbn [Config.and_then]. rewrite Hp.
      destruct (Config.get "server_port" members) as [v3|] eqn:G3.
      2:{ exfalso. clear -Hp G3. induction members as [|[k x] m IH];
            [discriminate|]. cbn in Hp, G3.
          destruct (String.eqb k "server_port"); [discriminate|]. auto. }
      cbn [Config.and_then]. eexists _, _. split; reflexivity.
  - cbn [Config.and_then].
    destruct (Config.has_key "server_host" members) eqn:E2.
    + destruct (Config.get "server_host" members) as [v2|] eqn:G2.
      2:{ exfalso. clear -E2 G2. induction members as [|[k x] m IH];
            [discriminate|]. cbn in E2, G2.
          destruct (String.eqb k "server_host"); [discriminate|]. auto. }
      cbn [Config.and_then]. rewrite Hp.
      destruct (Config.get "server_port" members) as [v3|] eqn:G3.
      2:{ exfalso. clear -Hp G3. induction members as [|[k x] m IH];
            [discriminate|]. cbn in Hp, G3.
          destruct (String.eqb k "server_port"); [discriminate|]. auto. }
      cbn [Config.and_then]. eexists _, _. split; reflexivity.
    + cbn [Config.and_then]. rewrite Hp.
      destruct (Config.get "server_port" members) as [v3|] eqn:G3.
      2:{ exfalso. clear -Hp G3. induction members as [|[k x] m IH];
            [discriminate|]. cbn in Hp, G3.
          destruct (String.eqb k "server_port"); [discriminate|]. auto. }
      cbn [Config.and_then]. eexists _, _. split; reflexivity.
Qed.

Lemma load_config_skips_saved_input_names_witness :
  let d := {| Config.config_file :=
                Config.Content
                  (Config.JObj
                     [("server_port", Config.JInt 8080);
                      ("input_names",
                       Config.JObj [("TV", Config.JStr "Television")])]);
              Config.writable := false |} in
  exists self d',
    Config.load_config "192.168.1.203"
      (fun names _ => Config.Done names) d = Config.Done (self, d')
    /\ Config._input_names self = Config.DEFAULT_INPUT_NAMES.
Proof.
  intros d.
  apply (load_config_skips_saved_input_names "192.168.1.203"
           (fun names _ => Config.Done names)
           [("server_port", Config.JInt 8080);
            ("input_names", Config.JObj [("TV", Config.JStr "Television")])]
           d); reflexivity.
Defined.

Lemma load_saved ip update_from self d :
  Config.writable d = true ->
  Config.init ip update_from (Config.save_config self d)
  = Config.Done
      ({| Config._input_names := Config.DEFAULT_INPUT_NAMES;
          Config._receiver_ip := Config._receiver_ip self;
          Config._server_host := Config._server_host self;
          Config._server_port := Config._server_port self |},
       Config.save_config self d).
Proof.
  intros Hw. unfold Config.init, Config.load_config, Config.save_config.
  rewrite Hw. reflexivity.
Qed.

(** X24: a renamed input does not survive a restart.  [set_input_name] on a
    known input code stores the new name in the object and, when the file can be
    written, in the file; but a new [ConfigManager] built from that file has the
    default names again, while it keeps the receiver IP, the host and the port
    that were saved, and leaves the file as it is. *)
Theorem renamed_input_is_lost_at_restart ip update_from input_code new_name
    self d :
  Config.writable d = true ->
  Config.has_key input_code (Config._input_names self) = true ->
  let self1 := fst (Config.set_input_name input_code new_name self d) in
  let d1 := snd (Config.set_input_name input_code new_name self d) in
  Config.get input_code (Config.get_input_names self1) = Some new_name
  /\ exists self2,
       Config.init ip update_from d1 = Config.Done (self2, d1)
       /\ Config.get_input_names self2 = Config.DEFAULT_INPUT_NAMES
       /\ Config._receiver_ip self2 = Config._receiver_ip self
       /\ Config._server_host self2 = Config._server_host self
       /\ Config._server_port self2 = Config._server_port self.
Proof.
  intros Hw Hk self1 d1. subst self1 d1.
  unfold Config.set_input_name. rewrite Hk. cbn [fst snd].
  split.
  - unfold Config.get_input_names. cbn [Config.set_input_names
      Config._input_names]. now apply config_get_set_item.
  - eexists. split; [apply (load_saved ip update_from _ d Hw)|].
    now repeat split.
Qed.

Lemma renamed_input_is_lost_at_restart_witness :
  let ip := "192.168.1.203" in
  let update_from := fun (names : Config.dict) (_ : Config.json) =>
                       Config.Done names in
  let self := Config.defaults ip in
  let d := {| Config.config_file := Config.Missing;
              Config.writable := true |} in
  let self1 := fst (Config.set_input_name "TV" (Config.JStr "Television")
                                          self d) in
  let d1 := snd (Config.set_input_name "TV" (Config.JStr "Television")
                                       self d) in
  Config.get "TV" (Config.get_input_names self1)
  = Some (Config.JStr "Television")
  /\ exists self2,
       Config.init ip update_from d1 = Config.Done (self2, d1)
       /\ Config.get_input_names self2 = Config.DEFAULT_INPUT_NAMES
       /\ Config._receiver_ip self2 = Config._receiver_ip self
       /\ Config._server_host self2 = Config._server_host self
       /\ Config._server_port self2 = Config._server_port self.
Proof.
  intros ip update_from self d.
  apply (renamed_input_is_lost_at_restart ip update_from "TV"
           (Config.JStr "Television") self d); reflexivity.
Defined.


(* ===================================================================== *)
(** ** From the packet to the event *)
(* ===================================================================== *)

Lemma re_split_plain s : forall cur,
  Str.forallb not_crlf s = true ->
  re_split cur false s = [cur ++ s].
Proof.
  induction s as [|c s IH]; intros cur H; cbn [re_split].
  - now rewrite append_nil_r.
  - cbn [Str.forallb] in H. apply andb_true_iff in H as [Hc Hs].
    unfold not_crlf in Hc. apply negb_true_iff in Hc. rewrite Hc.
    rewrite (IH _ Hs), append_assoc. reflexivity.
Qed.

Lemma lines_of_plain s :
  Str.forallb not_crlf s = true ->
  lines_of "" false s
  = if Str.is_empty (Str.strip s) then [] else [Str.strip s].
Proof.
  intros H. unfold lines_of. rewrite (re_split_plain s "" H).
  cbn [String.append List.map List.filter].
  now destruct (Str.is_empty (Str.strip s)).
Qed.

Lemma dispatch_NSE_slot d :
  Re.digit d = true ->
  dispatch PARSER_CONFIG ("NSE" ++ String d "") = Ok None.
Proof.
  intros H. apply digit_cases in H. cbn in H.
  repeat (destruct H as [<-|H]; [vm_compute; reflexivity|]).
  contradiction.
Qed.

Lemma parse_slot_without_text self now nt d :
  Re.digit d = true ->
  content_slot (Str.digits_val (String d "")) = true ->
  in_menu_modes (screen_mode (context self)) = true ->
  timed_out now self = false ->
  parse now nt ("NSE" ++ String d "") self
  = (None, set_pending (_reset_context_if_timed_out now self)
                       (Some (Str.digits_val (String d "")))).
Proof.
  intros Hd Hslot Hm Ht.
  nse_line d "". rewrite (reset_fresh _ _ Ht).
  unfold content_slot in Hslot.
  destruct (Str.digits_val (String d "") =? 0) eqn:H0; [lia|].
  destruct (Str.digits_val (String d "") =? 8) eqn:H8; [lia|].
  cbn [set_context set_last_update_time context screen_mode].
  rewrite Hm. cbn [Str.strip Str.lstrip_by Str.rstrip_by Str.is_empty andb].
  now destruct (_pending_selected_line self).
Qed.

(** X26: a selected item and its text sent in one packet, the slot line, a line
    feed and the text, is brought to the form of two lines that the OSD parser
    reassembles: in Menu or Context Menu mode and within the timeout,
    [process_data] calls [parse_response] twice and emits one event, the item of
    that slot with the cleaned text, selected; no fragment is left pending. *)
Theorem selected_item_packet_gives_one_event clock k d text osd :
  Re.digit d = true ->
  content_slot (Str.digits_val (String d "")) = true ->
  in_menu_modes (screen_mode (context osd)) = true ->
  timed_out (fst (clock k)) osd = false ->
  Str.forallb not_crlf text = true ->
  Str.is_empty (Str.strip text) = false ->
  Str.startswith (Str.strip text) "NSE" = false ->
  process_data clock k (selected_item_packet d text) osd
  = ([fragment_event (screen_mode (context osd))
                     (Str.digits_val (String d ""))
                     (_clean_osd_text (Str.strip text))],
     set_pending (_reset_context_if_timed_out (fst (clock k)) osd) None,
     S (S k), None).
Proof.
  intros Hd Hslot Hm Ht Htext Hne Hns.
  unfold process_data, selected_item_packet.
  rewrite loop_lines.
  fold (lines_of "" false
          ("NSE" ++ String d "" ++ String "010" "" ++ text ++ String "013" "")).
  assert (E : "NSE" ++ String d "" ++ String "010" "" ++ text ++ String "013" ""
              = ("NSE" ++ String d "") ++ String "010" ""
                ++ (text ++ String "013" "" ++ ""))
    by reflexivity.
  rewrite E. clear E.
  rewrite lines_of_join by (reflexivity || discriminate).
  rewrite lines_of_join by (reflexivity || discriminate).
  assert (Hhead : Str.forallb not_crlf ("NSE" ++ String d "") = true).
  { cbn [String.append Str.forallb]. unfold not_crlf at 4.
    apply digit_cases in Hd. cbn in Hd.
    repeat (destruct Hd as [<-|Hd]; [reflexivity|]). contradiction. }
  rewrite (lines_of_plain _ Hhead), (lines_of_plain _ Htext), Hne.
  assert (Hs : Str.strip ("NSE" ++ String d "") = "NSE" ++ String d "").
  { apply digit_cases in Hd. cbn in Hd.
    repeat (destruct Hd as [<-|Hd]; [reflexivity|]). contradiction. }
  rewrite Hs. cbn [String.append Str.is_empty lines_of re_split List.map
                   List.filter Str.strip Str.lstrip_by Str.rstrip_by negb app].
  change (String "N" (String "S" (String "E" (String d ""))))
    with ("NSE" ++ String d "").
  cbn [loop]. rewrite Hs. cbn [String.append Str.is_empty].
  change (String "N" (String "S" (String "E" (String d ""))))
    with ("NSE" ++ String d "").
  unfold parse_response at 1.
  rewrite (parse_slot_without_text osd _ _ d Hd Hslot Hm Ht).
  rewrite (dispatch_NSE_slot d Hd).
  rewrite strip_idem, Hne.
  unfold parse_response.
  rewrite (parse_pending_non_NSE
             (set_pending (_reset_context_if_timed_out (fst (clock k)) osd)
                          (Some (Str.digits_val (String d ""))))
             (Str.digits_val (String d "")) _ _
             (Str.strip text) eq_refl Hns).
  cbn [loop]. rewrite (reset_fresh _ _ Ht). reflexivity.
Qed.

Lemma selected_item_packet_gives_one_event_witness :
  let clock := fun _ : nat => (float_of_Z 1, float_of_Z 1) in
  process_data clock 0 (selected_item_packet "2" "Selected Text")
               stale_menu_state
  = ([fragment_event (Some MODE_MENU) 2 "Selected Text"],
     set_pending (_reset_context_if_timed_out (float_of_Z 1) stale_menu_state)
                 None,
     2%nat, None).
Proof.
  intros clock.
  apply (selected_item_packet_gives_one_event clock 0%nat "2"
           "Selected Text" stale_menu_state); reflexivity.
Defined.
